(** * ris_from_inspirehep.py: a shallow embedding and its verified properties

    The script queries the INSPIRE-HEP literature API, filters the records
    by author affiliation and by an exclusion list of DOIs, and renders the
    surviving records as RIS blocks.  This file embeds the functions
    [order_str], [get_doctype], [join_with_and], [select], [get_ris] and
    [exclude_dois_from], and the main program with its fetch loop, and
    proves properties of them.

    Conventions of the embedding.
    - A Python [str] is the list of its Unicode code points ([list N]).
      [lit] turns an ASCII literal into such a list.
    - A raised exception is the [Raise] outcome of [result]; what the
      program writes or does to the outside world ([print], an HTTP
      request, [time.sleep]) is an [event] of a trace.
    - The trace holds these three kinds of events and no others.  The
      [logging.debug] calls of the script influence no computed value and
      are left out: what the logging module writes to the standard output
      under [--verbose] is not part of a trace, so an empty trace means
      that [print], [requests.get] and [time.sleep] were not called, not
      that nothing was written.
    - JSON records are typed after the RawRecord of the specification.  A
      key that the script tests with [in] is an [option] field.  A key it
      subscripts without a test is a plain field where RawRecord has it
      unconditionally (identifier, publication_info, titles, document
      type, author list, an author's name, the 'value' of a DOI, of an
      affiliation and of a collaboration) and an [option] field whose
      absence is a [KeyError] where RawRecord calls it optional (journal
      title and volume of a publication_info entry).  Lists may be empty;
      subscripting an empty list is an [IndexError].
    - Of the library calls, [urllib.parse.urlencode], the iteration over
      a text file and the division of two integers are modelled where
      the script depends on them: the first with its UTF-8 encoding and
      the [UnicodeEncodeError] of a surrogate, the second on the decoded
      text of the file, the third with its [ZeroDivisionError] and
      [OverflowError].  The file system, the server and the decoding of
      the exclusion file are given from outside. *)

From Stdlib Require Import ZArith NArith Ascii String DecimalString.
From Stdlib Require DecimalPos.
From stdpp Require Import base tactics option list sorting gmap.

Local Open Scope N_scope.

(** ** Python strings *)

Module Str.

Abbreviation str := (list N).

(** ASCII literal to code points. *)
Definition lit (s : string) : str :=
  N_of_ascii <$> list_ascii_of_string s.

(** [str(z)] for an integer. *)
Definition of_Z (z : Z) : str :=
  lit (NilEmpty.string_of_int (Z.to_int z)).

(** [s.upper()], restricted to ASCII letters; it is only applied to the
    two-letter field codes of the script, which are ASCII constants. *)
Definition upper_char (c : N) : N :=
  if (97 <=? c) && (c <=? 122) then c - 32 else c.
Definition upper (s : str) : str := upper_char <$> s.

(** [sep.join(parts)]. *)
Fixpoint join (sep : str) (parts : list str) : str :=
  match parts with
  | [] => []
  | [p] => p
  | p :: ps => p ++ sep ++ join sep ps
  end.

(** [s.startswith(p)]. *)
Fixpoint startswith (s p : str) {struct p} : bool :=
  match p, s with
  | [], _ => true
  | _ :: _, [] => false
  | x :: p', y :: s' => (x =? y) && startswith s' p'
  end.

(** [sub in s] for strings. *)
Fixpoint contains (sub s : str) : bool :=
  startswith s sub ||
  match s with
  | [] => false
  | _ :: s' => contains sub s'
  end.

(** The code points for which [str.isspace] holds; [str.strip()] without
    argument removes exactly these. *)
Definition is_space (c : N) : bool :=
  ((9 <=? c) && (c <=? 13)) || ((28 <=? c) && (c <=? 32)) ||
  (c =? 133) || (c =? 160) || (c =? 5760) ||
  ((8192 <=? c) && (c <=? 8202)) ||
  (c =? 8232) || (c =? 8233) || (c =? 8239) || (c =? 8287) || (c =? 12288).

Fixpoint lstrip (s : str) : str :=
  match s with
  | [] => []
  | c :: s' => if is_space c then lstrip s' else s
  end.
Definition rstrip (s : str) : str := rev (lstrip (rev s)).
Definition strip (s : str) : str := rstrip (lstrip s).

(** [s.replace(old, new)] for a non-empty [old] (both calls of the script
    pass a non-empty constant): occurrences are found from the left and do
    not overlap.  [skip] counts the characters of a matched occurrence that
    are still to be passed over. *)
Fixpoint replace_from (old new : str) (skip : nat) (s : str) : str :=
  match s with
  | [] => []
  | c :: s' =>
      match skip with
      | S k => replace_from old new k s'
      | O =>
          if startswith s old
          then new ++ replace_from old new (pred (length old)) s'
          else c :: replace_from old new O s'
      end
  end.
Definition replace (old new s : str) : str := replace_from old new O s.

(** [s.split(sep)] for a non-empty [sep] (the script passes [' - ']). *)
Fixpoint split_from (sep : str) (skip : nat) (s : str) : list str :=
  match s with
  | [] => [[]]
  | c :: s' =>
      match skip with
      | S k => split_from sep k s'
      | O =>
          if startswith s sep
          then [] :: split_from sep (pred (length sep)) s'
          else match split_from sep O s' with
               | p :: ps => (c :: p) :: ps
               | [] => [[c]]
               end
      end
  end.
Definition split (sep s : str) : list str := split_from sep O s.

(** Comparison of strings: lexicographic on code points, a proper prefix
    before its extensions. *)
Fixpoint str_leb (a b : str) : bool :=
  match a, b with
  | [], _ => true
  | _ :: _, [] => false
  | x :: a', y :: b' => (x <? y) || ((x =? y) && str_leb a' b')
  end.
Definition str_le (a b : str) : Prop := str_leb a b = true.

#[export] Instance str_le_dec : RelDecision str_le :=
  λ a b, decide (str_leb a b = true).

(** [sorted(l)] for a list of strings. *)
Definition sorted (l : list str) : list str := merge_sort str_le l.

End Str.
Export Str.


(** ** Exceptions and results *)

Inductive exn : Type :=
  | AssertionError
  | IndexError
  | KeyError (key : string)
  | NameError (name : string)
  | OverflowError
  | RuntimeError (msg : str)
  | UnicodeEncodeError
  | ZeroDivisionError.

Inductive result (A : Type) : Type :=
  | Ok (a : A)
  | Raise (e : exn).
Arguments Ok {A} a.
Arguments Raise {A} e.

#[export] Instance result_ret : MRet result := λ A a, Ok a.
#[export] Instance result_bind : MBind result := λ A B f m,
  match m with
  | Ok a => f a
  | Raise e => Raise e
  end.

(** [l[i]] for a list, negative indices counting from the end. *)
Definition subscript {A} (l : list A) (i : Z) : result A :=
  let n := Z.of_nat (length l) in
  let j := if (i <? 0)%Z then (n + i)%Z else i in
  if (j <? 0)%Z then Raise IndexError
  else match l !! Z.to_nat j with
       | Some x => Ok x
       | None => Raise IndexError
       end.

(** [l[:i]] for a list and a negative [i]: all but the last [-i] elements. *)
Definition slice_until {A} (l : list A) (i : Z) : list A :=
  take (Z.to_nat (Z.of_nat (length l) + i)) l.

(** [d[key]] for an optional key of a JSON object. *)
Definition getitem {A} (key : string) (field : option A) : result A :=
  match field with
  | Some x => Ok x
  | None => Raise (KeyError key)
  end.

(** ** Static tables *)

Definition AFFIL : str := lit "NICPB, Tallinn".

(** The second alias maps to 'Ehatäht, Karl'; ä is U+00E4 = 228. *)
Definition ALIASES : gmap str str :=
  {[ lit "Carvalho Antunes De Oliveira, Alexandra" := lit "Oliveira, Alexandra";
     lit "Ehataht, Karl" := lit "Ehat" ++ [228] ++ lit "ht, Karl" ]}.

Definition DOCTYPES : gmap str str :=
  {[ lit "article" := lit "JOUR";
     lit "conference paper" := lit "CONF" ]}.

(** ** get_doctype, join_with_and, select *)

Definition get_doctype (doctype : str) : result str :=
  match DOCTYPES !! doctype with
  | None => Raise (RuntimeError (lit "Unexpected document type: " ++ doctype))
  | Some code => Ok code
  end.

Definition join_with_and (arr : list str) : result str :=
  if bool_decide (arr = []) then Raise AssertionError
  else
    let nof_elems := length arr in
    if (nof_elems =? 1)%nat then subscript arr 0
    else if (nof_elems =? 2)%nat then
      a0 ← subscript arr 0;
      a1 ← subscript arr 1;
      Ok (a0 ++ lit " and " ++ a1)
    else
      let first_part := join (lit ", ") (slice_until arr (-1)) in
      a_last ← subscript arr (-1);
      Ok (first_part ++ lit " and " ++ a_last).

(** JSON objects that carry a single 'value' key: the entries of 'dois',
    'collaborations' and an author's 'affiliations'. *)
Record valued : Type := { value : str }.

Record author : Type := {
  full_name : str;
  affiliations : option (list valued);
}.

(** The [if] of the first loop of [select]: the author has an
    'affiliations' key and one of the affiliations is [AFFIL]. *)
Definition affiliated (author_item : author) : bool :=
  match affiliations author_item with
  | None => false
  | Some affs => existsb (λ affiliation, bool_decide (value affiliation = AFFIL)) affs
  end.

(** [ALIASES[n] if n in ALIASES else n]. *)
Definition resolve_alias (author_name : str) : str :=
  default author_name (ALIASES !! author_name).

(** The list built by the first loop of [select]. *)
Definition candidates (authors : list author) : list str :=
  full_name <$> filter (λ a, affiliated a) authors.

(** The branch [selected_authors.append(author)] reads a name that is bound
    nowhere in the module, so reaching it raises [NameError]. *)
Definition select (authors : list author) (name : str) (keep_affiliation : bool)
  : result (list str) :=
  let selected_authors := candidates authors in
  selected_authors ←
    (if bool_decide (name ∉ selected_authors) then
       if match ALIASES !! name with
          | Some alias => bool_decide (alias ∈ selected_authors)
          | None => false
          end
       then Ok selected_authors
       else if keep_affiliation then Raise (NameError "author")
       else Ok []
     else Ok selected_authors);
  Ok (sorted (resolve_alias <$> selected_authors)).

(** ** JSON records of the API *)

Record pubinfo : Type := {
  year : option Z;
  journal_title : option str;
  journal_volume : option str;
  page_start : option str;
  page_end : option str;
}.

Record title_entry : Type := { title : str }.
Record document : Type := { url : option str }.
(** An entry of 'urls'; its key is 'value'. *)
Record url_entry : Type := { url_value : option str }.

Record json_metadata : Type := {
  dois : option (list valued);
  publication_info : list pubinfo;
  document_type : list str;
  titles : list title_entry;
  documents : option (list document);
  urls : option (list url_entry);
  authors : list author;
  collaborations : option (list valued);
}.

(** One hit of the API; [entry_id] is its 'id' key. *)
Record json_entry : Type := {
  entry_id : str;
  metadata : json_metadata;
}.

(** ** Effects *)

(** The calls of the script that reach the outside world, logging apart. *)
Inductive event : Type :=
  | Print_json (md : json_metadata)   (* print(json.dumps(md, indent = 2)) *)
  | Request (url : str)               (* requests.get(url) *)
  | Sleep (secs : Z).                 (* time.sleep(secs) *)

Definition io (A : Type) : Type := (list event * result A)%type.

#[export] Instance io_ret : MRet io := λ A a, ([], Ok a).
#[export] Instance io_bind : MBind io := λ A B f m,
  match m with
  | (tr, Ok a) => let '(tr', r) := f a in (tr ++ tr', r)
  | (tr, Raise e) => (tr, Raise e)
  end.
Definition emit (e : event) : io unit := ([e], Ok ()).
Definition raise {A} (e : exn) : io A := ([], Raise e).
Definition lift {A} (r : result A) : io A := ([], r).

(** ** The export record *)

Inductive pyval : Type :=
  | VStr (s : str)
  | VInt (z : Z)
  | VList (l : list str).

(** [collections.OrderedDict]: assigning to a present key keeps its place,
    assigning to a new key appends. *)
Abbreviation ordered_dict := (list (str * pyval)).

Fixpoint od_set (d : ordered_dict) (key : str) (v : pyval) : ordered_dict :=
  match d with
  | [] => [(key, v)]
  | (k, w) :: d' =>
      if bool_decide (k = key) then (k, v) :: d' else (k, w) :: od_set d' key v
  end.

(** One output line, [f'{ris_key_upper}  - {ris_val}']. *)
Definition ris_line (ris_key ris_val : str) : str :=
  upper ris_key ++ lit "  - " ++ ris_val.

(** The loop over [ris.items()] at the end of [get_ris]. *)
Definition ris_lines_of (ris : ordered_dict) : list str :=
  '(ris_key, ris_val) ← ris;
  match ris_val with
  | VList l => ris_line ris_key <$> l
  | VStr s => [ris_line ris_key s]
  | VInt z => [ris_line ris_key (of_Z z)]
  end.

(** ** get_ris *)

(** The value given to 'av', if any: the first document's 'url', else the
    first 'urls' entry's 'value'. *)
Definition availability (md : json_metadata) : result (option str) :=
  let from_urls :=
    match urls md with
    | Some us => u ← subscript us 0; Ok (url_value u)
    | None => Ok None
    end in
  match documents md with
  | Some docs =>
      d ← subscript docs 0;
      match url d with
      | Some u => Ok (Some u)
      | None => from_urls
      end
  | None => from_urls
  end.

Definition od_set_opt (d : ordered_dict) (key : str) (v : option str) : ordered_dict :=
  match v with
  | Some s => od_set d key (VStr s)
  | None => d
  end.

(** [get_ris] up to the 'av' field: [None] is the early [return []] of a
    record without DOI or with an excluded DOI. *)
Definition ris_fields (json_entry : json_entry) (dois_to_exclude : list str)
  : io (option ordered_dict) :=
  let json_metadata := metadata json_entry in
  let record_url := lit "https://inspirehep.net/record/" ++ entry_id json_entry in
  match dois json_metadata with
  | None => mret None
  | Some ds =>
      d0 ← lift (subscript ds 0);
      let doi := value d0 in
      if bool_decide (doi ∈ dois_to_exclude) then mret None
      else
        match list_find (λ pubinfo, is_Some (year pubinfo))
                        (publication_info json_metadata) with
        | None =>
            emit (Print_json json_metadata);;
            raise (RuntimeError (lit "No publication year found in the above entry"))
        | Some (pub_idx, pubinfo) =>
            lift (
              dt ← subscript (document_type json_metadata) 0;
              ty ← get_doctype dt;
              py ← getitem "year" (year pubinfo);
              jo ← getitem "journal_title" (journal_title pubinfo);
              vl ← getitem "journal_volume" (journal_volume pubinfo);
              t0 ← subscript (titles json_metadata) 0;
              let ris : ordered_dict :=
                [ (lit "ty", VStr ty);
                  (lit "py", VInt py);
                  (lit "jo", VStr jo);
                  (lit "vl", VStr vl);
                  (lit "t1", VStr (title t0));
                  (lit "do", VStr (lit "https://dx.doi.org/" ++ doi));
                  (lit "db", VStr (lit "WoS"));
                  (lit "dp", VStr (lit "WoS"));
                  (lit "la", VStr (lit "English"));
                  (lit "ur", VStr record_url) ] in
              let ris := od_set_opt ris (lit "sp") (page_start pubinfo) in
              let ris := od_set_opt ris (lit "ep") (page_end pubinfo) in
              av ← availability json_metadata;
              let ris := od_set_opt ris (lit "av") av in
              Ok (Some ris))
        end
  end.

(** The collaboration credit of [get_ris]: for a record with a
    'collaborations' key, the selected authors with the credit added. *)
Definition credit_collaborations (json_metadata : json_metadata)
    (nof_authors_total : nat) (selected_authors : list str) : result (list str) :=
  match collaborations json_metadata with
  | None => Ok selected_authors
  | Some cs =>
      let collabs := sorted (value <$> cs) in
      joined ← join_with_and collabs;
      let collab_str := joined ++ lit " Collaboration" in
      let collab_str :=
        if (1 <? length collabs)%nat then collab_str ++ lit "s" else collab_str in
      if (nof_authors_total <? 10)%nat then
        a_last ← subscript selected_authors (-1);
        Ok (<[pred (length selected_authors) :=
                a_last ++ lit " (for the " ++ collab_str ++ lit ")"]> selected_authors)
      else
        Ok (selected_authors ++ [lit "et al. (" ++ collab_str ++ lit ")"])
  end.

Definition get_ris (json_entry : json_entry) (name : str)
    (keep_affiliation : bool) (dois_to_exclude : list str) : io (list str) :=
  let json_metadata := metadata json_entry in
  fields ← ris_fields json_entry dois_to_exclude;
  match fields with
  | None => mret []
  | Some ris =>
      let authors_all := authors json_metadata in
      let nof_authors_total := length authors_all in
      selected_authors ← lift (select authors_all name keep_affiliation);
      if bool_decide (selected_authors = []) then mret []
      else
        selected_authors ←
          lift (credit_collaborations json_metadata nof_authors_total selected_authors);
        let ris := od_set ris (lit "au") (VList selected_authors) in
        mret (ris_lines_of ris)
  end.

(** ** exclude_dois_from *)

(** The body of the loop over the lines of the exclusion file: [None] for
    a line that is not a 'DO' line, the normalised DOI otherwise. *)
Definition doi_of_line (fn line : str) : result (option str) :=
  let line_stripped := strip line in
  if startswith line_stripped (lit "DO ") then
    let line_split := split (lit " - ") line_stripped in
    if bool_decide (length line_split ≠ 2%nat)
    then Raise (RuntimeError (lit "Not a RIS file: " ++ fn))
    else
      v ← subscript line_split 1;
      Ok (Some (replace (lit "http://dx.doi.org/") []
                  (replace (lit "https") (lit "http") (strip v))))
  else Ok None.

Fixpoint collect_dois (fn : str) (lines to_exclude : list str) : result (list str) :=
  match lines with
  | [] => Ok to_exclude
  | line :: rest =>
      d ← doi_of_line fn line;
      collect_dois fn rest (match d with
                            | Some doi => to_exclude ++ [doi]
                            | None => to_exclude
                            end)
  end.

(** [file] is what the file system holds under [fn]: [None] when
    [os.path.isfile(fn)] is false, else the lines that iterating over the
    opened file yields. *)
Definition exclude_dois_from (fn : str) (file : option (list str)) : result (list str) :=
  if bool_decide (fn = []) then Ok []
  else match file with
       | None => Raise (RuntimeError (lit "No such file: " ++ fn))
       | Some lines => collect_dois fn lines []
       end.

(** ** The fetch loop of the main program *)

Record json_payload : Type := {
  hits_total : Z;                  (* ['hits']['total'] *)
  hits_hits : list json_entry;     (* ['hits']['hits'] *)
  links_next : option str;         (* ['links']['next'], if present *)
}.

Record response : Type := {
  status_code : Z;
  json : json_payload;
}.

Record settings : Type := {
  name : str;
  keep_affiliation : bool;
  query_size : Z;
  dois_to_exclude : list str;
}.

(** The variables the loop updates; [nof_pages] is only logged and left out. *)
Record fetch_state : Type := {
  st_url : str;
  st_nof_hits : Z;
  st_page_nr : Z;
  st_ris_data : list str;
}.

(** The loop [for json_entry in json_hits_data]. *)
Fixpoint collect_ris (cfg : settings) (entries : list json_entry)
    (ris_data : list str) : io (list str) :=
  match entries with
  | [] => mret ris_data
  | json_entry :: rest =>
      ris_lines ← get_ris json_entry (name cfg) (keep_affiliation cfg)
                          (dois_to_exclude cfg);
      collect_ris cfg rest
        (if bool_decide (ris_lines = []) then ris_data
         else ris_data ++ [join [10] ris_lines])
  end.

(** The least absolute value that has no finite double next to it: the
    midpoint between the largest double, 2^1024 - 2^971, and 2^1024. *)
Definition float_limit : Z := (2 ^ 1024 - 2 ^ 970)%Z.

(** [a / b] for two integers.  The division yields a float, the quotient
    rounded to the nearest double: it raises [ZeroDivisionError] for a
    zero divisor and [OverflowError] when the rounded quotient is not
    finite, which is when |a| / |b| reaches [float_limit].  The script
    only logs the value, so the model keeps the exceptions alone. *)
Definition true_divide (a b : Z) : result unit :=
  if (b =? 0)%Z then Raise ZeroDivisionError
  else if (float_limit * Z.abs b <=? Z.abs a)%Z then Raise OverflowError
  else Ok ().

(** The loop body after a response with status 200.  The page count
    [int(math.ceil(nof_hits / query_size))] is only logged, but its
    division can raise; rounding up a finite float and converting it to
    an integer cannot. *)
Definition handle_page (cfg : settings) (st : fetch_state)
    (json_payload : json_payload) : io fetch_state :=
  nof_hits ←
    (if (st_nof_hits st <? 0)%Z then
       _ ← lift (true_divide (hits_total json_payload) (query_size cfg));
       mret (hits_total json_payload)
     else mret (st_nof_hits st));
  ris_data ← collect_ris cfg (hits_hits json_payload) (st_ris_data st);
  mret {| st_url := default [] (links_next json_payload);
          st_nof_hits := nof_hits;
          st_page_nr := st_page_nr st + 1;
          st_ris_data := ris_data |}.

Inductive outcome : Type :=
  | Finished (ris_data : list str)  (* the loop ended: no next link *)
  | Failed (e : exn)                (* an exception left the loop *)
  | Waiting (st : fetch_state).     (* a request is out and unanswered *)

(** [while url: ...], run against a server that answers the successive
    requests with the responses of [server], in order. *)
Fixpoint fetch_loop (cfg : settings) (server : list response) (st : fetch_state)
  : list event * outcome :=
  if bool_decide (st_url st = []) then ([], Finished (st_ris_data st))
  else
    match server with
    | [] => ([Request (st_url st)], Waiting st)
    | response :: server' =>
        if (status_code response =? 429)%Z then
          let '(tr, out) := fetch_loop cfg server' st in
          (Request (st_url st) :: Sleep 6 :: tr, out)
        else if negb (status_code response =? 200)%Z then
          ([Request (st_url st)],
           Failed (RuntimeError (lit "The following URL gave status code "
                                   ++ of_Z (status_code response)
                                   ++ lit ": " ++ st_url st)))
        else
          match handle_page cfg st (json response) with
          | (tr1, Ok st') =>
              let '(tr, out) := fetch_loop cfg server' st' in
              (Request (st_url st) :: tr1 ++ tr, out)
          | (tr1, Raise e) => (Request (st_url st) :: tr1, Failed e)
          end
    end.

(** The state in which the main program enters the loop. *)
Definition initial_state (url : str) : fetch_state :=
  {| st_url := url; st_nof_hits := -1; st_page_nr := 1; st_ris_data := [] |}.

(** * Notions used in the statements *)

(** The rendering the specification describes, for comparison: one name as
    itself, two joined by ' and ', three or more with a comma after every
    name but the last and 'and' before the last. *)
Definition oxford_style (init : list str) (z : str) : str :=
  match init with
  | [] => z
  | [a] => a ++ lit " and " ++ z
  | _ => join (lit ", ") init ++ lit ", and " ++ z
  end.

(** The target counts as present when its name, or the name [ALIASES]
    maps it to, is among the candidates. *)
Definition target_present (authors : list author) (name : str) : Prop :=
  name ∈ candidates authors ∨
  ∃ alias, ALIASES !! name = Some alias ∧ alias ∈ candidates authors.

(** The line that [get_ris] emits for the 'do' field of a record whose
    primary DOI is [doi]. *)
Definition do_line (doi : str) : str :=
  ris_line (lit "do") (lit "https://dx.doi.org/" ++ doi).

(** The values that [get_ris] reads from a record for the fields before
    the authors. *)
Record field_values : Type := {
  f_ty : str;
  f_py : Z;
  f_jo : str;
  f_vl : str;
  f_t1 : str;
  f_doi : str;
  f_sp : option str;
  f_ep : option str;
  f_av : option str;
}.

(** [reads e v]: the record has a DOI, a publication_info entry with a
    year, whose first such entry has a journal title and volume, a known
    document type and a title, its link lookup does not fail, and [v]
    holds the values found. *)
Definition reads (e : json_entry) (v : field_values) : Prop :=
  let md := metadata e in
  ∃ d0 ds pub_idx pubinfo dt dts t0 ts,
    dois md = Some (d0 :: ds) ∧ value d0 = f_doi v ∧
    list_find (λ pubinfo, is_Some (year pubinfo)) (publication_info md)
      = Some (pub_idx, pubinfo) ∧
    year pubinfo = Some (f_py v) ∧
    journal_title pubinfo = Some (f_jo v) ∧
    journal_volume pubinfo = Some (f_vl v) ∧
    page_start pubinfo = f_sp v ∧
    page_end pubinfo = f_ep v ∧
    document_type md = dt :: dts ∧ DOCTYPES !! dt = Some (f_ty v) ∧
    titles md = t0 :: ts ∧ title t0 = f_t1 v ∧
    availability md = Ok (f_av v).

(** The export record of [get_ris] before the authors are added. *)
Definition fields_dict (e : json_entry) (v : field_values) : ordered_dict :=
  od_set_opt
    (od_set_opt
       (od_set_opt
          [ (lit "ty", VStr (f_ty v));
            (lit "py", VInt (f_py v));
            (lit "jo", VStr (f_jo v));
            (lit "vl", VStr (f_vl v));
            (lit "t1", VStr (f_t1 v));
            (lit "do", VStr (lit "https://dx.doi.org/" ++ f_doi v));
            (lit "db", VStr (lit "WoS"));
            (lit "dp", VStr (lit "WoS"));
            (lit "la", VStr (lit "English"));
            (lit "ur", VStr (lit "https://inspirehep.net/record/" ++ entry_id e)) ]
          (lit "sp") (f_sp v))
       (lit "ep") (f_ep v))
    (lit "av") (f_av v).

(** The lines of an optional field. *)
Definition optional_line (tag : string) (val : option str) : list str :=
  match val with
  | Some s => [lit tag ++ s]
  | None => []
  end.

(** The lines of a surviving record, in the order of the output. *)
Definition block (e : json_entry) (v : field_values) (au : list str) : list str :=
  [ lit "TY  - " ++ f_ty v;
    lit "PY  - " ++ of_Z (f_py v);
    lit "JO  - " ++ f_jo v;
    lit "VL  - " ++ f_vl v;
    lit "T1  - " ++ f_t1 v;
    lit "DO  - https://dx.doi.org/" ++ f_doi v;
    lit "DB  - WoS";
    lit "DP  - WoS";
    lit "LA  - English";
    lit "UR  - https://inspirehep.net/record/" ++ entry_id e ]
  ++ optional_line "SP  - " (f_sp v)
  ++ optional_line "EP  - " (f_ep v)
  ++ optional_line "AV  - " (f_av v)
  ++ ((λ a, lit "AU  - " ++ a) <$> au).

(** The two events of one rate-limited attempt. *)
Definition attempt (st : fetch_state) : list event :=
  [Request (st_url st); Sleep 6].


(** ** Sample data *)

Module Samples.

Definition target : str := lit "Ehataht, Karl".

Definition member (n aff : string) : author :=
  {| full_name := lit n; affiliations := Some [ {| value := lit aff |} ] |}.

Definition jhep : pubinfo :=
  {| year := Some 2021%Z;
     journal_title := Some (lit "JHEP");
     journal_volume := Some (lit "07");
     page_start := Some (lit "027");
     page_end := None |}.

Definition preprint : pubinfo :=
  {| year := None; journal_title := None; journal_volume := None;
     page_start := None; page_end := None |}.

(** A journal article with [n] authors from elsewhere before the target,
    who is listed with the home affiliation when [home] is set. *)
Definition paper (n : nat) (home : bool) (pubs : list pubinfo)
    (collabs : option (list valued)) : json_entry :=
  {| entry_id := lit "1874335";
     metadata :=
       {| dois := Some [ {| value := lit "10.1007/JHEP07(2021)027" |} ];
          publication_info := pubs;
          document_type := [lit "article"];
          titles := [ {| title := lit "Measurement of something" |} ];
          documents := None;
          urls := None;
          authors :=
            replicate n (member "Someone, Else" "CERN")
            ++ [member "Ehataht, Karl" (if home then "NICPB, Tallinn" else "CERN")];
          collaborations := collabs |} |}.

Definition collab (c : string) : valued := {| value := lit c |}.

(** Three authors, two of them with the home affiliation. *)
Definition listed : list author :=
  [ {| full_name := lit "Veelken, Christian";
       affiliations := Some [ {| value := lit "NICPB, Tallinn" |} ] |};
    {| full_name := lit "Ehataht, Karl";
       affiliations := Some [ {| value := lit "CERN" |};
                              {| value := lit "NICPB, Tallinn" |} ] |};
    {| full_name := lit "Someone, Else";
       affiliations := Some [ {| value := lit "CERN" |} ] |} ].


Definition jhep_values : field_values :=
  {| f_ty := lit "JOUR"; f_py := 2021; f_jo := lit "JHEP"; f_vl := lit "07";
     f_t1 := lit "Measurement of something";
     f_doi := lit "10.1007/JHEP07(2021)027";
     f_sp := Some (lit "027"); f_ep := None; f_av := None |}.

End Samples.


Module Mock.

Definition cfg : settings :=
  {| name := lit "Ehataht, Karl"; keep_affiliation := false;
     query_size := 25; dois_to_exclude := [] |}.

Definition start : str :=
  lit "https://inspirehep.net/api/literature?q=a+Ehataht%2C+Karl+and+tc+p&size=25&page=1&format=json&sort=mostrecent".

Definition empty_page : json_payload :=
  {| hits_total := 0; hits_hits := []; links_next := None |}.

Definition busy : response := {| status_code := 429; json := empty_page |}.
Definition fine : response := {| status_code := 200; json := empty_page |}.

End Mock.


(** * The rest of the script *)

(** ** order_str *)

(** [NUM_SFX]; a dict is iterated in the order of its literal. *)
Definition NUM_SFX : list (str * str) :=
  [ (lit "1", lit "st"); (lit "2", lit "nd"); (lit "3", lit "rd") ].

(** [s.endswith(suffix)]. *)
Definition endswith (s suffix : str) : bool :=
  startswith (rev s) (rev suffix).

(** The loop of [order_str] over the keys that are still to be tried;
    [sfx] is [NUM_SFX[num_key]]. *)
Fixpoint order_str_from (num_str : str) (keys : list (str * str)) : str :=
  match keys with
  | [] => num_str ++ lit "th"
  | (num_key, sfx) :: rest =>
      if endswith num_str num_key && negb (endswith num_str (lit "1" ++ num_key))
      then num_str ++ sfx
      else order_str_from num_str rest
  end.

Definition order_str (num : Z) : str := order_str_from (of_Z num) NUM_SFX.

(** ** The main program *)

(** The parsed command line; [--verbose] only sets the logging level. *)
Record arguments : Type := {
  arg_name : str;
  arg_output : str;
  arg_exclude : str;
  arg_date : str;
  arg_query_size : Z;
  arg_keep_affiliation : bool;
  arg_include_proceedings : bool;
}.

(** What the program finds outside: the file system and the server. *)
Record environment : Type := {
  abspath : str → str;                    (* os.path.abspath *)
  dirname : str → str;                    (* os.path.dirname *)
  isdir : str → bool;                     (* os.path.isdir *)
  lines_of_file : str → option (list str);
    (* the lines of a regular file, [None] where [os.path.isfile] is false *)
  server : list response;
}.

(** The search query, lines 241 to 252. *)
Definition build_query (name date : str) (incl_conf_proc : bool) : str :=
  let doctypes := [lit "p"] ++ (if incl_conf_proc then [lit "c"] else []) in
  let doctype_query :=
    join (lit " or ") ((λ doctype, lit "tc " ++ doctype) <$> doctypes) in
  let doctype_query :=
    if (1 <? length doctypes)%nat then lit "(" ++ doctype_query ++ lit ")"
    else doctype_query in
  let selection :=
    [lit "a " ++ name; doctype_query]
    ++ (if bool_decide (date = []) then [] else [lit "de > " ++ date]) in
  join (lit " and ") selection.

(** [s.encode('utf-8')], the strict encoding that [urllib.parse] applies:
    a surrogate code point (U+D800 to U+DFFF) has no encoding and raises
    [UnicodeEncodeError].  A Python string holds code points up to
    U+10FFFF. *)
Definition utf8_encode_char (c : N) : result (list N) :=
  if c <? 128 then Ok [c]
  else if c <? 2048 then Ok [192 + c / 64; 128 + c `mod` 64]
  else if (55296 <=? c) && (c <=? 57343) then Raise UnicodeEncodeError
  else if c <? 65536 then
    Ok [224 + c / 4096; 128 + (c / 64) `mod` 64; 128 + c `mod` 64]
  else
    Ok [240 + c / 262144; 128 + (c / 4096) `mod` 64;
        128 + (c / 64) `mod` 64; 128 + c `mod` 64].

Fixpoint utf8_encode (s : str) : result (list N) :=
  match s with
  | [] => Ok []
  | c :: s' =>
      bs ← utf8_encode_char c;
      bs' ← utf8_encode s';
      Ok (bs ++ bs')
  end.

(** The bytes that [urllib.parse.quote] never escapes: the ASCII letters
    and digits and '_', '.', '-', '~' (Python 3.7 and later). *)
Definition always_safe (b : N) : bool :=
  ((65 <=? b) && (b <=? 90)) || ((97 <=? b) && (b <=? 122))
  || ((48 <=? b) && (b <=? 57))
  || (b =? 95) || (b =? 46) || (b =? 45) || (b =? 126).

(** One digit of ['%02X']. *)
Definition hex_digit (n : N) : N :=
  if n <? 10 then 48 + n else 55 + n.

(** What [quote_plus] makes of one byte: itself when it is safe, '+' for
    a space, and '%' with two upper-case hexadecimal digits otherwise. *)
Definition quote_byte (b : N) : str :=
  if always_safe b then [b]
  else if b =? 32 then [43]
  else [37; hex_digit ((b / 16) `mod` 16); hex_digit (b `mod` 16)].

(** [urllib.parse.quote_plus(s, safe = '')] for a string: the string is
    encoded as UTF-8 and quoted byte by byte, the space being kept
    through the quoting and replaced by '+' at the end. *)
Definition quote_plus (s : str) : result str :=
  bs ← utf8_encode s;
  Ok (bs ≫= quote_byte).

(** [urllib.parse.urlencode] of a dict whose values are strings or
    numbers: every key and every [str(value)] is quoted, the pairs are
    joined by '&'. *)
Fixpoint urlencode_pairs (kv : list (str * str)) : result (list str) :=
  match kv with
  | [] => Ok []
  | (k, v) :: rest =>
      k' ← quote_plus k;
      v' ← quote_plus v;
      l ← urlencode_pairs rest;
      Ok ((k' ++ lit "=" ++ v') :: l)
  end.

Definition urlencode (kv : list (str * str)) : result str :=
  l ← urlencode_pairs kv;
  Ok (join (lit "&") l).

(** The URL of the first request, lines 255 to 263. *)
Definition query_url (query : str) (query_size : Z) : result str :=
  encoded ← urlencode
       [ (lit "q", query);
         (lit "size", of_Z query_size);
         (lit "page", of_Z 1);
         (lit "format", lit "json");
         (lit "sort", lit "mostrecent") ];
  Ok (lit "https://inspirehep.net/api/literature?" ++ encoded).

(** How a run ends.  [Printed] and [Saved] say which of the two output
    statements the run reaches and with what text; whether the terminal
    or the file then takes the text is outside the model. *)
Inductive main_outcome : Type :=
  | Printed (text : str)              (* print(text), line 304 *)
  | Saved (path text : str)           (* open(path, 'w') and write(text),
                                         lines 300 and 301 *)
  | Aborted (e : exn)                 (* an uncaught exception *)
  | Stalled.                          (* a request is out and unanswered *)

(** The block under [if __name__ == '__main__'], after argument parsing. *)
Definition main (args : arguments) (env : environment) : list event * main_outcome :=
  let checked_output : result str :=
    if bool_decide (arg_output args = []) then Ok (arg_output args)
    else
      let output := abspath env (arg_output args) in
      let output_dir := dirname env output in
      if isdir env output_dir then Ok output
      else Raise (RuntimeError (lit "No directory for output file: " ++ output)) in
  match checked_output with
  | Raise e => ([], Aborted e)
  | Ok output =>
      match exclude_dois_from (arg_exclude args)
                              (lines_of_file env (arg_exclude args)) with
      | Raise e => ([], Aborted e)
      | Ok excluded =>
          let query :=
            build_query (arg_name args) (arg_date args)
                        (arg_include_proceedings args) in
          match query_url query (arg_query_size args) with
          | Raise e => ([], Aborted e)
          | Ok url =>
              let cfg := {| name := arg_name args;
                            keep_affiliation := arg_keep_affiliation args;
                            query_size := arg_query_size args;
                            dois_to_exclude := excluded |} in
              match fetch_loop cfg (server env) (initial_state url) with
              | (tr, Finished ris_data) =>
                  (tr, if bool_decide (output = [])
                       then Printed (join [10; 10] ris_data)
                       else Saved output (join [10; 10] ris_data))
              | (tr, Failed e) => (tr, Aborted e)
              | (tr, Waiting _) => (tr, Stalled)
              end
          end
      end
  end.

(** ** Reading a text file line by line *)

(** The lines that iterating over a file opened for reading in text mode
    yields, for the decoded text of the file: a line ends with its line
    break, which is '\n', '\r' or '\r\n' in the file and '\n' in the line;
    the last line has none when the text does not end with one.  [cur]
    holds the characters of the line that is being read. *)
Fixpoint readlines_from (cur text : str) : list str :=
  match text with
  | [] => if bool_decide (cur = []) then [] else [cur]
  | c :: text' =>
      if c =? 10 then (cur ++ [10]) :: readlines_from [] text'
      else if c =? 13 then
        match text' with
        | c' :: text'' =>
            if c' =? 10 then (cur ++ [10]) :: readlines_from [] text''
            else (cur ++ [10]) :: readlines_from [] text'
        | [] => [cur ++ [10]]
        end
      else readlines_from (cur ++ [c]) text'
  end.

Definition readlines (text : str) : list str := readlines_from [] text.

(** * Notions used in the further statements *)

(** The English ordinal suffix of a natural number. *)
Definition ordinal_suffix (m : Z) : str :=
  if bool_decide (11 ≤ m `mod` 100 ≤ 13)%Z then lit "th"
  else if (m `mod` 10 =? 1)%Z then lit "st"
  else if (m `mod` 10 =? 2)%Z then lit "nd"
  else if (m `mod` 10 =? 3)%Z then lit "rd"
  else lit "th".

(** The characters of a decimal number, in the order of its digits. *)
Fixpoint uint_chars (d : Decimal.uint) : str :=
  match d with
  | Decimal.Nil => []
  | Decimal.D0 d => 48 :: uint_chars d
  | Decimal.D1 d => 49 :: uint_chars d
  | Decimal.D2 d => 50 :: uint_chars d
  | Decimal.D3 d => 51 :: uint_chars d
  | Decimal.D4 d => 52 :: uint_chars d
  | Decimal.D5 d => 53 :: uint_chars d
  | Decimal.D6 d => 54 :: uint_chars d
  | Decimal.D7 d => 55 :: uint_chars d
  | Decimal.D8 d => 56 :: uint_chars d
  | Decimal.D9 d => 57 :: uint_chars d
  end.

(** The suffix chosen from the last two digits. *)
Definition suffix_of_digits (units tens : N) : str :=
  if tens =? 1 then lit "th"
  else if units =? 1 then lit "st"
  else if units =? 2 then lit "nd"
  else if units =? 3 then lit "rd"
  else lit "th".

(** The DOI that the loader takes from a line, if it takes one. *)
Definition line_doi (fn line : str) : option str :=
  match doi_of_line fn line with
  | Ok (Some doi) => Some doi
  | _ => None
  end.

(** The text block that the fetch loop keeps for a record, if any. *)
Definition exported (cfg : settings) (e : json_entry) : option str :=
  match get_ris e (name cfg) (keep_affiliation cfg) (dois_to_exclude cfg) with
  | (_, Ok ris_lines) =>
      if bool_decide (ris_lines = []) then None else Some (join [10] ris_lines)
  | (_, Raise _) => None
  end.

(** [get_ris] returns for the record, with or without lines. *)
Definition transforms (cfg : settings) (e : json_entry) : Prop :=
  ∃ ris_lines,
    get_ris e (name cfg) (keep_affiliation cfg) (dois_to_exclude cfg)
    = ([], Ok ris_lines).

(** A line with the 'DO' tag that does not split into a tag and a value. *)
Definition malformed (line : str) : Prop :=
  startswith (strip line) (lit "DO ") = true ∧
  length (split (lit " - ") (strip line)) ≠ 2%nat.

(** A page the loop gets through: status 200 and every record of it is
    transformed without an exception. *)
Definition page_ok (cfg : settings) (r : response) : Prop :=
  status_code r = 200%Z ∧ Forall (transforms cfg) (hits_hits (json r)).

(** The blocks that a list of pages contributes, in order. *)
Definition blocks_of (cfg : settings) (pages : list response) : list str :=
  r ← pages; omap (exported cfg) (hits_hits (json r)).

(** The output check of the main program passes. *)
Definition output_ok (args : arguments) (env : environment) : Prop :=
  arg_output args = [] ∨
  isdir env (dirname env (abspath env (arg_output args))) = true.

(** Two pages of a mock server, the first with a 'next' link. *)
Module Pages.

Definition second_url : str :=
  lit "https://inspirehep.net/api/literature?q=a+Ehataht%2C+Karl+and+tc+p&size=25&page=2".

Definition first : response :=
  {| status_code := 200;
     json := {| hits_total := 3;
                hits_hits := [ Samples.paper 0 true [Samples.jhep] None;
                               Samples.paper 2 false [Samples.jhep] None ];
                links_next := Some second_url |} |}.

Definition second : response :=
  {| status_code := 200;
     json := {| hits_total := 3;
                hits_hits := [ Samples.paper 1 true [Samples.jhep] None ];
                links_next := None |} |}.

Definition broken : response :=
  {| status_code := 503; json := Mock.empty_page |}.

Definition args : arguments :=
  {| arg_name := lit "Ehataht, Karl";
     arg_output := lit "out/publications.ris";
     arg_exclude := lit "PublicationDocument.ris";
     arg_date := lit "2021-01-25";
     arg_query_size := 25;
     arg_keep_affiliation := false;
     arg_include_proceedings := true |}.

(** An environment in which the directory of the output file is missing. *)
Definition no_directory : environment :=
  {| abspath := λ p, lit "/home/user/" ++ p;
     dirname := λ p, lit "/home/user/out";
     isdir := λ p, false;
     lines_of_file := λ p, Some [];
     server := [first; second] |}.

(** An environment with the output directory, an exclusion file of one
    entry, and the two pages. *)
Definition complete : environment :=
  {| abspath := λ p, lit "/home/user/" ++ p;
     dirname := λ p, lit "/home/user/out";
     isdir := λ p, true;
     lines_of_file := λ p, Some [lit "TY  - JOUR"; lit "DO  - 10.1000/other"];
     server := [first; second] |}.

(** The settings of the loop in that environment. *)
Definition cfg : settings :=
  {| name := lit "Ehataht, Karl"; keep_affiliation := false;
     query_size := 25; dois_to_exclude := [lit "10.1000/other"] |}.

End Pages.

(** The settings with which the main program runs the loop. *)
Definition settings_of (args : arguments) (excluded : list str) : settings :=
  {| name := arg_name args;
     keep_affiliation := arg_keep_affiliation args;
     query_size := arg_query_size args;
     dois_to_exclude := excluded |}.

(** The URL of the first request of the main program, if its encoding
    does not fail. *)
Definition first_url (args : arguments) : result str :=
  query_url
    (build_query (arg_name args) (arg_date args) (arg_include_proceedings args))
    (arg_query_size args).

(** A string without surrogate code points, which is what UTF-8 can
    encode. *)
Definition encodable (s : str) : Prop :=
  Forall (λ c, c < 55296 ∨ 57343 < c) s.

(** The characters of a URL that need no escaping, with the '+' and '%'
    of the escapes, and the separators of the address and of the query
    string. *)
Definition url_char (c : N) : Prop :=
  (65 ≤ c ≤ 90) ∨ (97 ≤ c ≤ 122) ∨ (48 ≤ c ≤ 57) ∨
  c ∈ [95; 46; 45; 126; 43; 37; 61; 38; 58; 47; 63].

(** The URLs that a trace asks for, in order. *)
Definition requested (tr : list event) : list str :=
  omap (λ ev, match ev with Request u => Some u | _ => None end) tr.

(** The line holds no line break. *)
Definition unbroken (line : str) : Prop := (10 ∉ line) ∧ (13 ∉ line).

(** The output path as the main program holds it after the setup: the
    absolute form of a given path, empty when none was given. *)
Definition output_path (args : arguments) (env : environment) : str :=
  if bool_decide (arg_output args = []) then []
  else abspath env (arg_output args).

(** * Properties *)

(** ** The order on strings and [sorted] *)

Section order.

Lemma str_leb_refl (a : str) : str_leb a a = true.
Proof.
  induction a as [|x a IH]; simpl; [done|].
  rewrite N.eqb_refl, IH. by destruct (x <? x).
Qed.

Lemma str_leb_cons (x y : N) (a b : str) :
  str_leb (x :: a) (y :: b) = true ↔ x < y ∨ (x = y ∧ str_leb a b = true).
Proof.
  simpl. rewrite orb_true_iff, andb_true_iff, N.ltb_lt, N.eqb_eq. tauto.
Qed.

#[export] Instance str_le_refl : Reflexive str_le.
Proof. intros a. apply str_leb_refl. Qed.

#[export] Instance str_le_total : Total str_le.
Proof.
  intros a. unfold str_le. induction a as [|x a IH]; intros [|y b]; auto.
  rewrite !str_leb_cons. destruct (IH b); destruct (N.lt_trichotomy x y) as [?|[?|?]]; auto.
Qed.

#[export] Instance str_le_trans : Transitive str_le.
Proof.
  intros a. unfold str_le. induction a as [|x a IH]; intros [|y b] [|z c]; try done.
  rewrite !str_leb_cons. intros [?|[-> ?]] [?|[-> ?]]; eauto with lia.
Qed.

#[export] Instance str_le_antisymm : AntiSymm (=) str_le.
Proof.
  intros a. unfold str_le. induction a as [|x a IH]; intros [|y b]; try done.
  rewrite !str_leb_cons. intros [?|[-> ?]] [?|[? ?]]; try lia.
  f_equal. by apply IH.
Qed.

(** [str_le] is the lexicographic order: [a] is a prefix of [b], or the two
    differ first at a position where [a] has the smaller code point. *)
Lemma str_le_lexicographic (a b : str) :
  str_le a b ↔
  a `prefix_of` b ∨
  ∃ p x y a' b', a = p ++ x :: a' ∧ b = p ++ y :: b' ∧ x < y.
Proof.
  unfold str_le. revert b. induction a as [|x a IH]; intros b.
  - split; [intros _; left; apply prefix_nil | done].
  - destruct b as [|y b].
    + split; [done|]. intros [[k Hk]|(p&x'&y'&a'&b'&_&Hb&_)]; [done|].
      by destruct p.
    + rewrite str_leb_cons, IH. split.
      * intros [Hlt|[-> [Hp|(p&x'&y'&a'&b'&->&->&Hlt)]]].
        -- right. by exists [], x, y, a, b.
        -- left. by apply prefix_cons.
        -- right. by exists (y :: p), x', y', a', b'.
      * intros [Hp|(p&x'&y'&a'&b'&Ha&Hb&Hlt)].
        -- right. apply prefix_cons_inv_1 in Hp as Hxy. subst.
           split; [done|]. left. by apply prefix_cons_inv_2 in Hp.
        -- destruct p as [|c p]; simplify_eq/=; [by left|].
           right. split; [done|]. right. by exists p, x', y', a', b'.
Qed.

(** [sorted] returns the one ordered rearrangement of its argument. *)
Lemma sorted_spec (l : list str) :
  Sorted str_le (sorted l) ∧ sorted l ≡ₚ l.
Proof.
  split; [apply Sorted_merge_sort, _ | apply merge_sort_Permutation].
Qed.

Lemma sorted_unique (l l' : list str) :
  Sorted str_le l' → l' ≡ₚ l → l' = sorted l.
Proof.
  intros Hs Hp. apply (Sorted_unique str_le); [done| apply sorted_spec |].
  by rewrite Hp, (proj2 (sorted_spec l)).
Qed.

(** In an ordered list an earlier element is below a later one. *)
Lemma Sorted_lookup_le (l : list str) (i j : nat) (a b : str) :
  Sorted str_le l → (i < j)%nat → l !! i = Some a → l !! j = Some b → str_le a b.
Proof.
  intros Hs%Sorted_StronglySorted; [|apply _].
  revert i j. induction Hs as [|x l _ IH Hx]; intros i j Hij Hi Hj; [done|].
  destruct j as [|j]; [lia|]. cbn in Hj. destruct i as [|i].
  - injection Hi as <-. rewrite Forall_forall in Hx. apply Hx.
    by eapply list_elem_of_lookup_2.
  - cbn in Hi. apply (IH i j); [lia|done..].
Qed.

End order.

(** ** join_with_and *)

Lemma subscript_0 {A} (x : A) (l : list A) : subscript (x :: l) 0 = Ok x.
Proof. done. Qed.

Lemma subscript_last {A} (l : list A) (x : A) : subscript (l ++ [x]) (-1) = Ok x.
Proof.
  unfold subscript. rewrite length_app. simpl.
  replace (Z.of_nat (length l + 1) + -1)%Z with (Z.of_nat (length l)) by lia.
  destruct (Z.ltb_spec (Z.of_nat (length l)) 0); [lia|].
  by rewrite Nat2Z.id, list_lookup_middle.
Qed.

Lemma slice_until_last {A} (l : list A) (x : A) : slice_until (l ++ [x]) (-1) = l.
Proof.
  unfold slice_until. rewrite length_app. simpl.
  replace (Z.to_nat (Z.of_nat (length l + 1) + -1)) with (length l) by lia.
  by rewrite take_app_length.
Qed.

Lemma join_with_and_snoc (init : list str) (z : str) :
  join_with_and (init ++ [z]) =
    Ok (match init with
        | [] => z
        | [a] => a ++ lit " and " ++ z
        | _ => join (lit ", ") init ++ lit " and " ++ z
        end).
Proof.
  unfold join_with_and. rewrite bool_decide_eq_false_2 by (by destruct init).
  destruct init as [|a [|b init]]; [done..|].
  rewrite length_app. cbn [length].
  replace (S (S (length init)) + 1)%nat with (S (S (S (length init)))) by lia.
  cbn [Nat.eqb]. by rewrite slice_until_last, subscript_last.
Qed.

Lemma join_with_and_nil : join_with_and [] = Raise AssertionError.
Proof. done. Qed.

(** C2, as the code has it: a non-empty list is rendered as its single
    name, as 'A and B' for two names, and for three or more names as the
    names before the last joined by ', ', then ' and ' and the last name,
    with no comma before the conjunction: 'A, B and C'. *)
Theorem join_with_and_renders (arr : list str) :
  arr ≠ [] →
  ∃ init z,
    arr = init ++ [z] ∧
    join_with_and arr =
      Ok (match init with
          | [] => z
          | [a] => a ++ lit " and " ++ z
          | _ => join (lit ", ") init ++ lit " and " ++ z
          end).
Proof.
  intros Hne. destruct (exists_last Hne) as (init & z & ->).
  exists init, z. split; [done|]. apply join_with_and_snoc.
Qed.

Lemma join_with_and_renders_witness :
  ∃ init z,
    [lit "ATLAS"; lit "CMS"; lit "LHCb"] = init ++ [z] ∧
    join_with_and [lit "ATLAS"; lit "CMS"; lit "LHCb"] =
      Ok (match init with
          | [] => z
          | [a] => a ++ lit " and " ++ z
          | _ => join (lit ", ") init ++ lit " and " ++ z
          end).
Proof. apply (join_with_and_renders [lit "ATLAS"; lit "CMS"; lit "LHCb"]). discriminate. Defined.

(** C2, as stated, fails: three names come out without the comma before
    'and' that the Oxford style has. *)
Lemma join_with_and_not_oxford :
  join_with_and [lit "A"; lit "B"; lit "C"] = Ok (lit "A, B and C") ∧
  oxford_style [lit "A"; lit "B"] (lit "C") = lit "A, B, and C" ∧
  join_with_and [lit "A"; lit "B"; lit "C"]
    ≠ Ok (oxford_style [lit "A"; lit "B"] (lit "C")).
Proof. split; [|split]; [reflexivity..|discriminate]. Qed.

(** ** select *)


#[export] Instance target_present_dec authors name :
  Decision (target_present authors name).
Proof.
  unfold target_present. destruct (ALIASES !! name) as [alias|].
  - destruct (decide (name ∈ candidates authors)); [left; by left|].
    destruct (decide (alias ∈ candidates authors)); [left; right; eauto|].
    right. intros [?|(? & ? & ?)]; naive_solver.
  - destruct (decide (name ∈ candidates authors)); [left; by left|].
    right. intros [?|(? & ? & ?)]; naive_solver.
Defined.

Lemma select_present (authors : list author) (name : str) (keep : bool) :
  target_present authors name →
  select authors name keep = Ok (sorted (resolve_alias <$> candidates authors)).
Proof.
  intros Hp. unfold select. case_bool_decide as Hn; [|done].
  destruct Hp as [?|(alias & -> & Hin)]; [done|].
  by rewrite bool_decide_eq_true_2.
Qed.

Lemma select_absent (authors : list author) (name : str) (keep : bool) :
  ¬ target_present authors name →
  select authors name keep =
    if keep then Raise (NameError "author") else Ok [].
Proof.
  intros Hp. unfold select.
  rewrite bool_decide_eq_true_2 by (intros ?; apply Hp; by left).
  destruct (ALIASES !! name) as [alias|] eqn:E.
  - rewrite bool_decide_eq_false_2 by (intros ?; apply Hp; right; eauto).
    by destruct keep.
  - by destruct keep.
Qed.

(** The two entries of [ALIASES]. *)
Lemma ALIASES_lookup (n a : str) :
  ALIASES !! n = Some a ↔
  (n = lit "Carvalho Antunes De Oliveira, Alexandra" ∧ a = lit "Oliveira, Alexandra") ∨
  (n = lit "Ehataht, Karl" ∧ a = lit "Ehat" ++ [228] ++ lit "ht, Karl").
Proof.
  unfold ALIASES. rewrite lookup_insert_Some, lookup_singleton_Some. split.
  - intros [[<- <-]|[_ [<- <-]]]; auto.
  - intros [[-> ->]|[-> ->]]; [by left|]. right. by split.
Qed.

(** The name under which [select] returns an author, written out. *)
Lemma resolve_alias_cases (n : str) :
  resolve_alias n
  = if decide (n = lit "Carvalho Antunes De Oliveira, Alexandra")
    then lit "Oliveira, Alexandra"
    else if decide (n = lit "Ehataht, Karl")
         then lit "Ehat" ++ [228] ++ lit "ht, Karl"
         else n.
Proof.
  unfold resolve_alias. destruct (ALIASES !! n) as [a|] eqn:E.
  - by apply ALIASES_lookup in E as [[-> ->]|[-> ->]].
  - repeat case_decide; [subst; by vm_compute in E..|done].
Qed.

(** The authors that the first loop of [select] keeps, written out. *)
Lemma affiliated_home (a : author) :
  affiliated a ↔ lit "NICPB, Tallinn" ∈ value <$> default [] (affiliations a).
Proof.
  unfold affiliated. destruct (affiliations a) as [affs|]; cbn [default from_option].
  - rewrite list_elem_of_fmap. split.
    + intros (v & Hv & Hb)%Is_true_true%existsb_exists.
      apply bool_decide_eq_true in Hb. exists v. by rewrite list_elem_of_In.
    + intros (v & Hv & Hin). apply Is_true_true, existsb_exists. exists v.
      rewrite <- list_elem_of_In. split; [done|]. by apply bool_decide_eq_true.
  - split; [done|]. by intros ?%elem_of_nil.
Qed.

(** C7: when the target is among the authors that list the home
    affiliation 'NICPB, Tallinn', under its own name or under the name
    that the alias table gives it, the selector returns the names of the
    authors that list the home affiliation, one per such author, each
    replaced by its alias where the table has one ('Carvalho Antunes De
    Oliveira, Alexandra' by 'Oliveira, Alexandra' and 'Ehataht, Karl' by
    'Ehatäht, Karl'), in lexicographic order of the resulting names by
    code point: of two names of the output the earlier is a prefix of
    the later, or has the smaller code point where they first differ. *)
Theorem select_sorted_resolved (authors : list author) (name : str) (keep : bool)
    (target : author) :
  target ∈ authors →
  lit "NICPB, Tallinn" ∈ value <$> default [] (affiliations target) →
  full_name target = name ∨
  (name = lit "Carvalho Antunes De Oliveira, Alexandra" ∧
   full_name target = lit "Oliveira, Alexandra") ∨
  (name = lit "Ehataht, Karl" ∧
   full_name target = lit "Ehat" ++ [228] ++ lit "ht, Karl") →
  ∃ out,
    select authors name keep = Ok out ∧
    out ≡ₚ (λ a, if decide (full_name a = lit "Carvalho Antunes De Oliveira, Alexandra")
                 then lit "Oliveira, Alexandra"
                 else if decide (full_name a = lit "Ehataht, Karl")
                      then lit "Ehat" ++ [228] ++ lit "ht, Karl"
                      else full_name a)
           <$> filter (λ a, lit "NICPB, Tallinn" ∈ value <$> default [] (affiliations a))
                      authors ∧
    Sorted str_le out ∧
    (∀ i j a b, (i < j)%nat → out !! i = Some a → out !! j = Some b →
                a `prefix_of` b ∨
                ∃ p x y a' b', a = p ++ x :: a' ∧ b = p ++ y :: b' ∧ x < y).
Proof.
  intros Hin Hhome Hname.
  assert (full_name target ∈ candidates authors) as Hcand.
  { unfold candidates. apply list_elem_of_fmap. exists target. split; [done|].
    apply list_elem_of_filter. split; [|done]. by apply affiliated_home. }
  assert (target_present authors name) as Hp.
  { destruct Hname as [<-|Halias]; [by left|]. right. exists (full_name target).
    split; [|done]. by apply ALIASES_lookup. }
  exists (sorted (resolve_alias <$> candidates authors)).
  pose proof (sorted_spec (resolve_alias <$> candidates authors)) as [Hs Hperm].
  split; [by apply select_present|]. split; [|split; [done|]].
  - rewrite Hperm. unfold candidates. rewrite <- list_fmap_compose.
    rewrite (list_filter_iff _ (λ a, lit "NICPB, Tallinn"
                                      ∈ value <$> default [] (affiliations a)))
      by apply affiliated_home.
    apply reflexive_eq, list_fmap_ext. intros _ a _. apply resolve_alias_cases.
  - intros i j a b Hij Hi Hj. apply str_le_lexicographic.
    by apply (Sorted_lookup_le (sorted (resolve_alias <$> candidates authors)) i j).
Qed.

Lemma select_sorted_resolved_witness :
  ∃ out,
    select Samples.listed (lit "Ehataht, Karl") false = Ok out ∧
    out ≡ₚ (λ a, if decide (full_name a = lit "Carvalho Antunes De Oliveira, Alexandra")
                 then lit "Oliveira, Alexandra"
                 else if decide (full_name a = lit "Ehataht, Karl")
                      then lit "Ehat" ++ [228] ++ lit "ht, Karl"
                      else full_name a)
           <$> filter (λ a, lit "NICPB, Tallinn" ∈ value <$> default [] (affiliations a))
                      Samples.listed ∧
    Sorted str_le out ∧
    (∀ i j a b, (i < j)%nat → out !! i = Some a → out !! j = Some b →
                a `prefix_of` b ∨
                ∃ p x y a' b', a = p ++ x :: a' ∧ b = p ++ y :: b' ∧ x < y).
Proof.
  apply (select_sorted_resolved Samples.listed (lit "Ehataht, Karl") false
           {| full_name := lit "Ehataht, Karl";
              affiliations := Some [ {| value := lit "CERN" |};
                                     {| value := lit "NICPB, Tallinn" |} ] |}).
  - apply list_elem_of_further, list_elem_of_here.
  - apply list_elem_of_further, list_elem_of_here.
  - by left.
Defined.

(** The selection for a target that is listed under its alias only: the
    alias table is applied to the name asked for, not only to the names
    found. *)
Example select_listed_by_alias :
  select [ {| full_name := lit "Ehat" ++ [228] ++ lit "ht, Karl";
              affiliations := Some [ {| value := lit "NICPB, Tallinn" |} ] |};
           {| full_name := lit "Carvalho Antunes De Oliveira, Alexandra";
              affiliations := Some [ {| value := lit "NICPB, Tallinn" |} ] |};
           {| full_name := lit "Veelken, Christian"; affiliations := None |} ]
         (lit "Ehataht, Karl") false
  = Ok [lit "Ehat" ++ [228] ++ lit "ht, Karl"; lit "Oliveira, Alexandra"].
Proof. reflexivity. Qed.

Example select_listed :
  select Samples.listed (lit "Ehataht, Karl") false
  = Ok [lit "Ehat" ++ [228] ++ lit "ht, Karl"; lit "Veelken, Christian"].
Proof. reflexivity. Qed.

(** C1 on the code: with [keep_affiliation] set and the target absent, the
    selector does not return a list with the target in it; it raises
    [NameError], as the appended name [author] is bound nowhere. *)
Theorem select_keep_affiliation_raises (authors : list author) (name : str) :
  ¬ target_present authors name →
  select authors name true = Raise (NameError "author").
Proof.
  intros Hp. unfold select.
  assert (name ∉ candidates authors) as Hn by (intros ?; apply Hp; by left).
  rewrite bool_decide_eq_true_2 by done.
  destruct (ALIASES !! name) as [alias|] eqn:E; [|done].
  assert (alias ∉ candidates authors) as Ha by (intros ?; apply Hp; right; eauto).
  by rewrite bool_decide_eq_false_2.
Qed.

Lemma select_keep_affiliation_raises_witness :
  select [] (lit "Ehataht, Karl") true = Raise (NameError "author").
Proof.
  apply (select_keep_affiliation_raises [] (lit "Ehataht, Karl")).
  intros [H|(alias & _ & H)]; by apply elem_of_nil in H.
Defined.

(** ** The DOI line and the exclusion loader *)

(** Turn the ASCII literals of the goal into explicit code points. *)
Ltac unlit :=
  repeat match goal with
         | |- context [lit ?s] =>
             let v := eval vm_compute in (lit s) in change (lit s) with v
         end.

Section strings.

Lemma lstrip_length (s : str) : (length (lstrip s) ≤ length s)%nat.
Proof. induction s as [|c s IH]; simpl; [done|]. destruct (is_space c); simpl; lia. Qed.

Lemma lstrip_fixed (c : N) (s : str) :
  lstrip (c :: s) = c :: s → is_space c = false.
Proof.
  simpl. destruct (is_space c); [|done]. intros E.
  pose proof (lstrip_length s) as Hl. rewrite E in Hl. simpl in Hl. lia.
Qed.

Lemma lstrip_non_space (c : N) (s : str) :
  is_space c = false → lstrip (c :: s) = c :: s.
Proof. simpl. by intros ->. Qed.

Lemma rstrip_length (s : str) : (length (rstrip s) ≤ length s)%nat.
Proof.
  unfold rstrip. rewrite length_rev. etrans; [apply lstrip_length|].
  by rewrite length_rev.
Qed.

Lemma rstrip_fixed (s : str) : rstrip s = s ↔ lstrip (rev s) = rev s.
Proof.
  unfold rstrip. split; intros E.
  - by rewrite <- E at 2; rewrite rev_involutive.
  - by rewrite E, rev_involutive.
Qed.

(** A string that [strip] leaves alone is left alone at either end. *)
Lemma strip_fixed (s : str) : strip s = s → lstrip s = s ∧ rstrip s = s.
Proof.
  unfold strip. intros E.
  assert (lstrip s = s) as El.
  { destruct s as [|c s]; [done|]. simpl in *.
    destruct (is_space c); [|done].
    pose proof (rstrip_length (lstrip s)) as H1.
    pose proof (lstrip_length s) as H2.
    rewrite E in H1. simpl in H1. lia. }
  split; [done|]. by rewrite El in E.
Qed.

(** Stripping is the identity on [p ++ d] when it is on a non-empty [p]
    and [d] does not end in white space. *)
Lemma strip_app (p d : str) :
  p ≠ [] → strip p = p → rstrip d = d → strip (p ++ d) = p ++ d.
Proof.
  intros Hp [Hlp Hrp]%strip_fixed Hrd. unfold strip.
  assert (lstrip (p ++ d) = p ++ d) as ->.
  { destruct p as [|c p]; [done|].
    apply lstrip_non_space. by apply lstrip_fixed in Hlp. }
  apply rstrip_fixed. rewrite rev_app_distr.
  apply rstrip_fixed in Hrp, Hrd.
  destruct (rev d) as [|c r] eqn:Ed; [done|].
  apply lstrip_non_space. by apply lstrip_fixed in Hrd.
Qed.

Lemma contains_cons (sub : str) (c : N) (s : str) :
  contains sub (c :: s) = false →
  startswith (c :: s) sub = false ∧ contains sub s = false.
Proof. cbn [contains]. by intros [? ?]%orb_false_iff. Qed.

(** Without an occurrence of the separator there is one part. *)
Lemma split_from_absent (sep s : str) :
  contains sep s = false → split_from sep 0 s = [s].
Proof.
  induction s as [|c s IH]; [done|].
  intros [Hs Hc]%contains_cons. cbn [split_from]. by rewrite Hs, IH.
Qed.

(** Without an occurrence of [old] nothing is replaced. *)
Lemma replace_from_absent (old new s : str) :
  contains old s = false → replace_from old new 0 s = s.
Proof.
  induction s as [|c s IH]; [done|].
  intros [Hs Hc]%contains_cons. cbn [replace_from]. by rewrite Hs, IH.
Qed.

Lemma lstrip_app (a b : str) :
  lstrip (a ++ b) = match lstrip a with [] => lstrip b | _ => lstrip a ++ b end.
Proof.
  induction a as [|c a IH]; [done|]. cbn [app lstrip].
  by destruct (is_space c).
Qed.

(** White space at the end of [d] is removed from [p ++ d] as from [d]. *)
Lemma rstrip_app (p d : str) :
  p ≠ [] → rstrip p = p → rstrip (p ++ d) = p ++ rstrip d.
Proof.
  intros Hp Hrp. apply rstrip_fixed in Hrp. unfold rstrip.
  rewrite rev_app_distr, lstrip_app.
  destruct (lstrip (rev d)) as [|c r] eqn:E.
  - by rewrite Hrp, rev_involutive, app_nil_r.
  - by rewrite rev_app_distr, rev_involutive.
Qed.

Lemma lstrip_idemp (s : str) : lstrip (lstrip s) = lstrip s.
Proof.
  induction s as [|c s IH]; [done|]. cbn [lstrip].
  destruct (is_space c) eqn:E; [done|]. cbn [lstrip]. by rewrite E.
Qed.

Lemma rstrip_idemp (s : str) : rstrip (rstrip s) = rstrip s.
Proof. unfold rstrip. by rewrite rev_involutive, lstrip_idemp. Qed.

Lemma lstrip_suffix (s : str) : lstrip s `suffix_of` s.
Proof.
  induction s as [|c s IH]; [done|]. cbn [lstrip].
  destruct (is_space c); [by apply suffix_cons_r | done].
Qed.

Lemma rstrip_same_length (s : str) : length (rstrip s) = length s → rstrip s = s.
Proof.
  unfold rstrip. rewrite length_rev, <- (length_rev s). intros Hl.
  destruct (lstrip_suffix (rev s)) as [k Hk].
  assert (k = []) as ->.
  { apply length_zero_iff_nil. apply (f_equal length) in Hk.
    rewrite length_app in Hk. lia. }
  cbn [app] in Hk. by rewrite <- Hk, rev_involutive.
Qed.

Lemma startswith_length (s p : str) :
  startswith s p = true → (length p ≤ length s)%nat.
Proof.
  revert s. induction p as [|x p IH]; intros [|y s]; cbn; try done; [lia|].
  intros [_ H]%andb_true_iff. apply IH in H. lia.
Qed.

Lemma split_from_cons (sep : str) (skip : nat) (s : str) :
  ∃ p ps, split_from sep skip s = p :: ps.
Proof.
  revert skip. induction s as [|c s IH]; intros skip; [by eexists _, _|].
  destruct skip as [|k]; cbn [split_from]; [|apply IH].
  destruct (startswith _ _); [by eexists _, _|].
  destruct (IH 0%nat) as (p & ps & ->). by eexists _, _.
Qed.

(** With an occurrence of the separator there are at least two parts. *)
Lemma split_from_present (sep s : str) :
  sep ≠ [] → contains sep s = true → (2 ≤ length (split_from sep 0 s))%nat.
Proof.
  intros Hsep. induction s as [|c s IH]; [by destruct sep|].
  cbn [contains split_from]. destruct (startswith (c :: s) sep).
  - intros _. destruct (split_from_cons sep (pred (length sep)) s) as (p & ps & ->).
    cbn. lia.
  - cbn [orb]. intros H%IH.
    destruct (split_from sep 0 s) as [|p ps]; cbn in *; lia.
Qed.

Lemma replace_from_length (old new : str) (skip : nat) (s : str) :
  (length new ≤ length old)%nat →
  (length (replace_from old new skip s) + skip `min` length s ≤ length s)%nat.
Proof.
  intros Hn. revert skip. induction s as [|c s IH]; intros skip; [cbn; lia|].
  destruct skip as [|k]; cbn [replace_from].
  - destruct (startswith (c :: s) old) eqn:Hs.
    + apply startswith_length in Hs. cbn [length] in Hs.
      specialize (IH (pred (length old))). rewrite length_app. cbn [length]. lia.
    + specialize (IH 0%nat). cbn [length]. lia.
  - specialize (IH k). cbn [length]. lia.
Qed.

(** Replacing by something shorter shortens a string in which [old]
    occurs. *)
Lemma replace_from_present (old new s : str) :
  (length new < length old)%nat → contains old s = true →
  (length (replace_from old new 0 s) < length s)%nat.
Proof.
  intros Hn. induction s as [|c s IH].
  - destruct old; [cbn in Hn; lia | done].
  - cbn [contains replace_from]. destruct (startswith (c :: s) old) eqn:Hs.
    + intros _. apply startswith_length in Hs. cbn [length] in Hs.
      pose proof (replace_from_length old new (pred (length old)) s) as Hl.
      rewrite length_app. cbn [length]. lia.
    + cbn [orb]. intros H%IH. cbn [length]. lia.
Qed.

End strings.

Lemma do_line_eq (d : str) : do_line d = lit "DO  - https://dx.doi.org/" ++ d.
Proof. done. Qed.

(** C3, as the code has it: a DOI that does not end in white space and
    contains none of ' - ', 'https' and 'http://dx.doi.org/' is read back
    unchanged from its 'DO' line. *)
Theorem doi_line_round_trip (fn d : str) :
  rstrip d = d →
  contains (lit " - ") d = false →
  contains (lit "https") d = false →
  contains (lit "http://dx.doi.org/") d = false →
  doi_of_line fn (do_line d) = Ok (Some d) ∧
  (fn ≠ [] → exclude_dois_from fn (Some [do_line d]) = Ok [d]).
Proof.
  intros Hstrip Hsep Hs Hurl.
  assert (doi_of_line fn (do_line d) = Ok (Some d)) as Hline.
  { unfold doi_of_line. rewrite do_line_eq.
    rewrite (strip_app _ d) by done.
    assert (split (lit " - ") (lit "DO  - https://dx.doi.org/" ++ d)
            = [lit "DO "; lit "https://dx.doi.org/" ++ d]) as ->.
    { unfold split. unlit. cbn -[split_from].
      do 4 (cbn [split_from startswith N.eqb Pos.eqb andb length pred]).
      pose proof (split_from_absent [32; 45; 32] d Hsep) as E. unlit.
      cbn [split_from startswith N.eqb Pos.eqb andb]. by rewrite E. }
    cbn [length bool_decide]. rewrite bool_decide_eq_false_2 by (cbn; lia).
    replace (startswith _ _) with true by (by unlit).
    change (subscript _ 1) with (Ok (lit "https://dx.doi.org/" ++ d) : result str).
    cbn [mbind result_bind]. rewrite (strip_app _ d) by done.
    assert (replace (lit "https") (lit "http") (lit "https://dx.doi.org/" ++ d)
            = lit "http://dx.doi.org/" ++ d) as ->.
    { unfold replace. unlit. pose proof (replace_from_absent _ [104; 116; 116; 112] d Hs) as E.
      revert E. unlit. intros E.
      cbn [replace_from startswith N.eqb Pos.eqb andb length pred app]. by rewrite E. }
    unfold replace. unlit.
    pose proof (replace_from_absent _ [] d Hurl) as E. revert E. unlit. intros E.
    cbn [replace_from startswith N.eqb Pos.eqb andb length pred app]. by rewrite E. }
  split; [done|]. intros Hfn. unfold exclude_dois_from.
  rewrite bool_decide_eq_false_2 by done. cbn [collect_dois]. by rewrite Hline.
Qed.

Lemma doi_line_round_trip_witness :
  rstrip (lit "10.1007/JHEP07(2021)027") = lit "10.1007/JHEP07(2021)027" ∧
  doi_of_line (lit "PublicationDocument.ris") (do_line (lit "10.1007/JHEP07(2021)027"))
    = Ok (Some (lit "10.1007/JHEP07(2021)027")).
Proof.
  split; [reflexivity|].
  apply (doi_line_round_trip (lit "PublicationDocument.ris")
           (lit "10.1007/JHEP07(2021)027")); reflexivity.
Defined.

(** C3, as stated for every DOI string, fails: the loader replaces each
    'https' by 'http', also inside the DOI. *)
Lemma doi_line_round_trip_fails :
  doi_of_line (lit "PublicationDocument.ris") (do_line (lit "10.1000/https"))
    = Ok (Some (lit "10.1000/http")) ∧
  doi_of_line (lit "PublicationDocument.ris") (do_line (lit "10.1000/https"))
    ≠ Ok (Some (lit "10.1000/https")).
Proof. split; [reflexivity|discriminate]. Qed.

(** Each of the other three conditions is needed as well. *)
Example doi_with_separator :
  doi_of_line (lit "f.ris") (do_line (lit "10.1000/a - b"))
  = Raise (RuntimeError (lit "Not a RIS file: f.ris")).
Proof. reflexivity. Qed.

Example doi_with_resolver_prefix :
  doi_of_line (lit "f.ris") (do_line (lit "10.1000/http://dx.doi.org/x"))
  = Ok (Some (lit "10.1000/x")).
Proof. reflexivity. Qed.

Example doi_with_trailing_space :
  doi_of_line (lit "f.ris") (do_line (lit "10.1000/x "))
  = Ok (Some (lit "10.1000/x")).
Proof. reflexivity. Qed.

(** The four conditions are also necessary: the 'DO' line of no other DOI
    is read back unchanged. *)
Lemma doi_line_round_trip_only_if (fn d : str) :
  doi_of_line fn (do_line d) = Ok (Some d) →
  rstrip d = d ∧
  contains (lit " - ") d = false ∧
  contains (lit "https") d = false ∧
  contains (lit "http://dx.doi.org/") d = false.
Proof.
  unfold doi_of_line. rewrite do_line_eq.
  assert (strip (lit "DO  - https://dx.doi.org/" ++ d)
          = lit "DO  - https://dx.doi.org/" ++ rstrip d) as ->.
  { unfold strip. rewrite <- rstrip_app by done. done. }
  replace (startswith _ _) with true by (by unlit).
  pose proof (rstrip_length d) as Hle.
  set (e := rstrip d) in *.
  destruct (contains (lit " - ") e) eqn:Hsep.
  { apply split_from_present in Hsep; [|done].
    destruct (split_from (lit " - ") 0 e) as [|p [|q ps]] eqn:Hsp;
      [cbn in Hsep; lia..|].
    assert (split (lit " - ") (lit "DO  - https://dx.doi.org/" ++ e)
            = lit "DO " :: (lit "https://dx.doi.org/" ++ p) :: q :: ps) as ->.
    { unfold split. revert Hsp. unlit. intros Hsp.
      cbn [split_from startswith N.eqb Pos.eqb andb length pred app].
      by rewrite Hsp. }
    rewrite bool_decide_eq_true_2 by (cbn [length]; lia). done. }
  assert (split (lit " - ") (lit "DO  - https://dx.doi.org/" ++ e)
          = [lit "DO "; lit "https://dx.doi.org/" ++ e]) as ->.
  { unfold split. pose proof (split_from_absent _ e Hsep) as E. revert E.
    unlit. intros E.
    cbn [split_from startswith N.eqb Pos.eqb andb length pred app]. by rewrite E. }
  rewrite bool_decide_eq_false_2 by (cbn; lia).
  change (subscript _ 1) with (Ok (lit "https://dx.doi.org/" ++ e) : result str).
  cbn [mbind result_bind].
  assert (strip (lit "https://dx.doi.org/" ++ e) = lit "https://dx.doi.org/" ++ e) as ->.
  { unfold strip, e.
    change (lstrip (lit "https://dx.doi.org/" ++ rstrip d))
      with (lit "https://dx.doi.org/" ++ rstrip d).
    by rewrite rstrip_app, rstrip_idemp. }
  assert (replace (lit "https") (lit "http") (lit "https://dx.doi.org/" ++ e)
          = lit "http://dx.doi.org/" ++ replace (lit "https") (lit "http") e) as ->.
  { unfold replace. unlit.
    by cbn [replace_from startswith N.eqb Pos.eqb andb length pred app]. }
  assert (∀ x : str, replace (lit "http://dx.doi.org/") [] (lit "http://dx.doi.org/" ++ x)
          = replace (lit "http://dx.doi.org/") [] x) as ->.
  { intros x. unfold replace. unlit.
    by cbn [replace_from startswith N.eqb Pos.eqb andb length pred app]. }
  intros [= Hd].
  assert (length (replace (lit "https") (lit "http") e) ≤ length e)%nat as H1.
  { pose proof (replace_from_length (lit "https") (lit "http") 0 e
                  ltac:(cbn; lia)) as H.
    unfold replace. lia. }
  assert (length d ≤ length (replace (lit "https") (lit "http") e))%nat as H2.
  { pose proof (replace_from_length (lit "http://dx.doi.org/") [] 0
                  (replace (lit "https") (lit "http") e) ltac:(cbn; lia)) as H.
    unfold replace in Hd, H. rewrite Hd in H. unfold replace. lia. }
  assert (length e = length d) as Hlen by lia.
  apply rstrip_same_length in Hlen. fold e in Hlen. rewrite Hlen in *.
  split; [done|]. split; [done|].
  destruct (contains (lit "https") d) eqn:Hs.
  { apply (replace_from_present _ (lit "http")) in Hs; [|cbn; lia].
    fold (replace (lit "https") (lit "http") d) in Hs. lia. }
  split; [done|].
  rewrite (replace_from_absent _ _ d Hs : replace _ _ d = d) in Hd.
  destruct (contains (lit "http://dx.doi.org/") d) eqn:Hu; [|done].
  apply (replace_from_present _ []) in Hu; [|cbn; lia].
  fold (replace (lit "http://dx.doi.org/") [] d) in Hu. rewrite Hd in Hu. lia.
Qed.

(** ** get_ris *)

Section get_ris.

Lemma subscript_0_inv {A} (l : list A) (x : A) :
  subscript l 0 = Ok x → ∃ l', l = x :: l'.
Proof. destruct l as [|y l]; [done|]. intros [= ->]. eauto. Qed.

Lemma getitem_inv {A} (key : string) (o : option A) (x : A) :
  getitem key o = Ok x → o = Some x.
Proof. destruct o; [|done]. by intros [= ->]. Qed.

Lemma get_doctype_inv (dt ty : str) :
  get_doctype dt = Ok ty → DOCTYPES !! dt = Some ty.
Proof. unfold get_doctype. destruct (DOCTYPES !! dt); [|done]. by intros [= ->]. Qed.

Lemma result_bind_inv {A B} (m : result A) (f : A → result B) (b : B) :
  m ≫= f = Ok b → ∃ a, m = Ok a ∧ f a = Ok b.
Proof. destruct m; [|done]. eauto. Qed.

(** The first part of [get_ris] goes through exactly for the records
    that [reads] describes and whose DOI is not excluded. *)
Lemma io_bind_ok {A B} (a : A) (f : A → io B) : lift (Ok a) ≫= f = f a.
Proof. unfold lift, mbind, io_bind. by destruct (f a). Qed.

Lemma io_ret_bind {A B} (a : A) (f : A → io B) : mret a ≫= f = f a.
Proof. apply io_bind_ok. Qed.

Lemma io_pair_bind {A B} (a : A) (f : A → io B) : (([], Ok a) : io A) ≫= f = f a.
Proof. apply io_bind_ok. Qed.

Lemma io_bind_raise {A B} (e : exn) (f : A → io B) :
  lift (Raise e) ≫= f = ([], Raise e).
Proof. done. Qed.

Lemma ris_fields_intro (e : json_entry) (excl : list str) (v : field_values) :
  reads e v → f_doi v ∉ excl →
  ris_fields e excl = ([], Ok (Some (fields_dict e v))).
Proof.
  intros (d0&ds&i&pi&dt&dts&t0&ts&Hd&Hv&Hf&Hy&Hj&Hvl&Hsp&Hep&Hdt&Hty&Ht&Ht1&Hav) Hex.
  unfold ris_fields. rewrite Hd, subscript_0, io_bind_ok. cbv zeta.
  rewrite Hv, bool_decide_eq_false_2 by done.
  rewrite Hf, Hdt, Ht, !subscript_0. cbv beta iota zeta. unfold get_doctype.
  rewrite Hy, Hj, Hvl, Hav. cbn [mbind result_bind]. rewrite Hty. cbn.
  unfold fields_dict. by rewrite Hsp, Hep, Ht1.
Qed.

Lemma ris_fields_inv (e : json_entry) (excl : list str) tr (ris : ordered_dict) :
  ris_fields e excl = (tr, Ok (Some ris)) →
  tr = [] ∧ ∃ v, reads e v ∧ (f_doi v ∉ excl) ∧ ris = fields_dict e v.
Proof.
  unfold ris_fields. destruct (dois (metadata e)) as [ds|] eqn:Hd; [|done].
  destruct ds as [|d0 ds]; [done|]. rewrite subscript_0, io_bind_ok. cbv zeta.
  case_bool_decide as Hex; [done|].
  destruct (list_find _ _) as [[i pi]|] eqn:Hf; [|done].
  destruct (document_type (metadata e)) as [|dt dts] eqn:Hdt; [done|].
  rewrite subscript_0. cbn [mbind result_bind].
  destruct (get_doctype dt) as [ty|] eqn:Hty; [|done].
  destruct (year pi) as [py|] eqn:Hy; [|done].
  destruct (journal_title pi) as [jo|] eqn:Hj; [|done].
  destruct (journal_volume pi) as [vl|] eqn:Hvl; [|done].
  destruct (titles (metadata e)) as [|t0 ts] eqn:Ht; [done|].
  rewrite subscript_0. cbn [mbind result_bind getitem].
  destruct (availability (metadata e)) as [av|] eqn:Hav; [|done].
  unfold lift.
  intros [= <- <-]. split; [done|].
  exists {| f_ty := ty; f_py := py; f_jo := jo; f_vl := vl; f_t1 := title t0;
            f_doi := value d0; f_sp := page_start pi; f_ep := page_end pi;
            f_av := av |}.
  split; [|done].
  exists d0, ds, i, pi, dt, dts, t0, ts. cbn.
  repeat split; try done. by apply get_doctype_inv.
Qed.

(** Assigning to a key that the dictionary does not hold appends it. *)
Lemma od_set_fresh (d : ordered_dict) (key : str) (v : pyval) :
  key ∉ d.*1 → od_set d key v = d ++ [(key, v)].
Proof.
  induction d as [|[k w] d IH]; [done|].
  intros [Hk Hd]%not_elem_of_cons. cbn [od_set].
  rewrite bool_decide_eq_false_2 by done. by rewrite IH.
Qed.

Lemma ris_lines_of_app (d1 d2 : ordered_dict) :
  ris_lines_of (d1 ++ d2) = ris_lines_of d1 ++ ris_lines_of d2.
Proof. apply bind_app. Qed.

Lemma ris_lines_of_list (key : str) (l : list str) :
  ris_lines_of [(key, VList l)] = ris_line key <$> l.
Proof. cbn. apply app_nil_r. Qed.

(** Serialising the export record gives the block: the insertion order of
    the fields is the order of the lines. *)
Lemma ris_lines_of_fields (e : json_entry) (v : field_values) (au : list str) :
  ris_lines_of (od_set (fields_dict e v) (lit "au") (VList au)) = block e v au.
Proof.
  unfold fields_dict, block.
  destruct (f_sp v), (f_ep v), (f_av v); cbn [od_set_opt optional_line];
    rewrite !od_set_fresh by compute_done;
    rewrite !ris_lines_of_app, ris_lines_of_list; reflexivity.
Qed.

(** For a record that passes the first part, [get_ris] is author
    selection, the collaboration credit and the serialisation. *)
Lemma get_ris_reads (e : json_entry) (name : str) (keep : bool)
    (excl : list str) (v : field_values) :
  reads e v → f_doi v ∉ excl →
  get_ris e name keep excl =
    lift (sel ← select (authors (metadata e)) name keep;
          if bool_decide (sel = []) then Ok []
          else au ← credit_collaborations (metadata e)
                      (length (authors (metadata e))) sel;
               Ok (block e v au)).
Proof.
  intros Hr Hex. unfold get_ris. rewrite (ris_fields_intro e excl v) by done.
  rewrite io_pair_bind.
  destruct (select _ _ _) as [sel|] eqn:Hsel; [|done].
  rewrite io_bind_ok. cbn [mbind result_bind].
  case_bool_decide; [done|].
  destruct (credit_collaborations _ _ _) as [au|]; [|done].
  rewrite io_bind_ok. cbn [mbind result_bind]. by rewrite ris_lines_of_fields.
Qed.

Lemma get_ris_no_doi (e : json_entry) (name : str) (keep : bool) (excl : list str) :
  dois (metadata e) = None → get_ris e name keep excl = ([], Ok []).
Proof. intros Hd. unfold get_ris, ris_fields. by rewrite Hd. Qed.

Lemma get_ris_excluded (e : json_entry) (name : str) (keep : bool)
    (excl : list str) (d0 : valued) (ds : list valued) :
  dois (metadata e) = Some (d0 :: ds) → value d0 ∈ excl →
  get_ris e name keep excl = ([], Ok []).
Proof.
  intros Hd Hin. unfold get_ris, ris_fields.
  rewrite Hd, subscript_0, io_bind_ok. cbv zeta.
  by rewrite bool_decide_eq_true_2.
Qed.

Lemma credit_collaborations_length (md : json_metadata) (n : nat) (sel au : list str) :
  credit_collaborations md n sel = Ok au → (length sel ≤ length au)%nat.
Proof.
  unfold credit_collaborations. destruct (collaborations md) as [cs|]; [|by intros [= ->]].
  destruct (join_with_and _) as [joined|]; [|done]. cbn [mbind result_bind].
  destruct (n <? 10)%nat.
  - destruct (subscript sel (-1)) as [z|]; [|done]. cbn [mbind result_bind].
    intros [= <-]. by rewrite length_insert.
  - intros [= <-]. rewrite length_app. lia.
Qed.

(** What a non-empty result of [get_ris] looks like. *)
Lemma get_ris_output_inv (e : json_entry) (name : str) (keep : bool)
    (excl : list str) tr (lines : list str) :
  get_ris e name keep excl = (tr, Ok lines) → lines ≠ [] →
  ∃ v sel au,
    reads e v ∧ (f_doi v ∉ excl) ∧
    select (authors (metadata e)) name keep = Ok sel ∧ sel ≠ [] ∧
    credit_collaborations (metadata e) (length (authors (metadata e))) sel = Ok au ∧
    au ≠ [] ∧
    lines = block e v au.
Proof.
  intros Hg Hne.
  destruct (ris_fields e excl) as [tr0 [[ris|]|]] eqn:Hf.
  - apply ris_fields_inv in Hf as (-> & v & Hr & Hex & ->).
    rewrite (get_ris_reads e name keep excl v) in Hg by done.
    destruct (select _ _ _) as [sel|] eqn:Hsel; [|done].
    cbn [mbind result_bind] in Hg. case_bool_decide as Hsel0.
    { injection Hg as _ <-. done. }
    destruct (credit_collaborations _ _ _) as [au|] eqn:Hau; [|done].
    injection Hg as _ <-. exists v, sel, au. repeat split; try done.
    apply credit_collaborations_length in Hau. intros ->.
    destruct sel; [done|]. cbn in Hau. lia.
  - unfold get_ris in Hg. rewrite Hf in Hg. injection Hg as _ <-. done.
  - unfold get_ris in Hg. by rewrite Hf in Hg.
Qed.

End get_ris.

(** ** Facts about the sample records *)

Lemma reads_paper (n : nat) (home : bool) (collabs : option (list valued)) :
  reads (Samples.paper n home [Samples.preprint; Samples.jhep] collabs)
        Samples.jhep_values.
Proof.
  exists {| value := lit "10.1007/JHEP07(2021)027" |}, [], 1%nat, Samples.jhep,
    (lit "article"), [], {| title := lit "Measurement of something" |}, [].
  repeat split; reflexivity.
Qed.

Lemma doi_not_excluded : f_doi Samples.jhep_values ∉ [lit "10.1000/other"].
Proof. compute_done. Qed.


(** ** The claims about get_ris *)

(** C8: a non-empty result of the transformer consists of the lines for
    type, year, journal, volume, title, DOI URL, the two provenance
    constants, language and record URL, then start page, end page and
    availability where present, then one 'AU' line per credited author;
    every line is the upper-cased code, '  - ' and the value. *)
Theorem get_ris_field_order (e : json_entry) (name : str) (keep : bool)
    (excl : list str) (tr : list event) (lines : list str) :
  get_ris e name keep excl = (tr, Ok lines) → lines ≠ [] →
  ∃ v sel au,
    reads e v ∧
    select (authors (metadata e)) name keep = Ok sel ∧
    credit_collaborations (metadata e) (length (authors (metadata e))) sel = Ok au ∧
    au ≠ [] ∧
    lines =
      [ ris_line (lit "ty") (f_ty v);
        ris_line (lit "py") (of_Z (f_py v));
        ris_line (lit "jo") (f_jo v);
        ris_line (lit "vl") (f_vl v);
        ris_line (lit "t1") (f_t1 v);
        ris_line (lit "do") (lit "https://dx.doi.org/" ++ f_doi v);
        ris_line (lit "db") (lit "WoS");
        ris_line (lit "dp") (lit "WoS");
        ris_line (lit "la") (lit "English");
        ris_line (lit "ur") (lit "https://inspirehep.net/record/" ++ entry_id e) ]
      ++ from_option (λ s, [ris_line (lit "sp") s]) [] (f_sp v)
      ++ from_option (λ s, [ris_line (lit "ep") s]) [] (f_ep v)
      ++ from_option (λ s, [ris_line (lit "av") s]) [] (f_av v)
      ++ (ris_line (lit "au") <$> au) ∧
    lines = block e v au.
Proof.
  intros Hg Hne.
  destruct (get_ris_output_inv _ _ _ _ _ _ Hg Hne)
    as (v & sel & au & Hr & _ & Hsel & _ & Hcr & Hau & ->).
  exists v, sel, au. by repeat split.
Qed.

(** The block of a paper with three authors, one of them the target. *)
Lemma get_ris_field_order_witness :
  ∃ v au,
    reads (Samples.paper 2 true [Samples.preprint; Samples.jhep] None) v ∧
    [ lit "TY  - JOUR";
      lit "PY  - 2021";
      lit "JO  - JHEP";
      lit "VL  - 07";
      lit "T1  - Measurement of something";
      lit "DO  - https://dx.doi.org/10.1007/JHEP07(2021)027";
      lit "DB  - WoS";
      lit "DP  - WoS";
      lit "LA  - English";
      lit "UR  - https://inspirehep.net/record/1874335";
      lit "SP  - 027";
      lit "AU  - Ehat" ++ [228] ++ lit "ht, Karl" ]
    = block (Samples.paper 2 true [Samples.preprint; Samples.jhep] None) v au.
Proof.
  destruct (get_ris_field_order
              (Samples.paper 2 true [Samples.preprint; Samples.jhep] None)
              Samples.target false [] []
              [ lit "TY  - JOUR";
                lit "PY  - 2021";
                lit "JO  - JHEP";
                lit "VL  - 07";
                lit "T1  - Measurement of something";
                lit "DO  - https://dx.doi.org/10.1007/JHEP07(2021)027";
                lit "DB  - WoS";
                lit "DP  - WoS";
                lit "LA  - English";
                lit "UR  - https://inspirehep.net/record/1874335";
                lit "SP  - 027";
                lit "AU  - Ehat" ++ [228] ++ lit "ht, Karl" ])
    as (v & sel & au & Hr & _ & _ & _ & _ & Hb); [reflexivity | discriminate |].
  exists v, au. split; assumption.
Defined.

(** The sixth line of a block is the 'DO' line of the primary DOI. *)
Lemma get_ris_do_line (e : json_entry) (name : str) (keep : bool)
    (excl : list str) (tr : list event) (lines : list str) :
  get_ris e name keep excl = (tr, Ok lines) → lines ≠ [] →
  ∃ d0 ds, dois (metadata e) = Some (d0 :: ds) ∧
           lines !! 5%nat = Some (do_line (value d0)).
Proof.
  intros Hg Hne.
  destruct (get_ris_output_inv _ _ _ _ _ _ Hg Hne)
    as (v & sel & au & Hr & _ & _ & _ & _ & _ & ->).
  destruct Hr as (d0 & ds & _ & _ & _ & _ & _ & _ & Hd & Hv & _).
  exists d0, ds. split; [done|]. by rewrite Hv.
Qed.

(** C6: a record with a primary DOI that is not excluded and without a
    publication_info entry carrying a year makes the transformer print the
    record and raise. *)
Theorem get_ris_no_year_fatal (e : json_entry) (name : str) (keep : bool)
    (excl : list str) (d0 : valued) (ds : list valued) :
  dois (metadata e) = Some (d0 :: ds) → value d0 ∉ excl →
  Forall (λ pubinfo, year pubinfo = None) (publication_info (metadata e)) →
  get_ris e name keep excl =
    ([Print_json (metadata e)],
     Raise (RuntimeError (lit "No publication year found in the above entry"))).
Proof.
  intros Hd Hex Hy. unfold get_ris, ris_fields.
  rewrite Hd, subscript_0, io_bind_ok. cbv zeta.
  rewrite bool_decide_eq_false_2 by done.
  destruct (list_find _ _) as [[i pi]|] eqn:Hf; [|done].
  apply list_find_Some in Hf as (Hi & [y Hsome] & _).
  rewrite Forall_lookup in Hy. apply Hy in Hi. congruence.
Qed.

Lemma get_ris_no_year_fatal_witness :
  get_ris (Samples.paper 2 true [Samples.preprint] None) Samples.target false []
  = ([Print_json (metadata (Samples.paper 2 true [Samples.preprint] None))],
     Raise (RuntimeError (lit "No publication year found in the above entry"))).
Proof.
  apply (get_ris_no_year_fatal
           (Samples.paper 2 true [Samples.preprint] None) Samples.target false []
           {| value := lit "10.1007/JHEP07(2021)027" |} []).
  - reflexivity.
  - apply not_elem_of_nil.
  - repeat constructor.
Defined.

Lemma sorted_length (l : list str) : length (sorted l) = length l.
Proof. apply Permutation_length, sorted_spec. Qed.

Lemma sorted_nil_inv (l : list str) : sorted l = [] → l = [].
Proof.
  intros E. apply length_zero_iff_nil. by rewrite <- sorted_length, E.
Qed.

(** C4: for a record that reaches the collaboration step with a non-empty
    selection and collaboration names, the names are sorted and joined by
    [join_with_and], 'Collaboration' gets its 's' exactly when more than
    one is listed, and with fewer than 10 authors in the record the last
    selected author gets ' (for the ...)' appended, otherwise the author
    'et al. (...)' is added at the end. *)
Theorem get_ris_collaboration_credit (e : json_entry) (name : str) (keep : bool)
    (excl : list str) (v : field_values) (sel : list str) (cs : list valued) :
  reads e v → f_doi v ∉ excl →
  select (authors (metadata e)) name keep = Ok sel → sel ≠ [] →
  collaborations (metadata e) = Some cs → cs ≠ [] →
  ∃ joined init z,
    join_with_and (sorted (value <$> cs)) = Ok joined ∧
    sel = init ++ [z] ∧
    let collab_str :=
      joined ++ lit " Collaboration"
             ++ (if bool_decide (1 < length cs)%nat then lit "s" else []) in
    get_ris e name keep excl =
      ([], Ok (block e v
                 (if bool_decide (length (authors (metadata e)) < 10)%nat
                  then init ++ [z ++ lit " (for the " ++ collab_str ++ lit ")"]
                  else sel ++ [lit "et al. (" ++ collab_str ++ lit ")"]))).
Proof.
  intros Hr Hex Hsel Hne Hcs Hcne.
  destruct (exists_last Hne) as (init & z & ->).
  assert (sorted (value <$> cs) ≠ []) as Hsne.
  { intros E%sorted_nil_inv. by destruct cs. }
  destruct (exists_last Hsne) as (cinit & cz & Hs).
  eexists _, init, z. split; [rewrite Hs; apply join_with_and_snoc|].
  split; [done|]. cbv zeta.
  rewrite (get_ris_reads e name keep excl v), Hsel by done.
  cbn [mbind result_bind]. rewrite bool_decide_eq_false_2 by done.
  unfold credit_collaborations. rewrite Hcs, Hs, join_with_and_snoc.
  cbn [mbind result_bind]. rewrite <- Hs, sorted_length, length_fmap.
  assert (∀ x : str,
    (if (1 <? length cs)%nat then x ++ lit "s" else x)
    = x ++ (if bool_decide (1 < length cs)%nat then lit "s" else [])) as ->.
  { intros x. case_bool_decide as H1.
    - by apply Nat.ltb_lt in H1 as ->.
    - apply Nat.ltb_nlt in H1 as ->. by rewrite app_nil_r. }
  destruct (decide (length (authors (metadata e)) < 10)%nat) as [H10|H10].
  - rewrite (bool_decide_eq_true_2 _ H10).
    apply Nat.ltb_lt in H10 as ->. rewrite subscript_last.
    cbn [mbind result_bind]. rewrite length_app. cbn [length].
    replace (pred (length init + 1)) with (length init + 0)%nat by lia.
    rewrite insert_app_r. cbn [list_insert]. by rewrite <- !(assoc_L (++)).
  - rewrite (bool_decide_eq_false_2 _ H10).
    apply Nat.ltb_nlt in H10 as ->. by rewrite <- !(assoc_L (++)).
Qed.

(** Nine authors and the collaboration 'CMS': the last selected author
    carries the credit. *)
Lemma get_ris_collaboration_credit_witness :
  get_ris (Samples.paper 8 true [Samples.preprint; Samples.jhep]
             (Some [Samples.collab "CMS"]))
          Samples.target false [lit "10.1000/other"]
  = ([], Ok (block (Samples.paper 8 true [Samples.preprint; Samples.jhep]
                      (Some [Samples.collab "CMS"]))
               Samples.jhep_values
               [lit "Ehat" ++ [228] ++ lit "ht, Karl (for the CMS Collaboration)"])).
Proof.
  destruct (get_ris_collaboration_credit
              (Samples.paper 8 true [Samples.preprint; Samples.jhep]
                 (Some [Samples.collab "CMS"]))
              Samples.target false [lit "10.1000/other"] Samples.jhep_values
              [lit "Ehat" ++ [228] ++ lit "ht, Karl"] [Samples.collab "CMS"])
    as (joined & init & z & Hj & Hs & Hg);
    [apply reads_paper | apply doi_not_excluded
    | reflexivity | discriminate | reflexivity | discriminate |].
  injection Hj as <-.
  destruct init as [|a [|b init]]; [|discriminate..].
  injection Hs as <-. exact Hg.
Defined.

(** Twelve authors and two collaborations: the credit is an author of its
    own, with the collaborations in sorted order and the plural. *)
Example get_ris_twelve_authors :
  get_ris (Samples.paper 11 true [Samples.jhep]
             (Some [Samples.collab "CMS"; Samples.collab "ATLAS"]))
          Samples.target false []
  = ([], Ok (block (Samples.paper 11 true [Samples.jhep]
                      (Some [Samples.collab "CMS"; Samples.collab "ATLAS"]))
               Samples.jhep_values
               [lit "Ehat" ++ [228] ++ lit "ht, Karl";
                lit "et al. (ATLAS and CMS Collaborations)"])).
Proof. reflexivity. Qed.

(** C5, as the code has it: a record without the 'dois' key, or whose
    primary DOI is an element of the exclusion list, is dropped; so is a
    record whose fields before the authors can be read and for which the
    target is not among the candidates while [keep_affiliation] is off. *)
Theorem get_ris_drops (e : json_entry) (name : str) (keep : bool) (excl : list str) :
  dois (metadata e) = None
  ∨ (∃ d0 ds, dois (metadata e) = Some (d0 :: ds) ∧ value d0 ∈ excl)
  ∨ (∃ v, reads e v ∧ (f_doi v ∉ excl) ∧
          ¬ target_present (authors (metadata e)) name ∧ keep = false) →
  get_ris e name keep excl = ([], Ok []).
Proof.
  intros [Hd|[(d0 & ds & Hd & Hin)|(v & Hr & Hex & Hp & ->)]].
  - by apply get_ris_no_doi.
  - by eapply get_ris_excluded.
  - rewrite (get_ris_reads e name false excl v) by done.
    by rewrite select_absent.
Qed.

Lemma get_ris_drops_witness :
  get_ris (Samples.paper 2 false [Samples.jhep] None) Samples.target false []
  = ([], Ok []).
Proof.
  apply (get_ris_drops (Samples.paper 2 false [Samples.jhep] None)
           Samples.target false []).
  right; right. exists Samples.jhep_values. split; [|split; [|split]].
  - exists {| value := lit "10.1007/JHEP07(2021)027" |}, [], 0%nat, Samples.jhep,
      (lit "article"), [], {| title := lit "Measurement of something" |}, [].
    repeat split; reflexivity.
  - apply not_elem_of_nil.
  - apply (bool_decide_eq_false_1 (target_present _ _)). reflexivity.
  - reflexivity.
Defined.

(** C5, as stated, fails: an empty author selection does not keep the
    transformer from raising when the record has no publication year. *)
Lemma get_ris_empty_selection_raises :
  select (authors (metadata (Samples.paper 2 false [Samples.preprint] None)))
         Samples.target false = Ok [] ∧
  get_ris (Samples.paper 2 false [Samples.preprint] None) Samples.target false []
  = ([Print_json (metadata (Samples.paper 2 false [Samples.preprint] None))],
     Raise (RuntimeError (lit "No publication year found in the above entry"))) ∧
  get_ris (Samples.paper 2 false [Samples.preprint] None) Samples.target false []
  ≠ ([], Ok []).
Proof. split; [|split]; [reflexivity..|discriminate]. Qed.

(** The DOI of the record is compared as it stands: a stored form that the
    loader would have normalised is not recognised. *)
Example get_ris_compares_verbatim :
  let e := {| entry_id := lit "1";
              metadata := {| dois := Some [ {| value := lit "10.1000/https" |} ];
                             publication_info := [Samples.jhep];
                             document_type := [lit "article"];
                             titles := [ {| title := lit "T" |} ];
                             documents := None; urls := None;
                             authors := [Samples.member "Ehataht, Karl" "NICPB, Tallinn"];
                             collaborations := None |} |} in
  exclude_dois_from (lit "f.ris") (Some [do_line (lit "10.1000/https")])
    = Ok [lit "10.1000/http"] ∧
  ∃ lines, get_ris e Samples.target false [lit "10.1000/http"] = ([], Ok lines)
           ∧ lines ≠ [].
Proof. split; [reflexivity|]. eexists. split; [reflexivity|discriminate]. Qed.

(** A 'dois' key with an empty list is not a dropped record either. *)
Example get_ris_empty_dois :
  get_ris {| entry_id := lit "1";
             metadata := {| dois := Some [];
                            publication_info := [Samples.jhep];
                            document_type := [lit "article"];
                            titles := [ {| title := lit "T" |} ];
                            documents := None; urls := None;
                            authors := [];
                            collaborations := None |} |}
          Samples.target false []
  = ([], Raise IndexError).
Proof. reflexivity. Qed.

(** C10, as the code has it: a record that reaches the collaboration step
    with a non-empty selection and an empty 'collaborations' list makes
    the transformer fail with the assertion of [join_with_and]. *)
Theorem get_ris_empty_collaborations (e : json_entry) (name : str) (keep : bool)
    (excl : list str) (v : field_values) (sel : list str) :
  reads e v → f_doi v ∉ excl →
  select (authors (metadata e)) name keep = Ok sel → sel ≠ [] →
  collaborations (metadata e) = Some [] →
  join_with_and [] = Raise AssertionError ∧
  get_ris e name keep excl = ([], Raise AssertionError).
Proof.
  intros Hr Hex Hsel Hne Hcs. split; [done|].
  rewrite (get_ris_reads e name keep excl v), Hsel by done.
  cbn [mbind result_bind]. rewrite bool_decide_eq_false_2 by done.
  unfold credit_collaborations. by rewrite Hcs.
Qed.

Lemma get_ris_empty_collaborations_witness :
  join_with_and [] = Raise AssertionError ∧
  get_ris (Samples.paper 2 true [Samples.preprint; Samples.jhep] (Some []))
          Samples.target false [lit "10.1000/other"]
  = ([], Raise AssertionError).
Proof.
  apply (get_ris_empty_collaborations
           (Samples.paper 2 true [Samples.preprint; Samples.jhep] (Some []))
           Samples.target false [lit "10.1000/other"] Samples.jhep_values
           [lit "Ehat" ++ [228] ++ lit "ht, Karl"]).
  - apply reads_paper.
  - apply doi_not_excluded.
  - reflexivity.
  - discriminate.
  - reflexivity.
Defined.

(** C10, as stated for every record with an empty 'collaborations' list,
    fails: when the author selection is empty the record is dropped before
    the collaborations are looked at. *)
Lemma get_ris_empty_collaborations_dropped :
  collaborations
    (metadata (Samples.paper 2 false [Samples.preprint; Samples.jhep] (Some [])))
  = Some [] ∧
  get_ris (Samples.paper 2 false [Samples.preprint; Samples.jhep] (Some []))
          Samples.target false []
  = ([], Ok []) ∧
  get_ris (Samples.paper 2 false [Samples.preprint; Samples.jhep] (Some []))
          Samples.target false []
  ≠ ([], Raise AssertionError).
Proof. split; [|split]; [reflexivity..|discriminate]. Qed.

(** ** The fetch loop *)

Section fetch.

Context (cfg : settings).

Lemma fetch_loop_429 (st : fetch_state) (r : response) (server : list response) :
  st_url st ≠ [] → status_code r = 429%Z →
  fetch_loop cfg (r :: server) st =
    (attempt st ++ (fetch_loop cfg server st).1, (fetch_loop cfg server st).2).
Proof.
  intros Hu Hr. cbn [fetch_loop]. rewrite bool_decide_eq_false_2, Hr by done.
  cbn [Z.eqb Pos.eqb]. by destruct (fetch_loop cfg server st).
Qed.

Lemma fetch_loop_200 (st st' : fetch_state) (r : response)
    (server : list response) (tr1 : list event) :
  st_url st ≠ [] → status_code r = 200%Z →
  handle_page cfg st (json r) = (tr1, Ok st') →
  fetch_loop cfg (r :: server) st =
    (Request (st_url st) :: tr1 ++ (fetch_loop cfg server st').1,
     (fetch_loop cfg server st').2).
Proof.
  intros Hu Hr Hp. cbn [fetch_loop]. rewrite bool_decide_eq_false_2, Hr, Hp by done.
  cbn [Z.eqb Pos.eqb negb]. by destruct (fetch_loop cfg server st').
Qed.

(** Any number of 429 answers is sat out with the state unchanged. *)
Lemma fetch_loop_rate_limited (st : fetch_state) (limited server : list response) :
  st_url st ≠ [] → Forall (λ r, status_code r = 429%Z) limited →
  fetch_loop cfg (limited ++ server) st =
    ((limited ≫= λ _, attempt st) ++ (fetch_loop cfg server st).1,
     (fetch_loop cfg server st).2).
Proof.
  intros Hu Hl. induction Hl as [|r limited Hr _ IH].
  - cbn [app]. by destruct (fetch_loop cfg server st).
  - cbn [app]. rewrite fetch_loop_429, IH by done. cbn [fst snd].
    by rewrite bind_cons, (assoc_L (++)).
Qed.

(** A transformer call that returns has printed nothing. *)
Lemma ris_fields_ok_silent (e : json_entry) (excl : list str)
    (tr : list event) (fields : option ordered_dict) :
  ris_fields e excl = (tr, Ok fields) → tr = [].
Proof.
  unfold ris_fields.
  destruct (dois (metadata e)) as [[|d0 ds]|]; [done| |by intros [= <- _]].
  rewrite subscript_0, io_bind_ok. cbv zeta.
  case_bool_decide; [by intros [= <- _]|].
  destruct (list_find _ _) as [[i pi]|]; [|done].
  unfold lift. by intros [= <- _].
Qed.

Lemma get_ris_ok_silent (e : json_entry) (n : str) (keep : bool) (excl : list str)
    (tr : list event) (lines : list str) :
  get_ris e n keep excl = (tr, Ok lines) → tr = [].
Proof.
  intros Hg. destruct (ris_fields e excl) as [tr0 [[ris|]|]] eqn:Hf.
  - apply ris_fields_inv in Hf as (-> & v & Hr & Hex & ->).
    rewrite (get_ris_reads e n keep excl v) in Hg by done.
    unfold lift in Hg. by injection Hg as <- _.
  - apply ris_fields_ok_silent in Hf as Htr. subst tr0.
    unfold get_ris in Hg. rewrite Hf, io_pair_bind in Hg. by injection Hg as <- _.
  - unfold get_ris in Hg. by rewrite Hf in Hg.
Qed.

Lemma collect_ris_ok_silent (entries : list json_entry) (acc out : list str)
    (tr : list event) :
  collect_ris cfg entries acc = (tr, Ok out) → tr = [].
Proof.
  revert acc. induction entries as [|e entries IH]; intros acc.
  - by intros [= <- _].
  - cbn [collect_ris].
    destruct (get_ris e (name cfg) (keep_affiliation cfg) (dois_to_exclude cfg))
      as [tr0 [lines|]] eqn:Hg; [|done].
    apply get_ris_ok_silent in Hg as ->. rewrite io_pair_bind. apply IH.
Qed.

Lemma handle_page_ok_silent (st st' : fetch_state) (p : json_payload)
    (tr : list event) :
  handle_page cfg st p = (tr, Ok st') → tr = [].
Proof.
  unfold handle_page.
  assert (∀ k : Z → io fetch_state,
    (∀ z, ∀ tr st', k z = (tr, Ok st') → tr = []) →
    ((if (st_nof_hits st <? 0)%Z then
        _ ← lift (true_divide (hits_total p) (query_size cfg));
        mret (hits_total p)
      else mret (st_nof_hits st)) ≫= k) = (tr, Ok st') → tr = []) as Hk.
  { intros k Hk. destruct (st_nof_hits st <? 0)%Z;
      [destruct (true_divide _ _) as [[]|]; [|done]|];
      unfold lift; rewrite ?io_pair_bind, io_ret_bind; apply Hk. }
  apply Hk. clear. intros z tr st'.
  destruct (collect_ris cfg (hits_hits p) (st_ris_data st)) as [tr0 [out|]] eqn:Hc; [|done].
  apply collect_ris_ok_silent in Hc as ->. rewrite io_pair_bind. by intros [= <- _].
Qed.

End fetch.

(** C9: while the server answers 429 the loop sleeps 6 seconds and asks
    for the same URL again, however often that happens; the first answer
    with status 200 is then handled as if it had come at once.  One
    request goes out per 429 answer and one more for the 200 answer. *)
Theorem fetch_loop_retries_same_url (cfg : settings) (st st' : fetch_state)
    (limited : list response) (ok : response) (server : list response) :
  st_url st ≠ [] →
  Forall (λ r, status_code r = 429%Z) limited →
  status_code ok = 200%Z →
  handle_page cfg st (json ok) = ([], Ok st') →
  fetch_loop cfg (limited ++ ok :: server) st =
    ((limited ≫= λ _, [Request (st_url st); Sleep 6])
       ++ Request (st_url st) :: (fetch_loop cfg server st').1,
     (fetch_loop cfg server st').2) ∧
  fetch_loop cfg limited st =
    ((limited ≫= λ _, [Request (st_url st); Sleep 6]) ++ [Request (st_url st)],
     Waiting st).
Proof.
  intros Hu Hl Hok Hp. split.
  - rewrite (fetch_loop_rate_limited cfg st limited) by done.
    by rewrite (fetch_loop_200 cfg st st' ok server []).
  - rewrite <- (app_nil_r limited) at 1.
    rewrite (fetch_loop_rate_limited cfg st limited) by done.
    cbn [fetch_loop]. by rewrite bool_decide_eq_false_2.
Qed.

(** The mock server of the specification: 429 twice, then 200.  Three
    requests go to the same URL and the run ends regularly. *)
Lemma fetch_loop_retries_same_url_witness :
  fetch_loop Mock.cfg [Mock.busy; Mock.busy; Mock.fine] (initial_state Mock.start)
  = ([Request Mock.start; Sleep 6; Request Mock.start; Sleep 6; Request Mock.start],
     Finished []).
Proof.
  refine (proj1 (fetch_loop_retries_same_url Mock.cfg (initial_state Mock.start)
                   {| st_url := []; st_nof_hits := 0; st_page_nr := 2;
                      st_ris_data := [] |}
                   [Mock.busy; Mock.busy] Mock.fine [] _ _ _ _)).
  - discriminate.
  - repeat constructor.
  - reflexivity.
  - reflexivity.
Defined.

(** * Further properties *)

(** ** order_str *)

Section ordinals.

Lemma lit_string_of_uint (d : Decimal.uint) :
  lit (NilEmpty.string_of_uint d) = uint_chars d.
Proof. induction d; [done|..]; cbn; by f_equal. Qed.

Lemma uint_chars_revapp (d acc : Decimal.uint) :
  uint_chars (Decimal.revapp d acc) = rev (uint_chars d) ++ uint_chars acc.
Proof.
  revert acc. induction d; intros acc; [done|..]; cbn [Decimal.revapp];
    rewrite IHd; cbn [uint_chars rev]; by rewrite <- (assoc_L (++)).
Qed.

(** Read from the right, the decimal string of a positive number is its
    digits from the least significant one on. *)
Lemma rev_of_Z_pos (p : positive) :
  rev (of_Z (Z.pos p)) = uint_chars (Pos.to_little_uint p).
Proof.
  unfold of_Z. cbn [Z.to_int NilEmpty.string_of_int].
  rewrite lit_string_of_uint. unfold Pos.to_uint, Decimal.rev.
  rewrite uint_chars_revapp. cbn [uint_chars]. by rewrite app_nil_r, rev_involutive.
Qed.

Lemma rev_of_Z_neg (p : positive) :
  rev (of_Z (Z.neg p)) = uint_chars (Pos.to_little_uint p) ++ [45].
Proof.
  unfold of_Z. cbn [Z.to_int NilEmpty.string_of_int].
  change (lit (String "-" ?s)) with (45 :: lit s).
  rewrite lit_string_of_uint. unfold Pos.to_uint, Decimal.rev.
  rewrite uint_chars_revapp. cbn [uint_chars rev]. by rewrite app_nil_r, rev_involutive.
Qed.

Lemma of_lu_to_little_uint (p : positive) :
  DecimalPos.Unsigned.of_lu (Pos.to_little_uint p) = N.pos p.
Proof.
  rewrite <- DecimalPos.Unsigned.of_lu_rev. apply DecimalPos.Unsigned.of_to.
Qed.

Lemma hd_lt_10 (d : Decimal.uint) : DecimalPos.Unsigned.hd d < 10.
Proof. destruct d; cbn; lia. Qed.

Lemma order_str_from_digits (s : str) (d : Decimal.uint) (t : str) :
  d ≠ Decimal.Nil → t = [] ∨ t = [45] →
  rev s = uint_chars d ++ t →
  order_str_from s NUM_SFX
  = s ++ suffix_of_digits (DecimalPos.Unsigned.hd d) (DecimalPos.Unsigned.hd (DecimalPos.Unsigned.tl d)).
Proof.
  intros Hd Ht Hs. unfold NUM_SFX, order_str_from, endswith. rewrite Hs.
  destruct d as [|d|d|d|d|d|d|d|d|d|d]; [done|..];
    destruct d as [|d|d|d|d|d|d|d|d|d|d]; destruct Ht as [-> | ->]; reflexivity.
Qed.

Lemma suffix_of_digits_ordinal (m : Z) :
  (0 ≤ m)%Z →
  suffix_of_digits (Z.to_N (m `mod` 10)) (Z.to_N ((m `div` 10) `mod` 10))
  = ordinal_suffix m.
Proof.
  intros Hm. unfold suffix_of_digits, ordinal_suffix.
  assert (m `mod` 100 = m `mod` 10 + 10 * ((m `div` 10) `mod` 10))%Z as E.
  { change 100%Z with (10 * 10)%Z. rewrite Z.rem_mul_r by lia. lia. }
  pose proof (Z.mod_pos_bound m 10 ltac:(lia)) as Hu.
  pose proof (Z.mod_pos_bound (m `div` 10) 10 ltac:(lia)) as Ht.
  case_bool_decide as H100.
  - destruct (N.eqb_spec (Z.to_N ((m `div` 10) `mod` 10)) 1) as [_|Hn]; [done|].
    assert ((m `div` 10) `mod` 10 = 1)%Z by lia. lia.
  - destruct (N.eqb_spec (Z.to_N ((m `div` 10) `mod` 10)) 1) as [Ht1|Ht1].
    + assert ((m `div` 10) `mod` 10 = 1)%Z as E1 by lia.
      repeat (case_match; try done); lia.
    + repeat match goal with
             | |- context [N.eqb ?a ?b] => destruct (N.eqb_spec a b)
             | |- context [Z.eqb ?a ?b] => destruct (Z.eqb_spec a b)
             end; try done; lia.
Qed.

Lemma order_str_positive (s : str) (p : positive) (t : str) :
  t = [] ∨ t = [45] →
  rev s = uint_chars (Pos.to_little_uint p) ++ t →
  order_str_from s NUM_SFX = s ++ ordinal_suffix (Z.pos p).
Proof.
  intros Ht Hs.
  pose proof (of_lu_to_little_uint p) as Hp.
  assert (Pos.to_little_uint p ≠ Decimal.Nil) as Hnil.
  { intros E. by rewrite E in Hp. }
  rewrite (order_str_from_digits s _ t Hnil Ht Hs).
  rewrite <- suffix_of_digits_ordinal by lia. f_equal.
  set (d := Pos.to_little_uint p) in *.
  rewrite DecimalPos.Unsigned.of_lu_eqn in Hp.
  pose proof (DecimalPos.Unsigned.of_lu_eqn (DecimalPos.Unsigned.tl d)) as Ht2.
  pose proof (hd_lt_10 d). pose proof (hd_lt_10 (DecimalPos.Unsigned.tl d)).
  set (u := DecimalPos.Unsigned.hd d) in *. set (v := DecimalPos.Unsigned.hd (DecimalPos.Unsigned.tl d)) in *.
  set (q := DecimalPos.Unsigned.of_lu (DecimalPos.Unsigned.tl d)) in *.
  set (r := DecimalPos.Unsigned.of_lu (DecimalPos.Unsigned.tl (DecimalPos.Unsigned.tl d))) in *.
  assert (Z.pos p = Z.of_N u + 10 * Z.of_N q)%Z as Ez by lia.
  assert (Z.of_N q = Z.of_N v + 10 * Z.of_N r)%Z as Eq' by lia.
  assert (Z.pos p `mod` 10 = Z.of_N u)%Z as Eu
    by (symmetry; apply (Z.mod_unique_pos _ 10 (Z.of_N q)); lia).
  assert (Z.pos p `div` 10 = Z.of_N q)%Z as Ed
    by (symmetry; apply (Z.div_unique_pos _ 10 _ (Z.of_N u)); lia).
  assert (Z.of_N q `mod` 10 = Z.of_N v)%Z as Ev
    by (symmetry; apply (Z.mod_unique_pos _ 10 (Z.of_N r)); lia).
  rewrite Eu, Ed, Ev, !N2Z.id. done.
Qed.

End ordinals.

(** X1: [order_str] appends the English ordinal suffix of the absolute
    value to the decimal form of the number: 'th' for 11, 12, 13 in the
    last two digits, else 'st', 'nd', 'rd' for a last digit 1, 2, 3, else
    'th'. *)
Theorem order_str_ordinal (num : Z) :
  order_str num = of_Z num ++ ordinal_suffix (Z.abs num).
Proof.
  unfold order_str. destruct num as [|p|p].
  - reflexivity.
  - apply (order_str_positive _ p []); [by left|].
    by rewrite rev_of_Z_pos, app_nil_r.
  - apply (order_str_positive _ p [45]); [by right|]. apply rev_of_Z_neg.
Qed.

Example order_str_examples :
  order_str 1 = lit "1st" ∧ order_str 2 = lit "2nd" ∧ order_str 3 = lit "3rd" ∧
  order_str 4 = lit "4th" ∧ order_str 11 = lit "11th" ∧ order_str 12 = lit "12th" ∧
  order_str 13 = lit "13th" ∧ order_str 21 = lit "21st" ∧ order_str 112 = lit "112th" ∧
  order_str 1023 = lit "1023rd".
Proof. repeat split; reflexivity. Qed.

(** ** get_doctype and select *)

Lemma DOCTYPES_lookup (dt ty : str) :
  DOCTYPES !! dt = Some ty ↔
  (dt = lit "article" ∧ ty = lit "JOUR") ∨
  (dt = lit "conference paper" ∧ ty = lit "CONF").
Proof.
  unfold DOCTYPES. rewrite lookup_insert_Some, lookup_singleton_Some. split.
  - intros [[<- <-]|[_ [<- <-]]]; auto.
  - intros [[-> ->]|[-> ->]]; [by left|]. right. by split.
Qed.

(** X2: [get_doctype] knows two labels, 'article' and 'conference paper',
    which it maps to 'JOUR' and 'CONF'; on every other label it raises a
    [RuntimeError] whose message ends with the label. *)
Theorem get_doctype_spec (dt : str) :
  (dt = lit "article" ∧ get_doctype dt = Ok (lit "JOUR")) ∨
  (dt = lit "conference paper" ∧ get_doctype dt = Ok (lit "CONF")) ∨
  (dt ≠ lit "article" ∧ dt ≠ lit "conference paper" ∧
   get_doctype dt = Raise (RuntimeError (lit "Unexpected document type: " ++ dt))).
Proof.
  unfold get_doctype. destruct (DOCTYPES !! dt) as [ty|] eqn:E.
  - apply DOCTYPES_lookup in E as [[-> ->]|[-> ->]]; auto.
  - right; right. repeat split; [intros ->; by vm_compute in E..].
Qed.

(** No alias is itself aliased: resolving twice is resolving once. *)
Lemma resolve_alias_idemp (n : str) :
  resolve_alias (resolve_alias n) = resolve_alias n.
Proof.
  unfold resolve_alias at 2 3. destruct (ALIASES !! n) as [a|] eqn:E; cbn.
  - by apply ALIASES_lookup in E as [[-> ->]|[-> ->]].
  - unfold resolve_alias. by rewrite E.
Qed.

Lemma candidates_Permutation (authors authors' : list author) :
  authors ≡ₚ authors' → candidates authors ≡ₚ candidates authors'.
Proof. intros Hp. unfold candidates. by rewrite Hp. Qed.

(** X3: the order in which a record lists its authors does not matter to
    [select]: on a rearranged author list it returns the same result. *)
Theorem select_Permutation (authors authors' : list author) (name : str)
    (keep : bool) :
  authors ≡ₚ authors' →
  select authors name keep = select authors' name keep.
Proof.
  intros Hp. apply candidates_Permutation in Hp.
  destruct (decide (target_present authors name)) as [Hin|Hout].
  - assert (target_present authors' name) as Hin'.
    { destruct Hin as [?|(a & ? & ?)]; [left|right; exists a]; by rewrite <- Hp. }
    rewrite !select_present by done. f_equal.
    apply sorted_unique; [apply sorted_spec|].
    by rewrite (proj2 (sorted_spec _)), Hp.
  - assert (¬ target_present authors' name) as Hout'.
    { intros [?|(a & ? & ?)]; apply Hout; [left|right; exists a]; by rewrite Hp. }
    by rewrite !select_absent.
Qed.

Lemma select_Permutation_witness :
  select Samples.listed (lit "Ehataht, Karl") false
  = select (rev Samples.listed) (lit "Ehataht, Karl") false.
Proof.
  apply (select_Permutation Samples.listed (rev Samples.listed)).
  vm_compute. apply Permutation_rev.
Defined.



(** ** Further properties of get_ris *)

Section more_get_ris.

(** The part of [ris_fields] behind the two DOI checks. *)
Lemma ris_fields_checked (e : json_entry) (excl : list str)
    (d0 : valued) (ds : list valued) :
  dois (metadata e) = Some (d0 :: ds) → value d0 ∉ excl →
  ris_fields e excl = ris_fields e [].
Proof.
  intros Hd Hex. unfold ris_fields. rewrite Hd, subscript_0, !io_bind_ok. cbv zeta.
  rewrite bool_decide_eq_false_2 by done.
  by rewrite bool_decide_eq_false_2 by apply not_elem_of_nil.
Qed.



End more_get_ris.

(** X5: a record that passes the DOI checks and has a publication year,
    but whose first document type is neither 'article' nor 'conference
    paper', makes [get_ris] raise the [RuntimeError] of [get_doctype],
    whoever its authors are; an empty 'document_type' list is an
    [IndexError]. *)
Theorem get_ris_unknown_doctype (e : json_entry) (name : str) (keep : bool)
    (excl : list str) (d0 : valued) (ds : list valued) :
  dois (metadata e) = Some (d0 :: ds) → value d0 ∉ excl →
  Exists (λ pubinfo, is_Some (year pubinfo)) (publication_info (metadata e)) →
  match document_type (metadata e) with
  | [] => get_ris e name keep excl = ([], Raise IndexError)
  | dt :: _ =>
      dt ≠ lit "article" → dt ≠ lit "conference paper" →
      get_ris e name keep excl
      = ([], Raise (RuntimeError (lit "Unexpected document type: " ++ dt)))
  end.
Proof.
  intros Hd Hex Hy. apply Exists_exists in Hy as (p & Hp & Hyp).
  destruct (list_find_elem_of (λ pubinfo, is_Some (year pubinfo)) _ p Hp Hyp)
    as [[i pi] Hf].
  unfold get_ris, ris_fields. rewrite Hd, subscript_0, io_bind_ok. cbv zeta.
  rewrite bool_decide_eq_false_2, Hf by done.
  destruct (document_type (metadata e)) as [|dt dts]; [done|].
  intros H1 H2. rewrite subscript_0. cbn [mbind result_bind].
  unfold get_doctype. destruct (DOCTYPES !! dt) as [ty|] eqn:E; [|done].
  by apply DOCTYPES_lookup in E as [[-> _]|[-> _]].
Qed.

Lemma get_ris_unknown_doctype_witness :
  get_ris {| entry_id := lit "1";
             metadata := {| dois := Some [ {| value := lit "10.1000/x" |} ];
                            publication_info := [Samples.jhep];
                            document_type := [lit "thesis"];
                            titles := [];
                            documents := None; urls := None;
                            authors := [];
                            collaborations := None |} |}
          Samples.target false []
  = ([], Raise (RuntimeError (lit "Unexpected document type: thesis"))).
Proof.
  refine (get_ris_unknown_doctype
            {| entry_id := lit "1";
               metadata := {| dois := Some [ {| value := lit "10.1000/x" |} ];
                              publication_info := [Samples.jhep];
                              document_type := [lit "thesis"];
                              titles := [];
                              documents := None; urls := None;
                              authors := [];
                              collaborations := None |} |}
            Samples.target false [] {| value := lit "10.1000/x" |} [] _ _ _ _ _).
  - reflexivity.
  - apply not_elem_of_nil.
  - apply Exists_cons_hd. by eexists.
  - discriminate.
  - discriminate.
Defined.





(** X8: an exclusion list that does not hold the primary DOI of a record
    has no influence on what [get_ris] does with the record, whatever
    else it holds, the record's further DOIs included. *)
Theorem get_ris_exclusion_irrelevant (e : json_entry) (name : str) (keep : bool)
    (excl : list str) :
  (∀ d0 ds, dois (metadata e) = Some (d0 :: ds) → value d0 ∉ excl) →
  get_ris e name keep excl = get_ris e name keep [].
Proof.
  intros Hex. unfold get_ris.
  destruct (dois (metadata e)) as [[|d0 ds]|] eqn:Hd.
  - unfold ris_fields. by rewrite Hd.
  - by rewrite (ris_fields_checked e excl d0 ds Hd (Hex d0 ds eq_refl)).
  - unfold ris_fields. by rewrite Hd.
Qed.

Lemma get_ris_exclusion_irrelevant_witness :
  get_ris {| entry_id := lit "1";
             metadata := {| dois := Some [ {| value := lit "10.1000/first" |};
                                           {| value := lit "10.1000/second" |} ];
                            publication_info := [Samples.jhep];
                            document_type := [lit "article"];
                            titles := [ {| title := lit "T" |} ];
                            documents := None; urls := None;
                            authors := [Samples.member "Ehataht, Karl" "NICPB, Tallinn"];
                            collaborations := None |} |}
          Samples.target false [lit "10.1000/second"]
  = get_ris {| entry_id := lit "1";
               metadata := {| dois := Some [ {| value := lit "10.1000/first" |};
                                             {| value := lit "10.1000/second" |} ];
                              publication_info := [Samples.jhep];
                              document_type := [lit "article"];
                              titles := [ {| title := lit "T" |} ];
                              documents := None; urls := None;
                              authors := [Samples.member "Ehataht, Karl" "NICPB, Tallinn"];
                              collaborations := None |} |}
            Samples.target false [].
Proof.
  apply (get_ris_exclusion_irrelevant _ Samples.target false [lit "10.1000/second"]).
  intros d0 ds [= <- <-]. compute_done.
Defined.

(** X9: the order in which a record lists its collaborations does not
    matter to the credit: two records whose 'collaborations' are
    rearrangements of each other get the same credited author list. *)
Theorem credit_collaborations_Permutation (md md' : json_metadata)
    (cs cs' : list valued) (n : nat) (sel : list str) :
  collaborations md = Some cs → collaborations md' = Some cs' → cs ≡ₚ cs' →
  credit_collaborations md n sel = credit_collaborations md' n sel.
Proof.
  intros Hc Hc' Hp. unfold credit_collaborations. rewrite Hc, Hc'.
  assert (sorted (value <$> cs) = sorted (value <$> cs')) as ->; [|done].
  apply sorted_unique; [apply sorted_spec|].
  by rewrite (proj2 (sorted_spec _)), Hp.
Qed.

Lemma credit_collaborations_Permutation_witness :
  credit_collaborations
    (metadata (Samples.paper 11 true [Samples.jhep]
                 (Some [Samples.collab "CMS"; Samples.collab "ATLAS"])))
    12 [lit "A"]
  = credit_collaborations
      (metadata (Samples.paper 11 true [Samples.jhep]
                   (Some [Samples.collab "ATLAS"; Samples.collab "CMS"])))
      12 [lit "A"].
Proof.
  apply (credit_collaborations_Permutation _ _
           [Samples.collab "CMS"; Samples.collab "ATLAS"]
           [Samples.collab "ATLAS"; Samples.collab "CMS"]);
    [reflexivity | reflexivity | apply perm_swap].
Defined.

(** X10: with [keep_affiliation] set, a record that reaches author
    selection and does not list the target (or its alias) with the home
    affiliation makes [get_ris] end in the [NameError] of [select]: the
    record is neither exported nor dropped. *)
Theorem get_ris_keep_affiliation_raises (e : json_entry) (name : str)
    (excl : list str) (v : field_values) :
  reads e v → f_doi v ∉ excl →
  ¬ target_present (authors (metadata e)) name →
  get_ris e name true excl = ([], Raise (NameError "author")).
Proof.
  intros Hr Hex Hp.
  rewrite (get_ris_reads e name true excl v) by done.
  by rewrite select_absent.
Qed.

Lemma get_ris_keep_affiliation_raises_witness :
  get_ris (Samples.paper 2 false [Samples.preprint; Samples.jhep] None)
          Samples.target true [lit "10.1000/other"]
  = ([], Raise (NameError "author")).
Proof.
  apply (get_ris_keep_affiliation_raises
           (Samples.paper 2 false [Samples.preprint; Samples.jhep] None)
           Samples.target [lit "10.1000/other"] Samples.jhep_values).
  - apply reads_paper.
  - apply doi_not_excluded.
  - apply (bool_decide_eq_false_1 (target_present _ _)). reflexivity.
Defined.

(** X11: [get_ris] calls [print] for nothing but the record without a
    publication year, and only when it raises for it: a call whose trace
    is not empty has dumped the record's metadata once, by the [print]
    of line 131, and ended in that [RuntimeError].  The debug lines of
    the logging module are no events of the trace and are not meant. *)
Theorem get_ris_prints_only_no_year (e : json_entry) (name : str) (keep : bool)
    (excl : list str) :
  (get_ris e name keep excl).1 ≠ [] →
  get_ris e name keep excl
  = ([Print_json (metadata e)],
     Raise (RuntimeError (lit "No publication year found in the above entry"))).
Proof.
  unfold get_ris. destruct (ris_fields e excl) as [tr0 [[ris|]|err]] eqn:Hf.
  - apply ris_fields_inv in Hf as (-> & _). rewrite io_pair_bind.
    destruct (select _ _ _) as [sel|]; [|done]. rewrite io_bind_ok.
    case_bool_decide; [done|]. by destruct (credit_collaborations _ _ _).
  - apply ris_fields_ok_silent in Hf as Htr. by subst tr0.
  - revert Hf. unfold ris_fields.
    destruct (dois (metadata e)) as [[|d0 ds]|]; [by intros [= <- <-]|..|done].
    rewrite subscript_0, io_bind_ok. cbv zeta. case_bool_decide; [done|].
    destruct (list_find _ _) as [[i pi]|]; [|by intros [= <- <-]].
    unfold lift. by intros [= <- _].
Qed.

Lemma get_ris_prints_only_no_year_witness :
  get_ris (Samples.paper 2 true [Samples.preprint] None) Samples.target false []
  = ([Print_json (metadata (Samples.paper 2 true [Samples.preprint] None))],
     Raise (RuntimeError (lit "No publication year found in the above entry"))).
Proof.
  apply (get_ris_prints_only_no_year
           (Samples.paper 2 true [Samples.preprint] None) Samples.target false []).
  discriminate.
Defined.

(** ** Further properties of exclude_dois_from *)

Section loader.

Lemma rstrip_app_nonempty (p d : str) :
  d ≠ [] → rstrip d = d → rstrip (p ++ d) = p ++ d.
Proof.
  intros Hd Hr. apply rstrip_fixed in Hr. apply rstrip_fixed.
  rewrite rev_app_distr, lstrip_app, Hr.
  destruct (rev d) eqn:E; [|done].
  apply (f_equal (@rev N)) in E. rewrite rev_involutive in E. done.
Qed.

Lemma rstrip_cons (c : N) (s : str) :
  is_space c = false → rstrip (c :: s) = c :: rstrip s.
Proof.
  intros Hc. unfold rstrip. cbn [rev]. rewrite lstrip_app.
  destruct (lstrip (rev s)) as [|x r] eqn:E.
  - cbn [lstrip]. by rewrite Hc.
  - by rewrite rev_app_distr.
Qed.

(** A line whose first two characters are not white space and not 'DO'
    is passed over. *)
Lemma doi_of_line_other_tag (fn : str) (c1 c2 : N) (rest : str) :
  is_space c1 = false → is_space c2 = false →
  (c1 =? 68) && (c2 =? 79) = false →
  doi_of_line fn (c1 :: c2 :: rest) = Ok None.
Proof.
  intros H1 H2 Htag. unfold doi_of_line, strip.
  rewrite lstrip_non_space, !rstrip_cons by done.
  unlit. cbn [startswith]. rewrite (N.eqb_sym 68), (N.eqb_sym 79).
  destruct (c1 =? 68); [|done]. cbn in Htag. by rewrite Htag.
Qed.

Lemma doi_of_line_Raise (fn line : str) (e : exn) :
  doi_of_line fn line = Raise e ↔
  malformed line ∧ e = RuntimeError (lit "Not a RIS file: " ++ fn).
Proof.
  unfold doi_of_line, malformed.
  destruct (startswith (strip line) (lit "DO ")); [|by split; [|intros [[? _] _]]].
  case_bool_decide as Hl.
  - split; [by intros [= <-]|by intros [_ ->]].
  - split; [|by intros [[_ ?] _]].
    destruct (split (lit " - ") (strip line)) as [|a [|b [|c l]]]; done.
Qed.

Lemma line_doi_Ok (fn line : str) :
  ¬ malformed line → doi_of_line fn line = Ok (line_doi fn line).
Proof.
  intros Hm. unfold line_doi. destruct (doi_of_line fn line) as [[d|]|e] eqn:E; [done..|].
  apply doi_of_line_Raise in E as [? _]. done.
Qed.

Lemma collect_dois_app (fn : str) (l1 l2 acc : list str) :
  collect_dois fn (l1 ++ l2) acc = collect_dois fn l1 acc ≫= collect_dois fn l2.
Proof.
  revert acc. induction l1 as [|l l1 IH]; intros acc; [done|].
  cbn [app collect_dois]. destruct (doi_of_line fn l) as [d|]; [|done].
  cbn [mbind result_bind]. apply IH.
Qed.

Lemma collect_dois_ignored (fn : str) (ls acc : list str) :
  Forall (λ l, doi_of_line fn l = Ok None) ls → collect_dois fn ls acc = Ok acc.
Proof.
  induction 1 as [|l ls Hl _ IH]; [done|]. cbn [collect_dois]. by rewrite Hl.
Qed.

(** The 'DO' line that [get_ris] writes is read back as the DOI. *)
Lemma doi_of_line_do_line (fn d : str) :
  rstrip d = d →
  contains (lit " - ") d = false →
  contains (lit "https") d = false →
  contains (lit "http://dx.doi.org/") d = false →
  doi_of_line fn (do_line d) = Ok (Some d).
Proof.
  intros Hr Hsep Hs Hurl.
  pose proof (split_from_absent _ d Hsep) as Esep.
  pose proof (replace_from_absent _ (lit "http") d Hs) as Es.
  pose proof (replace_from_absent _ [] d Hurl) as Eu.
  unfold doi_of_line. rewrite do_line_eq, (strip_app _ d) by done.
  assert (split (lit " - ") (lit "DO  - https://dx.doi.org/" ++ d)
          = [lit "DO "; lit "https://dx.doi.org/" ++ d]) as ->.
  { unfold split. revert Esep. unlit. intros Esep.
    cbn [split_from startswith N.eqb Pos.eqb andb length pred app]. by rewrite Esep. }
  replace (startswith _ _) with true by (by unlit).
  rewrite bool_decide_eq_false_2 by (cbn; lia).
  change (subscript _ 1) with (Ok (lit "https://dx.doi.org/" ++ d) : result str).
  cbn [mbind result_bind]. rewrite (strip_app _ d) by done.
  assert (replace (lit "https") (lit "http") (lit "https://dx.doi.org/" ++ d)
          = lit "http://dx.doi.org/" ++ d) as ->.
  { unfold replace. revert Es. unlit. intros Es.
    cbn [replace_from startswith N.eqb Pos.eqb andb length pred app]. by rewrite Es. }
  unfold replace. revert Eu. unlit. intros Eu.
  cbn [replace_from startswith N.eqb Pos.eqb andb length pred app]. by rewrite Eu.
Qed.

Lemma collect_dois_malformed (fn : str) (lines acc : list str) :
  Exists malformed lines →
  collect_dois fn lines acc = Raise (RuntimeError (lit "Not a RIS file: " ++ fn)).
Proof.
  intros Hex. revert acc.
  induction lines as [|l lines IH]; intros acc; [by apply Exists_nil in Hex|].
  cbn [collect_dois]. destruct (doi_of_line fn l) as [d|e] eqn:E.
  - cbn [mbind result_bind]. apply IH. apply Exists_cons in Hex as [Hm|?]; [|done].
    assert (doi_of_line fn l = Raise (RuntimeError (lit "Not a RIS file: " ++ fn))) as E'
      by (by apply doi_of_line_Raise).
    congruence.
  - by apply doi_of_line_Raise in E as [_ ->].
Qed.

(** The line break at the end of a line does not matter to the loader. *)
Lemma rstrip_snoc_space (s : str) (c : N) :
  is_space c = true → rstrip (s ++ [c]) = rstrip s.
Proof.
  intros Hc. unfold rstrip. rewrite rev_app_distr. cbn [rev app lstrip].
  by rewrite Hc.
Qed.

Lemma strip_newline (line : str) : strip (line ++ [10]) = strip line.
Proof.
  unfold strip. rewrite lstrip_app. destruct (lstrip line) as [|x r]; [done|].
  by apply rstrip_snoc_space.
Qed.

Lemma doi_of_line_newline (fn line : str) :
  doi_of_line fn (line ++ [10]) = doi_of_line fn line.
Proof. unfold doi_of_line. by rewrite strip_newline. Qed.

(** Reading a text that holds no line break, and a text up to its first
    line break. *)
Lemma readlines_from_unbroken (cur line : str) :
  unbroken line →
  readlines_from cur line = if bool_decide (cur ++ line = []) then [] else [cur ++ line].
Proof.
  revert cur. induction line as [|c line IH]; intros cur [H10 H13].
  - cbn [readlines_from]. by rewrite app_nil_r.
  - apply not_elem_of_cons in H10 as [? ?], H13 as [? ?].
    cbn [readlines_from].
    destruct (N.eqb_spec c 10); [done|]. destruct (N.eqb_spec c 13); [done|].
    rewrite IH by done. rewrite <- (assoc_L (++)). cbn [app].
    by rewrite !bool_decide_eq_false_2 by (by destruct cur).
Qed.

Lemma readlines_from_line (cur line rest : str) :
  unbroken line →
  readlines_from cur (line ++ 10 :: rest)
  = (cur ++ line ++ [10]) :: readlines_from [] rest.
Proof.
  revert cur. induction line as [|c line IH]; intros cur [H10 H13].
  - done.
  - apply not_elem_of_cons in H10 as [? ?], H13 as [? ?].
    cbn [app readlines_from].
    destruct (N.eqb_spec c 10); [done|]. destruct (N.eqb_spec c 13); [done|].
    rewrite IH by done. by rewrite <- (assoc_L (++)).
Qed.

(** The loader makes of a text whose lines are [lines], joined by line
    breaks, what it makes of the lines. *)
Lemma collect_dois_readlines (fn : str) (lines acc : list str) :
  Forall unbroken lines →
  collect_dois fn (readlines (join [10] lines)) acc = collect_dois fn lines acc.
Proof.
  intros Hl. revert acc. induction Hl as [|l lines Hu Hl IH]; intros acc; [done|].
  destruct lines as [|l2 lines].
  - cbn [join]. unfold readlines. rewrite readlines_from_unbroken by done.
    cbn [app]. case_bool_decide as E; [by subst|done].
  - change (join [10] (l :: l2 :: lines)) with (l ++ 10 :: join [10] (l2 :: lines)).
    unfold readlines. rewrite readlines_from_line by done.
    cbn [app collect_dois]. rewrite doi_of_line_newline.
    destruct (doi_of_line fn l) as [d|]; [|done]. cbn [mbind result_bind].
    apply IH.
Qed.

End loader.

(** X12: the loader treats the resolver forms and the bare form alike:
    for a DOI that does not end in white space and contains none of
    ' - ', 'https' and 'http://dx.doi.org/', the 'DO' line with the
    'http://dx.doi.org/' prefix gives the DOI, and so does the line with
    the DOI alone, when the DOI is not empty and does not begin with
    white space. *)
Theorem doi_line_protocols (fn d : str) :
  rstrip d = d →
  contains (lit " - ") d = false →
  contains (lit "https") d = false →
  contains (lit "http://dx.doi.org/") d = false →
  doi_of_line fn (lit "DO  - http://dx.doi.org/" ++ d) = Ok (Some d) ∧
  (d ≠ [] → lstrip d = d → doi_of_line fn (lit "DO  - " ++ d) = Ok (Some d)).
Proof.
  intros Hr Hsep Hs Hurl.
  pose proof (split_from_absent _ d Hsep) as Esep.
  pose proof (replace_from_absent _ (lit "http") d Hs) as Es.
  pose proof (replace_from_absent _ [] d Hurl) as Eu.
  split.
  - unfold doi_of_line. rewrite (strip_app _ d) by done.
    assert (split (lit " - ") (lit "DO  - http://dx.doi.org/" ++ d)
            = [lit "DO "; lit "http://dx.doi.org/" ++ d]) as ->.
    { unfold split. revert Esep. unlit. intros Esep.
      cbn [split_from startswith N.eqb Pos.eqb andb length pred app]. by rewrite Esep. }
    replace (startswith _ _) with true by (by unlit).
    rewrite bool_decide_eq_false_2 by (cbn; lia).
    change (subscript _ 1) with (Ok (lit "http://dx.doi.org/" ++ d) : result str).
    cbn [mbind result_bind]. rewrite (strip_app _ d) by done.
    assert (replace (lit "https") (lit "http") (lit "http://dx.doi.org/" ++ d)
            = lit "http://dx.doi.org/" ++ d) as ->.
    { unfold replace. revert Es. unlit. intros Es.
      cbn [replace_from startswith N.eqb Pos.eqb andb length pred app]. by rewrite Es. }
    unfold replace. revert Eu. unlit. intros Eu.
    cbn [replace_from startswith N.eqb Pos.eqb andb length pred app]. by rewrite Eu.
  - intros Hne Hl. unfold doi_of_line.
    assert (strip (lit "DO  - " ++ d) = lit "DO  - " ++ d) as ->.
    { unfold strip. change (lstrip (lit "DO  - " ++ d)) with (lit "DO  - " ++ d).
      by apply rstrip_app_nonempty. }
    assert (split (lit " - ") (lit "DO  - " ++ d) = [lit "DO "; d]) as ->.
    { unfold split. revert Esep. unlit. intros Esep.
      cbn [split_from startswith N.eqb Pos.eqb andb length pred app]. by rewrite Esep. }
    replace (startswith _ _) with true by (by unlit).
    rewrite bool_decide_eq_false_2 by (cbn; lia).
    change (subscript _ 1) with (Ok d : result str). cbn [mbind result_bind].
    assert (strip d = d) as -> by (unfold strip; by rewrite Hl).
    unfold replace. by rewrite Es, Eu.
Qed.

Lemma doi_line_protocols_witness :
  doi_of_line (lit "etis.ris") (lit "DO  - http://dx.doi.org/10.1007/JHEP07(2021)027")
  = Ok (Some (lit "10.1007/JHEP07(2021)027")).
Proof.
  refine (proj1 (doi_line_protocols (lit "etis.ris") (lit "10.1007/JHEP07(2021)027")
                   _ _ _ _)); reflexivity.
Defined.

(** X13: when no line is malformed, the loader returns the DOIs of the
    'DO' lines in the order of the file, one entry per such line
    (repeated DOIs are kept), after the entries it started from; all
    other lines are passed over. *)
Theorem collect_dois_in_order (fn : str) (lines acc : list str) :
  Forall (λ line, ¬ malformed line) lines →
  collect_dois fn lines acc = Ok (acc ++ omap (line_doi fn) lines).
Proof.
  intros Hl. revert acc. induction Hl as [|l lines Hm _ IH]; intros acc.
  - by rewrite app_nil_r.
  - cbn [collect_dois omap list_omap]. rewrite (line_doi_Ok fn l Hm).
    cbn [mbind result_bind]. rewrite IH.
    destruct (line_doi fn l); [|done]. by rewrite <- (assoc_L (++)).
Qed.

Lemma collect_dois_in_order_witness :
  collect_dois (lit "etis.ris")
    [ lit "TY  - JOUR"; lit "DO  - https://dx.doi.org/10.1000/b"; [];
      lit "TY  - JOUR"; lit "DO  - 10.1000/a"; lit "DO  - http://dx.doi.org/10.1000/b" ]
    []
  = Ok [lit "10.1000/b"; lit "10.1000/a"; lit "10.1000/b"].
Proof.
  refine (collect_dois_in_order (lit "etis.ris") _ [] _).
  repeat constructor; intros [H1 H2]; vm_compute in H1, H2;
    first [discriminate H1 | by apply H2].
Defined.

(** X14: one malformed 'DO' line anywhere in the file makes the whole
    load fail with 'Not a RIS file'; no partial list is returned. *)
Theorem exclude_dois_from_malformed (fn : str) (lines : list str) :
  fn ≠ [] → Exists malformed lines →
  exclude_dois_from fn (Some lines)
  = Raise (RuntimeError (lit "Not a RIS file: " ++ fn)).
Proof.
  intros Hfn Hex. unfold exclude_dois_from. rewrite bool_decide_eq_false_2 by done.
  by apply collect_dois_malformed.
Qed.

Lemma exclude_dois_from_malformed_witness :
  exclude_dois_from (lit "etis.ris")
    (Some [lit "DO  - 10.1000/a"; lit "DO 10.1000/b"; lit "DO  - 10.1000/c"])
  = Raise (RuntimeError (lit "Not a RIS file: etis.ris")).
Proof.
  apply (exclude_dois_from_malformed (lit "etis.ris")); [discriminate|].
  apply Exists_cons_tl, Exists_cons_hd. split; [reflexivity|]. vm_compute. lia.
Defined.

(** The three kinds of line break end a line, and each is read as '\n'. *)
Example readlines_line_breaks :
  readlines (lit "a" ++ [13] ++ lit "b" ++ [13; 10] ++ lit "c" ++ [10; 10] ++ lit "d")
  = [lit "a" ++ [10]; lit "b" ++ [10]; lit "c" ++ [10]; [10]; lit "d"] ∧
  readlines (lit "a" ++ [10]) = [lit "a" ++ [10]] ∧
  readlines [] = [].
Proof. repeat split; reflexivity. Qed.

(** X15: an exported block excludes its record.  Take a block that
    [get_ris] returns, joined by line breaks as the main program joins
    it, as the decoded text of an exclusion file.  When no line of the
    block holds a line break of its own, and the DOI does not end in
    white space and contains none of ' - ', 'https' and
    'http://dx.doi.org/', the loader reads from that text exactly the
    primary DOI of the record, and with that list [get_ris] drops the
    record. *)
Theorem get_ris_block_excludes (e : json_entry) (name : str) (keep : bool)
    (excl : list str) (tr : list event) (lines : list str) (fn : str)
    (d0 : valued) (ds : list valued) :
  get_ris e name keep excl = (tr, Ok lines) → lines ≠ [] →
  Forall unbroken lines →
  dois (metadata e) = Some (d0 :: ds) →
  rstrip (value d0) = value d0 →
  contains (lit " - ") (value d0) = false →
  contains (lit "https") (value d0) = false →
  contains (lit "http://dx.doi.org/") (value d0) = false →
  fn ≠ [] →
  exclude_dois_from fn (Some (readlines (join [10] lines))) = Ok [value d0] ∧
  get_ris e name keep [value d0] = ([], Ok []).
Proof.
  intros Hg Hne Hlines Hd Hr Hsep Hs Hurl Hfn.
  unfold exclude_dois_from. rewrite bool_decide_eq_false_2 by done.
  rewrite collect_dois_readlines by done. clear Hlines.
  destruct (get_ris_output_inv _ _ _ _ _ _ Hg Hne)
    as (v & sel & au & Hreads & _ & _ & _ & _ & _ & ->).
  assert (f_doi v = value d0) as Hv.
  { destruct Hreads as (d0' & ds' & _ & _ & _ & _ & _ & _ & Hd' & Hv & _).
    rewrite Hd in Hd'. by injection Hd' as <- _. }
  split; [|eapply get_ris_excluded; [done|apply list_elem_of_here]].
  assert (∀ (tag : string) (x : str) c1 c2 t,
            lit tag = c1 :: c2 :: t → is_space c1 = false → is_space c2 = false →
            (c1 =? 68) && (c2 =? 79) = false →
            doi_of_line fn (lit tag ++ x) = Ok None) as Hother.
  { intros tag x c1 c2 t -> ???. by apply doi_of_line_other_tag. }
  assert (Forall (λ l, doi_of_line fn l = Ok None)
            (optional_line "SP  - " (f_sp v) ++ optional_line "EP  - " (f_ep v)
             ++ optional_line "AV  - " (f_av v)
             ++ ((λ a, lit "AU  - " ++ a) <$> au))) as Htail.
  { rewrite !Forall_app. repeat split.
    - destruct (f_sp v); repeat constructor. eapply Hother; reflexivity.
    - destruct (f_ep v); repeat constructor. eapply Hother; reflexivity.
    - destruct (f_av v); repeat constructor. eapply Hother; reflexivity.
    - apply Forall_fmap, Forall_forall. intros a _. eapply Hother; reflexivity. }
  pose proof (doi_of_line_do_line fn (value d0) Hr Hsep Hs Hurl) as Hline.
  rewrite do_line_eq, <- Hv in Hline.
  change (block e v au)
    with ([ lit "TY  - " ++ f_ty v; lit "PY  - " ++ of_Z (f_py v);
            lit "JO  - " ++ f_jo v; lit "VL  - " ++ f_vl v; lit "T1  - " ++ f_t1 v ]
          ++ [lit "DO  - https://dx.doi.org/" ++ f_doi v]
          ++ ([ lit "DB  - WoS"; lit "DP  - WoS"; lit "LA  - English";
                lit "UR  - https://inspirehep.net/record/" ++ entry_id e ]
              ++ optional_line "SP  - " (f_sp v) ++ optional_line "EP  - " (f_ep v)
              ++ optional_line "AV  - " (f_av v)
              ++ ((λ a, lit "AU  - " ++ a) <$> au))).
  rewrite collect_dois_app.
  rewrite collect_dois_ignored
    by (repeat constructor; eapply Hother; reflexivity).
  cbn [mbind result_bind]. rewrite collect_dois_app. cbn [collect_dois].
  rewrite Hline. cbn [mbind result_bind app].
  rewrite collect_dois_ignored; [by rewrite Hv|].
  apply Forall_cons; split; [apply (doi_of_line_other_tag fn 68 66); reflexivity|].
  apply Forall_cons; split; [apply (doi_of_line_other_tag fn 68 80); reflexivity|].
  apply Forall_cons; split; [apply (doi_of_line_other_tag fn 76 65); reflexivity|].
  apply Forall_cons; split; [eapply Hother; reflexivity|]. exact Htail.
Qed.

Lemma get_ris_block_excludes_witness :
  exclude_dois_from (lit "publications.ris")
    (Some (readlines
             (join [10]
                (block (Samples.paper 2 true [Samples.jhep] None) Samples.jhep_values
                   [lit "Ehat" ++ [228] ++ lit "ht, Karl"]))))
  = Ok [lit "10.1007/JHEP07(2021)027"] ∧
  get_ris (Samples.paper 2 true [Samples.jhep] None) Samples.target false
          [lit "10.1007/JHEP07(2021)027"]
  = ([], Ok []).
Proof.
  apply (get_ris_block_excludes
           (Samples.paper 2 true [Samples.jhep] None) Samples.target false [] []
           (block (Samples.paper 2 true [Samples.jhep] None) Samples.jhep_values
              [lit "Ehat" ++ [228] ++ lit "ht, Karl"])
           (lit "publications.ris") {| value := lit "10.1007/JHEP07(2021)027" |} []);
    [reflexivity | discriminate | | reflexivity.. | discriminate].
  unfold unbroken. apply (bool_decide_unpack _). by vm_compute.
Defined.

(** A line break inside a field does matter: a title that continues on a
    second line with a 'DO' tag gives the loader a second DOI, which is
    not one of the record. *)
Example broken_title_adds_doi :
  let lines := [ lit "T1  - A title" ++ [10] ++ lit "DO  - 10.9999/other";
                 lit "DO  - https://dx.doi.org/10.1000/own" ] in
  exclude_dois_from (lit "f.ris") (Some lines) = Ok [lit "10.1000/own"] ∧
  exclude_dois_from (lit "f.ris") (Some (readlines (join [10] lines)))
  = Ok [lit "10.9999/other"; lit "10.1000/own"].
Proof. split; reflexivity. Qed.

(** X16: the 'DO' line that [get_ris] writes for a DOI is read back as
    that DOI exactly when the DOI does not end in white space and
    contains none of ' - ', 'https' and 'http://dx.doi.org/'. *)
Theorem doi_line_exact (fn d : str) :
  doi_of_line fn (do_line d) = Ok (Some d) ↔
  rstrip d = d ∧
  contains (lit " - ") d = false ∧
  contains (lit "https") d = false ∧
  contains (lit "http://dx.doi.org/") d = false.
Proof.
  split.
  - apply doi_line_round_trip_only_if.
  - intros (Hr & Hsep & Hs & Hurl). by apply doi_of_line_do_line.
Qed.

(** ** Further properties of the fetch loop *)

Section more_fetch.

Context (cfg : settings).

(** One step of the loop over the records of a page. *)
Lemma collect_ris_cons (e : json_entry) (rest : list json_entry) (acc : list str) :
  transforms cfg e →
  collect_ris cfg (e :: rest) acc
  = collect_ris cfg rest (acc ++ option_list (exported cfg e)).
Proof.
  intros [ris_lines H]. cbn [collect_ris]. unfold exported.
  rewrite H, io_pair_bind. case_bool_decide; [by rewrite app_nil_r|done].
Qed.

Lemma collect_ris_all (entries : list json_entry) (acc : list str) :
  Forall (transforms cfg) entries →
  collect_ris cfg entries acc = ([], Ok (acc ++ omap (exported cfg) entries)).
Proof.
  intros Hall. revert acc. induction Hall as [|e entries He _ IH]; intros acc.
  - by rewrite app_nil_r.
  - rewrite collect_ris_cons, IH by done. cbn [omap list_omap].
    destruct (exported cfg e); cbn [option_list]; by rewrite <- ?(assoc_L (++)), ?app_nil_r.
Qed.

(** The events of a transformer call are prints of a record. *)
Lemma get_ris_events (e : json_entry) (n : str) (keep : bool) (excl : list str) :
  Forall (λ ev, ∃ md, ev = Print_json md) (get_ris e n keep excl).1.
Proof.
  assert (Forall (λ ev, ∃ md, ev = Print_json md) (ris_fields e excl).1
          ∧ ∀ x, (ris_fields e excl).2 = Ok x → (ris_fields e excl).1 = []) as [Hf Hok].
  { unfold ris_fields.
    destruct (dois (metadata e)) as [[|d0 ds]|]; [by split..| |by split].
    rewrite subscript_0, io_bind_ok. cbv zeta.
    case_bool_decide; [by split|].
    destruct (list_find _ _) as [[i pi]|]; [by split|].
    split; [|done]. repeat constructor. by eexists. }
  unfold get_ris. destruct (ris_fields e excl) as [tr0 [[ris|]|err]] eqn:E;
    cbn [fst snd] in *.
  - rewrite (Hok _ eq_refl), io_pair_bind.
    destruct (select _ _ _) as [sel|]; [|by constructor].
    rewrite io_bind_ok. case_bool_decide; [by constructor|].
    by destruct (credit_collaborations _ _ _).
  - by rewrite (Hok _ eq_refl).
  - done.
Qed.

Lemma collect_ris_events (entries : list json_entry) (acc : list str) :
  Forall (λ ev, ∃ md, ev = Print_json md) (collect_ris cfg entries acc).1.
Proof.
  revert acc. induction entries as [|e entries IH]; intros acc; [by constructor|].
  cbn [collect_ris].
  pose proof (get_ris_events e (name cfg) (keep_affiliation cfg) (dois_to_exclude cfg)) as He.
  destruct (get_ris e _ _ _) as [tr0 [ris_lines|err]]; cbn [fst] in He; [|done].
  unfold mbind, io_bind. specialize
    (IH (if bool_decide (ris_lines = []) then acc else acc ++ [join [10] ris_lines])).
  destruct (collect_ris cfg entries _) as [tr1 r]. cbn [fst] in *.
  by apply Forall_app.
Qed.

Lemma handle_page_events (st : fetch_state) (p : json_payload) :
  Forall (λ ev, ∃ md, ev = Print_json md) (handle_page cfg st p).1.
Proof.
  unfold handle_page.
  assert (∀ (z : Z), Forall (λ ev, ∃ md, ev = Print_json md)
            ((mret z : io Z) ≫= λ nof_hits,
               collect_ris cfg (hits_hits p) (st_ris_data st) ≫= λ ris_data,
               mret {| st_url := default [] (links_next p); st_nof_hits := nof_hits;
                       st_page_nr := st_page_nr st + 1; st_ris_data := ris_data |}).1) as H.
  { intros z. rewrite io_ret_bind.
    pose proof (collect_ris_events (hits_hits p) (st_ris_data st)) as Hc.
    destruct (collect_ris cfg _ _) as [tr0 [d|err]]; cbn [fst] in *; [|done].
    unfold mbind, io_bind, mret, io_ret. by rewrite app_nil_r. }
  destruct (st_nof_hits st <? 0)%Z; [|apply H].
  destruct (true_divide _ _) as [[]|]; [|by constructor].
  unfold lift. rewrite io_pair_bind. apply H.
Qed.

(** The division of the page count goes through when the page size is
    not zero and the quotient stays below [float_limit]. *)
Lemma true_divide_Ok (a b : Z) :
  b ≠ 0%Z → (Z.abs a < float_limit * Z.abs b)%Z → true_divide a b = Ok ().
Proof.
  intros Hb Ha. unfold true_divide.
  destruct (Z.eqb_spec b 0); [done|].
  by destruct (Z.leb_spec (float_limit * Z.abs b) (Z.abs a)); [lia|].
Qed.

Lemma handle_page_ok (st : fetch_state) (p : json_payload) :
  query_size cfg ≠ 0%Z →
  (Z.abs (hits_total p) < float_limit * Z.abs (query_size cfg))%Z →
  Forall (transforms cfg) (hits_hits p) →
  ∃ st', handle_page cfg st p = ([], Ok st') ∧
         st_url st' = default [] (links_next p) ∧
         st_ris_data st' = st_ris_data st ++ omap (exported cfg) (hits_hits p).
Proof.
  intros Hq Hfin Hall. unfold handle_page.
  rewrite true_divide_Ok, collect_ris_all by done. unfold lift.
  destruct (st_nof_hits st <? 0)%Z; rewrite ?io_pair_bind, io_ret_bind, io_pair_bind;
    by eexists.
Qed.

Lemma handle_page_url (st st' : fetch_state) (p : json_payload) (tr : list event) :
  handle_page cfg st p = (tr, Ok st') → st_url st' = default [] (links_next p).
Proof.
  unfold handle_page.
  assert (∀ z : Z,
    (mret z : io Z) ≫= (λ nof_hits,
       collect_ris cfg (hits_hits p) (st_ris_data st) ≫= λ ris_data,
       mret {| st_url := default [] (links_next p); st_nof_hits := nof_hits;
               st_page_nr := st_page_nr st + 1; st_ris_data := ris_data |})
    = (tr, Ok st') → st_url st' = default [] (links_next p)) as H.
  { intros z. rewrite io_ret_bind.
    destruct (collect_ris cfg _ _) as [tr0 [d|err]]; [|done].
    unfold mbind, io_bind, mret, io_ret. by intros [= _ <-]. }
  destruct (st_nof_hits st <? 0)%Z; [|apply H].
  destruct (true_divide _ _) as [[]|]; [|done].
  unfold lift. rewrite io_pair_bind. apply H.
Qed.

Lemma fetch_loop_first_request (server : list response) (st : fetch_state) :
  st_url st ≠ [] →
  ∃ tr, (fetch_loop cfg server st).1 = Request (st_url st) :: tr.
Proof.
  intros Hu. destruct server as [|r server]; cbn [fetch_loop];
    rewrite bool_decide_eq_false_2 by done; [by eexists|].
  destruct (status_code r =? 429)%Z.
  - destruct (fetch_loop cfg server st). by eexists.
  - destruct (negb _); [by eexists|].
    destruct (handle_page cfg st (json r)) as [tr1 [st'|err]]; [|by eexists].
    destruct (fetch_loop cfg server st'). by eexists.
Qed.

(** The requests of a trace. *)
Lemma requested_app (tr1 tr2 : list event) :
  requested (tr1 ++ tr2) = requested tr1 ++ requested tr2.
Proof. apply omap_app. Qed.

Lemma requested_prints (tr : list event) :
  Forall (λ ev, ∃ md, ev = Print_json md) tr → requested tr = [].
Proof. induction 1 as [|ev tr [md ->] _ IH]; [done|]. apply IH. Qed.

Lemma fetch_loop_stop (server : list response) (st : fetch_state) :
  st_url st = [] → fetch_loop cfg server st = ([], Finished (st_ris_data st)).
Proof. intros Hu. destruct server; cbn [fetch_loop]; by rewrite bool_decide_eq_true_2. Qed.

(** The requests of a run that starts with a response [r]. *)
Lemma fetch_loop_requested_cons (r : response) (server : list response)
    (st : fetch_state) :
  st_url st ≠ [] →
  requested (fetch_loop cfg (r :: server) st).1
  = st_url st ::
    (if (status_code r =? 429)%Z then requested (fetch_loop cfg server st).1
     else if (status_code r =? 200)%Z then
       match handle_page cfg st (json r) with
       | (_, Ok st') => requested (fetch_loop cfg server st').1
       | (_, Raise _) => []
       end
     else []).
Proof.
  intros Hu. cbn [fetch_loop]. rewrite bool_decide_eq_false_2 by done.
  destruct (status_code r =? 429)%Z.
  { by destruct (fetch_loop cfg server st). }
  destruct (status_code r =? 200)%Z; cbn [negb]; [|done].
  pose proof (handle_page_events st (json r)) as Hev.
  destruct (handle_page cfg st (json r)) as [tr1 [st'|err]]; cbn [fst] in Hev.
  - destruct (fetch_loop cfg server st') as [tr out]. cbn [fst requested omap list_omap].
    fold (requested (tr1 ++ tr)). by rewrite requested_app, requested_prints.
  - cbn [fst requested omap list_omap]. fold (requested tr1).
    by rewrite requested_prints.
Qed.

(** The first request of a run, if it makes one, is for the URL of the
    state it starts in. *)
Lemma fetch_loop_requested_head (server : list response) (st : fetch_state) (u : str) :
  requested (fetch_loop cfg server st).1 !! 0%nat = Some u →
  u = st_url st ∧ st_url st ≠ [].
Proof.
  destruct (decide (st_url st = [])) as [Hu|Hu].
  - by rewrite fetch_loop_stop.
  - destruct (fetch_loop_first_request server st Hu) as [tr ->].
    by intros [= <-].
Qed.

End more_fetch.

(** X17: the records of a page are kept in the order of the page: when
    every record is transformed without an exception, the loop over a
    page returns the blocks collected so far followed by the block of
    each record that is not dropped, in the order of the page, so that
    at most one block is added per record. *)
Theorem collect_ris_in_order (cfg : settings) (entries : list json_entry)
    (acc : list str) :
  Forall (transforms cfg) entries →
  (collect_ris cfg entries acc).2 = Ok (acc ++ omap (exported cfg) entries) ∧
  (length (omap (exported cfg) entries) ≤ length entries)%nat.
Proof.
  intros Hall. split; [by rewrite collect_ris_all|].
  clear. induction entries as [|e entries IH]; [done|].
  cbn [omap list_omap]. destruct (exported cfg e); cbn [length]; lia.
Qed.

Lemma collect_ris_in_order_witness :
  (collect_ris Mock.cfg
     [ Samples.paper 2 false [Samples.jhep] None;
       Samples.paper 0 true [Samples.jhep] None ] [lit "earlier block"]).2
  = Ok ([lit "earlier block"]
        ++ omap (exported Mock.cfg)
             [ Samples.paper 2 false [Samples.jhep] None;
               Samples.paper 0 true [Samples.jhep] None ]).
Proof.
  refine (proj1 (collect_ris_in_order Mock.cfg _ [lit "earlier block"] _)).
  repeat constructor; eexists; reflexivity.
Defined.

(** X18: the first record of a page on which [get_ris] raises ends the
    loop over the page with that exception; the records after it are not
    transformed and the blocks collected so far are not returned. *)
Theorem collect_ris_first_failure (cfg : settings) (pre post : list json_entry)
    (bad : json_entry) (acc : list str) (tr : list event) (err : exn) :
  Forall (transforms cfg) pre →
  get_ris bad (name cfg) (keep_affiliation cfg) (dois_to_exclude cfg) = (tr, Raise err) →
  collect_ris cfg (pre ++ bad :: post) acc = (tr, Raise err).
Proof.
  intros Hpre Hbad. revert acc. induction Hpre as [|e pre He _ IH]; intros acc.
  - cbn [app collect_ris]. by rewrite Hbad.
  - cbn [app]. by rewrite collect_ris_cons.
Qed.

Lemma collect_ris_first_failure_witness :
  collect_ris Mock.cfg
    [ Samples.paper 0 true [Samples.jhep] None;
      Samples.paper 0 true [Samples.preprint] None;
      Samples.paper 0 true [Samples.jhep] None ] []
  = ([Print_json (metadata (Samples.paper 0 true [Samples.preprint] None))],
     Raise (RuntimeError (lit "No publication year found in the above entry"))).
Proof.
  apply (collect_ris_first_failure Mock.cfg
           [Samples.paper 0 true [Samples.jhep] None]
           [Samples.paper 0 true [Samples.jhep] None]
           (Samples.paper 0 true [Samples.preprint] None) []).
  - repeat constructor. eexists. reflexivity.
  - reflexivity.
Defined.

(** The run of the loop over a sequence of pages. *)
Lemma fetch_loop_through_pages (cfg : settings) (pages : list response) (last : response)
    (rest : list response) (st : fetch_state) :
  st_url st ≠ [] → query_size cfg ≠ 0%Z →
  Forall (λ r, (Z.abs (hits_total (json r)) < float_limit * Z.abs (query_size cfg))%Z)
         (pages ++ [last]) →
  Forall (page_ok cfg) (pages ++ [last]) →
  Forall (λ r, ∃ u, links_next (json r) = Some u ∧ u ≠ []) pages →
  default [] (links_next (json last)) = [] →
  fetch_loop cfg (pages ++ last :: rest) st
  = (Request <$> (st_url st :: omap (λ r, links_next (json r)) pages),
     Finished (st_ris_data st ++ blocks_of cfg (pages ++ [last]))).
Proof.
  intros Hu Hq Hfin Hok Hnext Hlast. revert st Hu.
  induction pages as [|p pages IH]; intros st Hu.
  - apply Forall_singleton in Hok as [H200 Hall]. apply Forall_inv in Hfin.
    destruct (handle_page_ok cfg st (json last) Hq Hfin Hall) as (st' & Hp & Hurl & Hdata).
    cbn [app]. rewrite (fetch_loop_200 cfg st st' last rest []) by done.
    rewrite Hlast in Hurl. rewrite (fetch_loop_stop cfg rest st') by done.
    cbn [fst snd app omap list_omap fmap list_fmap]. rewrite Hdata.
    unfold blocks_of. cbn. by rewrite app_nil_r.
  - cbn [app] in *. apply Forall_cons in Hok as [[H200 Hall] Hok].
    apply Forall_cons in Hfin as [Hfin0 Hfin].
    apply Forall_cons in Hnext as [(u & Hpu & Hune) Hnext].
    destruct (handle_page_ok cfg st (json p) Hq Hfin0 Hall) as (st' & Hp & Hurl & Hdata).
    rewrite (fetch_loop_200 cfg st st' p _ []) by done.
    rewrite Hpu in Hurl. cbn [default from_option] in Hurl.
    rewrite (IH Hfin Hok Hnext st') by (by rewrite Hurl).
    cbn [fst snd app omap list_omap fmap list_fmap]. rewrite Hpu, Hurl, Hdata.
    unfold blocks_of. rewrite bind_cons. by rewrite <- (assoc_L (++)).
Qed.

(** X19: pagination.  When the server answers with pages that the loop
    gets through (status 200, every record transformed without an
    exception, a page size that is not zero and a number of hits whose
    quotient by the page size a float can hold), each page but the last
    with a non-empty 'next' link and the last without one (or with an
    empty one), the loop requests the start URL and then each 'next'
    link once, in order, ends regularly, and holds the blocks of all
    pages in the order of delivery; responses that the server would have
    after the last page are not asked for, so one request is made per
    page. *)
Theorem fetch_loop_pages (cfg : settings) (pages : list response) (last : response)
    (rest : list response) (st : fetch_state) :
  st_url st ≠ [] → query_size cfg ≠ 0%Z →
  Forall (λ r, (Z.abs (hits_total (json r))
                < (2 ^ 1024 - 2 ^ 970) * Z.abs (query_size cfg))%Z)
         (pages ++ [last]) →
  Forall (page_ok cfg) (pages ++ [last]) →
  Forall (λ r, ∃ u, links_next (json r) = Some u ∧ u ≠ []) pages →
  default [] (links_next (json last)) = [] →
  fetch_loop cfg (pages ++ last :: rest) st
  = (Request <$> (st_url st :: omap (λ r, links_next (json r)) pages),
     Finished (st_ris_data st ++ blocks_of cfg (pages ++ [last]))) ∧
  length (fetch_loop cfg (pages ++ last :: rest) st).1 = S (length pages).
Proof.
  intros Hu Hq Hfin Hok Hnext Hlast.
  rewrite (fetch_loop_through_pages cfg pages last rest st Hu Hq Hfin Hok Hnext Hlast).
  split; [done|]. cbn [fst]. rewrite length_fmap. cbn [length]. f_equal.
  clear -Hnext. induction Hnext as [|r pages (u & Hr & _) _ IH]; [done|].
  cbn [omap list_omap]. rewrite Hr. cbn [length]. by rewrite IH.
Qed.

Lemma fetch_loop_pages_witness :
  fetch_loop Mock.cfg [Pages.first; Pages.second; Mock.busy] (initial_state Mock.start)
  = ([Request Mock.start; Request Pages.second_url],
     Finished ([] ++ blocks_of Mock.cfg [Pages.first; Pages.second])).
Proof.
  refine (proj1 (fetch_loop_pages Mock.cfg [Pages.first] Pages.second [Mock.busy]
                   (initial_state Mock.start) _ _ _ _ _ _)).
  - discriminate.
  - discriminate.
  - repeat constructor.
  - repeat constructor; eexists; reflexivity.
  - repeat constructor. eexists. split; [reflexivity|discriminate].
  - reflexivity.
Defined.

(** X20: the chain of requests.  The first request of the loop goes to
    the URL it starts with.  Every later request follows a response with
    status 429 or 200: after 429 it goes to the URL of the request
    before it, after 200 to the non-empty 'next' link of that response.
    No request follows a response with another status or a 200 response
    without a 'next' link, and every sleep lasts 6 seconds. *)
Theorem fetch_loop_events (cfg : settings) (server : list response)
    (st : fetch_state) :
  (∀ u, requested (fetch_loop cfg server st).1 !! 0%nat = Some u → u = st_url st) ∧
  (∀ i u, requested (fetch_loop cfg server st).1 !! S i = Some u →
          ∃ r v, server !! i = Some r ∧
                 requested (fetch_loop cfg server st).1 !! i = Some v ∧
                 ((status_code r = 429%Z ∧ u = v) ∨
                  (status_code r = 200%Z ∧ links_next (json r) = Some u ∧ u ≠ []))) ∧
  (∀ secs, Sleep secs ∈ (fetch_loop cfg server st).1 → secs = 6%Z).
Proof.
  split; [|split].
  - intros u Hu. by apply fetch_loop_requested_head in Hu as [-> _].
  - revert st. induction server as [|r server IH]; intros st i u.
    { cbn [fetch_loop]. by case_bool_decide. }
    destruct (decide (st_url st = [])) as [Hnil|Hne]; [by rewrite fetch_loop_stop|].
    rewrite fetch_loop_requested_cons by done. cbn [lookup list_lookup].
    assert (∀ st', requested (fetch_loop cfg server st').1 !! i = Some u →
              (i = 0%nat → u = st_url st' ∧ st_url st' ≠ []) ∧
              (∀ k, i = S k →
                    ∃ r' v, server !! k = Some r' ∧
                            requested (fetch_loop cfg server st').1 !! k = Some v ∧
                            ((status_code r' = 429%Z ∧ u = v) ∨
                             (status_code r' = 200%Z ∧ links_next (json r') = Some u
                              ∧ u ≠ [])))) as Hrec.
    { intros st' Hi. split.
      - intros ->. by apply fetch_loop_requested_head in Hi.
      - intros k ->. by apply IH. }
    destruct (status_code r =? 429)%Z eqn:E429.
    { apply Z.eqb_eq in E429. intros Hi. destruct (Hrec st Hi) as [H0 HS].
      destruct i as [|k].
      - destruct (H0 eq_refl) as [-> _]. exists r, (st_url st). auto.
      - destruct (HS k eq_refl) as (r' & v & ? & ? & ?). by exists r', v. }
    destruct (status_code r =? 200)%Z eqn:E200; [|done].
    apply Z.eqb_eq in E200.
    destruct (handle_page cfg st (json r)) as [tr1 [st'|err]] eqn:Hp; [|done].
    apply handle_page_url in Hp as Hurl.
    intros Hi. destruct (Hrec st' Hi) as [H0 HS]. destruct i as [|k].
    + destruct (H0 eq_refl) as [-> Hne']. exists r, (st_url st).
      repeat split; [done..|]. right. rewrite Hurl in Hne' |- *.
      by destruct (links_next (json r)).
    + destruct (HS k eq_refl) as (r' & v & ? & ? & ?). by exists r', v.
  - revert st. induction server as [|r server IH]; intros st secs; cbn [fetch_loop].
    { case_bool_decide; cbn [fst]; [by intros ?%elem_of_nil|].
      by intros ?%list_elem_of_singleton. }
    case_bool_decide; cbn [fst]; [by intros ?%elem_of_nil|].
    destruct (status_code r =? 429)%Z.
    { specialize (IH st secs). destruct (fetch_loop cfg server st) as [tr out].
      cbn [fst] in *. intros [?|[[= ->]|?]%elem_of_cons]%elem_of_cons; auto; done. }
    destruct (negb _); cbn [fst]; [by intros ?%list_elem_of_singleton|].
    pose proof (handle_page_events cfg st (json r)) as Hev.
    destruct (handle_page cfg st (json r)) as [tr1 [st'|err]]; cbn [fst] in Hev.
    + specialize (IH st' secs). destruct (fetch_loop cfg server st') as [tr out].
      cbn [fst] in *. intros [?|[Hin|?]%elem_of_app]%elem_of_cons; auto; [done|].
      rewrite Forall_forall in Hev. by destruct (Hev _ Hin).
    + cbn [fst]. intros [?|Hin]%elem_of_cons; [done|].
      rewrite Forall_forall in Hev. by destruct (Hev _ Hin).
Qed.

Lemma fetch_loop_events_witness :
  ∃ r v, [Mock.busy; Pages.first; Pages.second] !! 1%nat = Some r ∧
         requested (fetch_loop Mock.cfg [Mock.busy; Pages.first; Pages.second]
                      (initial_state Mock.start)).1 !! 1%nat = Some v ∧
         ((status_code r = 429%Z ∧ Pages.second_url = v) ∨
          (status_code r = 200%Z ∧ links_next (json r) = Some Pages.second_url
           ∧ Pages.second_url ≠ [])).
Proof.
  apply (proj1 (proj2 (fetch_loop_events Mock.cfg [Mock.busy; Pages.first; Pages.second]
                         (initial_state Mock.start))) 1%nat Pages.second_url).
  reflexivity.
Defined.

(** X21: only status 429 is retried.  After any number of 429 answers, an
    answer whose status is neither 200 nor 429 ends the run with a
    [RuntimeError] that names the status and the URL; no further request
    is made and no block collected so far is returned. *)
Theorem fetch_loop_other_status (cfg : settings) (st : fetch_state)
    (limited : list response) (bad : response) (rest : list response) :
  st_url st ≠ [] →
  Forall (λ r, status_code r = 429%Z) limited →
  status_code bad ≠ 200%Z → status_code bad ≠ 429%Z →
  fetch_loop cfg (limited ++ bad :: rest) st
  = ((limited ≫= λ _, [Request (st_url st); Sleep 6]) ++ [Request (st_url st)],
     Failed (RuntimeError (lit "The following URL gave status code "
                             ++ of_Z (status_code bad) ++ lit ": " ++ st_url st))).
Proof.
  intros Hu Hl H200 H429.
  rewrite (fetch_loop_rate_limited cfg st limited) by done.
  cbn [fetch_loop]. rewrite bool_decide_eq_false_2 by done.
  apply Z.eqb_neq in H200, H429. by rewrite H200, H429.
Qed.

Lemma fetch_loop_other_status_witness :
  fetch_loop Mock.cfg [Mock.busy; Pages.broken; Mock.fine] (initial_state Mock.start)
  = ([Request Mock.start; Sleep 6; Request Mock.start],
     Failed (RuntimeError (lit "The following URL gave status code 503: " ++ Mock.start))).
Proof.
  apply (fetch_loop_other_status Mock.cfg (initial_state Mock.start)
           [Mock.busy] Pages.broken [Mock.fine]).
  - discriminate.
  - repeat constructor.
  - discriminate.
  - discriminate.
Defined.

(** X22: with a page size of 0 the first 200 response ends the run with
    [ZeroDivisionError], raised by the division of the page count,
    whatever the page holds; no further request is made. *)
Theorem fetch_loop_zero_query_size (cfg : settings) (url : str)
    (limited : list response) (ok : response) (rest : list response) :
  url ≠ [] → query_size cfg = 0%Z →
  Forall (λ r, status_code r = 429%Z) limited →
  status_code ok = 200%Z →
  fetch_loop cfg (limited ++ ok :: rest) (initial_state url)
  = ((limited ≫= λ _, [Request url; Sleep 6]) ++ [Request url],
     Failed ZeroDivisionError).
Proof.
  intros Hu Hq Hl H200.
  rewrite (fetch_loop_rate_limited cfg (initial_state url) limited) by done.
  cbn [fetch_loop initial_state st_url]. rewrite bool_decide_eq_false_2 by done.
  rewrite H200. cbn [Z.eqb Pos.eqb negb]. unfold handle_page, true_divide.
  cbn [st_nof_hits Z.ltb Z.compare]. by rewrite Hq.
Qed.

Lemma fetch_loop_zero_query_size_witness :
  fetch_loop {| name := lit "Ehataht, Karl"; keep_affiliation := false;
                query_size := 0; dois_to_exclude := [] |}
             [Pages.first; Pages.second] (initial_state Mock.start)
  = ([Request Mock.start], Failed ZeroDivisionError).
Proof.
  apply (fetch_loop_zero_query_size
           {| name := lit "Ehataht, Karl"; keep_affiliation := false;
              query_size := 0; dois_to_exclude := [] |}
           Mock.start [] Pages.first [Pages.second]).
  - discriminate.
  - reflexivity.
  - constructor.
  - reflexivity.
Defined.

(** X27: a number of hits that is too large for the page count.  The
    page count is computed by a float division; when the number of hits
    of the first 200 response is, in absolute value, at least
    2^1024 - 2^970 times the (non-zero) page size, the quotient is no
    finite float and the run ends with [OverflowError], whatever the
    page holds; no further request is made. *)
Theorem fetch_loop_overflow (cfg : settings) (url : str)
    (limited : list response) (ok : response) (rest : list response) :
  url ≠ [] → query_size cfg ≠ 0%Z →
  ((2 ^ 1024 - 2 ^ 970) * Z.abs (query_size cfg) ≤ Z.abs (hits_total (json ok)))%Z →
  Forall (λ r, status_code r = 429%Z) limited →
  status_code ok = 200%Z →
  fetch_loop cfg (limited ++ ok :: rest) (initial_state url)
  = ((limited ≫= λ _, [Request url; Sleep 6]) ++ [Request url],
     Failed OverflowError).
Proof.
  intros Hu Hq Hbig Hl H200.
  rewrite (fetch_loop_rate_limited cfg (initial_state url) limited) by done.
  cbn [fetch_loop initial_state st_url]. rewrite bool_decide_eq_false_2 by done.
  rewrite H200. cbn [Z.eqb Pos.eqb negb]. unfold handle_page, true_divide.
  cbn [st_nof_hits Z.ltb Z.compare].
  destruct (Z.eqb_spec (query_size cfg) 0); [done|].
  fold float_limit in Hbig.
  by destruct (Z.leb_spec (float_limit * Z.abs (query_size cfg))
                          (Z.abs (hits_total (json ok)))); [|lia].
Qed.

Lemma fetch_loop_overflow_witness :
  fetch_loop Mock.cfg
    [ Mock.busy;
      {| status_code := 200;
         json := {| hits_total := 10 ^ 400; hits_hits := []; links_next := None |} |};
      Mock.fine ]
    (initial_state Mock.start)
  = ([Request Mock.start; Sleep 6; Request Mock.start], Failed OverflowError).
Proof.
  apply (fetch_loop_overflow Mock.cfg Mock.start [Mock.busy]
           {| status_code := 200;
              json := {| hits_total := 10 ^ 400; hits_hits := [];
                         links_next := None |} |}
           [Mock.fine]).
  - discriminate.
  - discriminate.
  - vm_compute. discriminate.
  - repeat constructor.
  - reflexivity.
Defined.

(** ** The main program *)

(** X23: the search query is 'a <name>', the type clause and, for a
    non-empty date, 'de > <date>', joined by ' and '; the type clause is
    'tc p', or '(tc p or tc c)' in parentheses when proceedings are
    included. *)
Theorem build_query_shape (name date : str) (incl_conf_proc : bool) :
  build_query name date incl_conf_proc
  = lit "a " ++ name ++ lit " and "
    ++ (if incl_conf_proc then lit "(tc p or tc c)" else lit "tc p")
    ++ (if bool_decide (date = []) then [] else lit " and de > " ++ date).
Proof.
  unfold build_query. destruct incl_conf_proc; case_bool_decide;
    cbn [app length Nat.ltb Nat.leb fmap list_fmap join];
    rewrite <- ?(assoc_L (++)), ?app_nil_r; reflexivity.
Qed.

Section urls.

Lemma lit_ascii (s : string) : Forall (λ c, c < 256) (lit s).
Proof.
  unfold lit. apply Forall_fmap, Forall_forall. intros a _. apply N_ascii_bounded.
Qed.

Lemma ascii_encodable (s : str) : Forall (λ c, c < 256) s → encodable s.
Proof. intros Hs. eapply Forall_impl; [done|]. intros c Hc. cbn in Hc. left. lia. Qed.

(** UTF-8 encodes every code point but the surrogates. *)
Lemma utf8_encode_char_total (c : N) :
  ((c < 55296 ∨ 57343 < c) ∧ ∃ bs, utf8_encode_char c = Ok bs) ∨
  (¬ (c < 55296 ∨ 57343 < c) ∧ utf8_encode_char c = Raise UnicodeEncodeError).
Proof.
  unfold utf8_encode_char.
  repeat match goal with
         | |- context [N.ltb ?a ?b] => destruct (N.ltb_spec a b)
         | |- context [N.leb ?a ?b] => destruct (N.leb_spec a b)
         end; cbn [andb];
    first [left; split; [lia | by eexists] | right; split; [lia | done]].
Qed.

Lemma utf8_encode_total (s : str) :
  (encodable s ∧ ∃ bs, utf8_encode s = Ok bs) ∨
  (¬ encodable s ∧ utf8_encode s = Raise UnicodeEncodeError).
Proof.
  induction s as [|c s IH]; [left; split; [constructor | by eexists]|].
  cbn [utf8_encode].
  destruct (utf8_encode_char_total c) as [[Hc [bs ->]]|[Hc ->]]; cbn [mbind result_bind].
  - destruct IH as [[Hs [bs' ->]]|[Hs ->]]; cbn [mbind result_bind].
    + left. split; [by constructor | by eexists].
    + right. split; [|done]. intros He. apply Hs. by apply Forall_inv_tail in He.
  - right. split; [|done]. intros He. apply Hc. by apply Forall_inv in He.
Qed.

Lemma hex_digit_url (n : N) : n < 16 → url_char (hex_digit n).
Proof.
  intros Hn. unfold hex_digit, url_char.
  destruct (N.ltb_spec n 10); [right; right; left; lia | left; lia].
Qed.

Lemma always_safe_inv (b : N) :
  always_safe b = true →
  (65 ≤ b ≤ 90) ∨ (97 ≤ b ≤ 122) ∨ (48 ≤ b ≤ 57) ∨ b = 95 ∨ b = 46 ∨ b = 45 ∨ b = 126.
Proof.
  unfold always_safe.
  rewrite !orb_true_iff, !andb_true_iff, !N.leb_le, !N.eqb_eq. tauto.
Qed.

Lemma always_safe_url (b : N) : always_safe b = true → url_char b.
Proof.
  intros Hb%always_safe_inv. unfold url_char. rewrite !elem_of_cons.
  destruct Hb as [?|[?|[?|[?|[?|[?|?]]]]]]; tauto.
Qed.

Lemma quote_byte_url (b : N) : Forall url_char (quote_byte b).
Proof.
  unfold quote_byte. destruct (always_safe b) eqn:E.
  - apply Forall_singleton. by apply always_safe_url.
  - destruct (b =? 32).
    + apply Forall_singleton. unfold url_char. rewrite !elem_of_cons. tauto.
    + apply Forall_cons; split; [|apply Forall_cons; split; [|apply Forall_singleton]].
      * unfold url_char. rewrite !elem_of_cons. tauto.
      * apply hex_digit_url. by apply N.mod_lt.
      * apply hex_digit_url. by apply N.mod_lt.
Qed.

(** Quoting fails for a string with a surrogate and for no other, and
    what it returns needs no further escaping. *)
Lemma quote_plus_total (s : str) :
  (encodable s ∧ ∃ t, quote_plus s = Ok t ∧ Forall url_char t) ∨
  (¬ encodable s ∧ quote_plus s = Raise UnicodeEncodeError).
Proof.
  unfold quote_plus. destruct (utf8_encode_total s) as [[Hs [bs ->]]|[Hs ->]].
  - left. split; [done|]. eexists. split; [done|].
    apply Forall_bind, Forall_forall. intros b _. apply quote_byte_url.
  - by right.
Qed.

(** A string of safe characters is left as it is. *)
Lemma quote_plus_safe (s : str) :
  Forall (λ c, always_safe c = true) s → quote_plus s = Ok s.
Proof.
  unfold quote_plus. induction 1 as [|c s Hc _ IH]; [done|].
  cbn [utf8_encode]. unfold utf8_encode_char.
  apply always_safe_inv in Hc as Hr.
  destruct (N.ltb_spec c 128); [|lia]. cbn [mbind result_bind].
  destruct (utf8_encode s) as [bs|]; [|done]. cbn [mbind result_bind app].
  injection IH as IH. rewrite bind_cons, IH. unfold quote_byte. by rewrite Hc.
Qed.

Lemma uint_chars_safe (d : Decimal.uint) :
  Forall (λ c, always_safe c = true) (uint_chars d).
Proof. induction d; cbn [uint_chars]; by constructor. Qed.

Lemma of_Z_safe (z : Z) : Forall (λ c, always_safe c = true) (of_Z z).
Proof.
  unfold of_Z. destruct z as [|p|p]; cbn [Z.to_int NilEmpty.string_of_int].
  - by repeat constructor.
  - rewrite lit_string_of_uint. apply uint_chars_safe.
  - change (lit (String "-" ?s)) with (45 :: lit s).
    constructor; [done|]. rewrite lit_string_of_uint. apply uint_chars_safe.
Qed.

(** The URL of the first request: the address of the API and the five
    parameters, of which only the query needs quoting. *)
Lemma query_url_total (query : str) (size : Z) :
  (encodable query ∧
   ∃ quoted, quote_plus query = Ok quoted ∧ Forall url_char quoted ∧
             query_url query size
             = Ok (lit "https://inspirehep.net/api/literature?q=" ++ quoted
                   ++ lit "&size=" ++ of_Z size
                   ++ lit "&page=1&format=json&sort=mostrecent")) ∨
  (¬ encodable query ∧ query_url query size = Raise UnicodeEncodeError).
Proof.
  unfold query_url, urlencode. cbn [urlencode_pairs].
  replace (quote_plus (lit "q")) with (Ok (lit "q") : result str) by reflexivity.
  replace (quote_plus (lit "size")) with (Ok (lit "size") : result str) by reflexivity.
  replace (quote_plus (lit "page")) with (Ok (lit "page") : result str) by reflexivity.
  replace (quote_plus (of_Z 1)) with (Ok (lit "1") : result str) by reflexivity.
  replace (quote_plus (lit "format")) with (Ok (lit "format") : result str) by reflexivity.
  replace (quote_plus (lit "json")) with (Ok (lit "json") : result str) by reflexivity.
  replace (quote_plus (lit "sort")) with (Ok (lit "sort") : result str) by reflexivity.
  replace (quote_plus (lit "mostrecent")) with (Ok (lit "mostrecent") : result str)
    by reflexivity.
  rewrite (quote_plus_safe (of_Z size)) by apply of_Z_safe.
  destruct (quote_plus_total query) as [[Hq (quoted & -> & Hchars)]|[Hq ->]]; [|by right].
  left. split; [done|]. exists quoted. split; [done|]. split; [done|].
  cbn [mbind result_bind join]. f_equal.
Qed.

Lemma build_query_encodable (name date : str) (incl_conf_proc : bool) :
  encodable (build_query name date incl_conf_proc) ↔ encodable name ∧ encodable date.
Proof.
  assert (∀ s : string, encodable (lit s)) as Hlit
    by (intros s; apply ascii_encodable, lit_ascii).
  unfold build_query. destruct incl_conf_proc; case_bool_decide as Hd;
    cbn [app length Nat.ltb Nat.leb fmap list_fmap join]; unfold encodable in *;
    rewrite ?Forall_app; subst;
    (split;
     [ intros H; split; [tauto | first [tauto | constructor]]
     | intros [? ?]; repeat split; try done; apply Hlit ]).
Qed.

Lemma first_url_total (args : arguments) :
  (encodable (arg_name args) ∧ encodable (arg_date args) ∧
   ∃ url, first_url args = Ok url ∧ url ≠ [] ∧
          startswith url (lit "https://inspirehep.net/api/literature?") = true ∧
          Forall url_char url) ∨
  (¬ (encodable (arg_name args) ∧ encodable (arg_date args)) ∧
   first_url args = Raise UnicodeEncodeError).
Proof.
  unfold first_url.
  destruct (query_url_total
              (build_query (arg_name args) (arg_date args) (arg_include_proceedings args))
              (arg_query_size args)) as [[Hq (quoted & _ & Hchars & ->)]|[Hq ->]].
  - apply build_query_encodable in Hq as [? ?]. left. repeat split; [done..|].
    eexists. split; [done|]. split; [by unlit|]. split; [by unlit|].
    assert (∀ s : string, bool_decide (Forall url_char (lit s)) = true → Forall url_char (lit s))
      as Hlit by (intros s; apply bool_decide_eq_true_1).
    rewrite !Forall_app. repeat split; [by apply Hlit|done|by apply Hlit| |by apply Hlit].
    eapply Forall_impl; [apply of_Z_safe|]. apply always_safe_url.
  - right. split; [|done]. by rewrite <- build_query_encodable.
Qed.

End urls.

Lemma main_after_setup (args : arguments) (env : environment) (excluded : list str) :
  output_ok args env →
  exclude_dois_from (arg_exclude args) (lines_of_file env (arg_exclude args))
  = Ok excluded →
  main args env =
    match first_url args with
    | Raise e => ([], Aborted e)
    | Ok url =>
        match fetch_loop (settings_of args excluded) (server env) (initial_state url) with
        | (tr, Finished ris_data) =>
            (tr, if bool_decide (output_path args env = [])
                 then Printed (join [10; 10] ris_data)
                 else Saved (output_path args env) (join [10; 10] ris_data))
        | (tr, Failed e) => (tr, Aborted e)
        | (tr, Waiting _) => (tr, Stalled)
        end
    end.
Proof.
  intros Hout Hex. unfold main, output_path. rewrite Hex.
  fold (first_url args). fold (settings_of args excluded).
  case_bool_decide as Hempty; [by rewrite Hempty|].
  by destruct Hout as [? | ->].
Qed.

(** X24: a run whose setup fails makes no request.  A given output path
    whose directory does not exist ends the run with 'No directory for
    output file' before the exclusion file is looked at; otherwise a
    given exclusion path that is not a file ends it with 'No such file',
    and a malformed 'DO' line in the file with 'Not a RIS file'. *)
Theorem main_setup_failures (args : arguments) (env : environment) :
  (arg_output args ≠ [] →
   isdir env (dirname env (abspath env (arg_output args))) = false →
   main args env
   = ([], Aborted (RuntimeError (lit "No directory for output file: "
                                   ++ abspath env (arg_output args))))) ∧
  (output_ok args env → arg_exclude args ≠ [] →
   lines_of_file env (arg_exclude args) = None →
   main args env
   = ([], Aborted (RuntimeError (lit "No such file: " ++ arg_exclude args)))) ∧
  (output_ok args env → arg_exclude args ≠ [] →
   ∀ lines, lines_of_file env (arg_exclude args) = Some lines →
            Exists malformed lines →
   main args env
   = ([], Aborted (RuntimeError (lit "Not a RIS file: " ++ arg_exclude args)))).
Proof.
  assert (∀ e, output_ok args env →
            exclude_dois_from (arg_exclude args) (lines_of_file env (arg_exclude args))
            = Raise e →
            main args env = ([], Aborted e)) as Hload.
  { intros e Hout Hex. unfold main. rewrite Hex.
    case_bool_decide; [done|]. by destruct Hout as [? | ->]. }
  split; [|split].
  - intros Hne Hdir. unfold main. by rewrite bool_decide_eq_false_2, Hdir.
  - intros Hout Hne Hfile. apply Hload; [done|].
    unfold exclude_dois_from. by rewrite bool_decide_eq_false_2, Hfile.
  - intros Hout Hne lines Hfile Hbad. apply Hload; [done|].
    rewrite Hfile. unfold exclude_dois_from. rewrite bool_decide_eq_false_2 by done.
    by apply collect_dois_malformed.
Qed.

Lemma main_setup_failures_witness :
  main Pages.args Pages.no_directory
  = ([], Aborted (RuntimeError
                    (lit "No directory for output file: /home/user/out/publications.ris"))).
Proof.
  refine (proj1 (main_setup_failures Pages.args Pages.no_directory) _ _).
  - discriminate.
  - reflexivity.
Defined.

(** X25: the first request.  A run that passes the setup, with a name
    and a date that hold no surrogate code point, asks the server at
    least once, whatever the server answers: its first event is the
    request for the query URL, which begins with the address of the
    literature API and consists of letters, digits and the characters
    _ . - ~ + % = & : / ? only.  With a surrogate in the name or in the
    date, the encoding of the URL raises [UnicodeEncodeError] and the
    run ends without a request. *)
Theorem main_first_request (args : arguments) (env : environment)
    (excluded : list str) :
  output_ok args env →
  exclude_dois_from (arg_exclude args) (lines_of_file env (arg_exclude args))
  = Ok excluded →
  (encodable (arg_name args) → encodable (arg_date args) →
   ∃ url tr, first_url args = Ok url ∧
             (main args env).1 = Request url :: tr ∧
             startswith url (lit "https://inspirehep.net/api/literature?") = true ∧
             Forall url_char url) ∧
  (¬ (encodable (arg_name args) ∧ encodable (arg_date args)) →
   main args env = ([], Aborted UnicodeEncodeError)).
Proof.
  intros Hout Hex. rewrite (main_after_setup args env excluded) by done.
  destruct (first_url_total args)
    as [(Hn & Hd & url & -> & Hne & Hstart & Hchars)|[Hn ->]].
  - split; [|by intros []]. intros _ _.
    destruct (fetch_loop_first_request (settings_of args excluded) (server env)
                (initial_state url) Hne) as [tr Htr].
    exists url, tr. split; [done|]. split; [|done].
    destruct (fetch_loop _ _ _) as [tr' [d|e|st]]; cbn [fst] in *; done.
  - split; [|done]. intros ? ?. by destruct Hn.
Qed.

Lemma main_first_request_witness :
  ∃ url tr, first_url Pages.args = Ok url ∧
            (main Pages.args Pages.complete).1 = Request url :: tr ∧
            startswith url (lit "https://inspirehep.net/api/literature?") = true ∧
            Forall url_char url.
Proof.
  refine (proj1 (main_first_request Pages.args Pages.complete
                   [lit "10.1000/other"] _ _) _ _).
  - right. reflexivity.
  - reflexivity.
  - apply ascii_encodable, lit_ascii.
  - apply ascii_encodable, lit_ascii.
Defined.

(** The query URL for the name of the example call, and for a name with
    a letter outside ASCII, a date, proceedings and a negative page
    size. *)
Example first_url_examples :
  first_url {| arg_name := lit "Ehataht, Karl"; arg_output := []; arg_exclude := [];
               arg_date := []; arg_query_size := 25; arg_keep_affiliation := false;
               arg_include_proceedings := false |}
  = Ok Mock.start ∧
  first_url {| arg_name := lit "Ehat" ++ [228] ++ lit "ht, Karl"; arg_output := [];
               arg_exclude := []; arg_date := lit "2021-01"; arg_query_size := -3;
               arg_keep_affiliation := false; arg_include_proceedings := true |}
  = Ok (lit "https://inspirehep.net/api/literature?q=a+Ehat%C3%A4ht%2C+Karl+and+%28tc+p+or+tc+c%29+and+de+%3E+2021-01&size=-3&page=1&format=json&sort=mostrecent").
Proof. split; reflexivity. Qed.

(** Quoting of characters that UTF-8 encodes in one to four bytes, of
    the space, and of the safe characters. *)
Example quote_plus_examples :
  quote_plus (lit "a b~c/d") = Ok (lit "a+b~c%2Fd") ∧
  quote_plus [228] = Ok (lit "%C3%A4") ∧
  quote_plus [8364] = Ok (lit "%E2%82%AC") ∧
  quote_plus [128512] = Ok (lit "%F0%9F%98%80") ∧
  quote_plus [56448] = Raise UnicodeEncodeError.
Proof. repeat split; reflexivity. Qed.

(** X26: a complete run.  When the setup passes, the name and the date
    hold no surrogate code point, and the server delivers pages that the
    loop gets through (status 200, every record transformed without an
    exception, a page size that is not zero and a number of hits whose
    quotient by the page size a float can hold), the last one without a
    'next' link, the program requests the query URL and each 'next' link
    once, and the text it ends with is the blocks of all pages in the
    order of delivery, separated by an empty line; the run reaches
    [print] with that text when no output path is given, and the write
    to the file at the absolute form of the given path otherwise. *)
Theorem main_complete_run (args : arguments) (env : environment)
    (excluded : list str) (pages : list response) (last : response) :
  output_ok args env →
  exclude_dois_from (arg_exclude args) (lines_of_file env (arg_exclude args))
  = Ok excluded →
  encodable (arg_name args) → encodable (arg_date args) →
  arg_query_size args ≠ 0%Z →
  server env = pages ++ [last] →
  Forall (λ r, (Z.abs (hits_total (json r))
                < (2 ^ 1024 - 2 ^ 970) * Z.abs (arg_query_size args))%Z)
         (pages ++ [last]) →
  Forall (page_ok (settings_of args excluded)) (pages ++ [last]) →
  Forall (λ r, ∃ u, links_next (json r) = Some u ∧ u ≠ []) pages →
  default [] (links_next (json last)) = [] →
  ∃ url,
    first_url args = Ok url ∧
    main args env
    = (Request <$> (url :: omap (λ r, links_next (json r)) pages),
       let text := join [10; 10]
                     (blocks_of (settings_of args excluded) (pages ++ [last])) in
       if bool_decide (output_path args env = []) then Printed text
       else Saved (output_path args env) text).
Proof.
  intros Hout Hex Hn Hd Hq Hserver Hfin Hok Hnext Hlast.
  rewrite (main_after_setup args env excluded), Hserver by done.
  destruct (first_url_total args) as [(_ & _ & url & -> & Hne & _)|[[] _]]; [|done].
  exists url. split; [done|].
  rewrite <- (app_nil_r (pages ++ [last])) at 1. rewrite <- (assoc_L (++)).
  cbn [app].
  by rewrite (fetch_loop_through_pages (settings_of args excluded) pages last []
                (initial_state url) Hne Hq Hfin Hok Hnext Hlast).
Qed.

Lemma main_complete_run_witness :
  ∃ url,
    first_url Pages.args = Ok url ∧
    main Pages.args Pages.complete
    = ([Request url; Request Pages.second_url],
       Saved (lit "/home/user/out/publications.ris")
         (join [10; 10] (blocks_of Pages.cfg [Pages.first; Pages.second]))).
Proof.
  apply (main_complete_run Pages.args Pages.complete [lit "10.1000/other"]
           [Pages.first] Pages.second).
  - right. reflexivity.
  - reflexivity.
  - apply ascii_encodable, lit_ascii.
  - apply ascii_encodable, lit_ascii.
  - discriminate.
  - reflexivity.
  - repeat constructor.
  - repeat constructor; eexists; reflexivity.
  - repeat constructor. eexists. split; [reflexivity|discriminate].
  - reflexivity.
Defined.

(** A surrogate in the name, as a command line with a byte that is not
    UTF-8 produces it, ends the run before the first request. *)
Example main_surrogate_name :
  main {| arg_name := lit "Ehat" ++ [56548] ++ lit "ht, Karl"; arg_output := [];
          arg_exclude := []; arg_date := []; arg_query_size := 25;
          arg_keep_affiliation := false; arg_include_proceedings := false |}
       Pages.complete
  = ([], Aborted UnicodeEncodeError).
Proof. reflexivity. Qed.
